(** * biaplotter.artists: Scatter and Histogram2D

    A shallow embedding of [src/biaplotter/artists.py].

    - Finite double-precision numbers are rationals ([Q]); NaN and the two
      infinities are separate constructors.  Rounding and overflow of
      finite arithmetic are not represented, except where a colour is
      looked up: that computation is made on IEEE 754 doubles.
    - A one-dimensional numpy array carries its dtype: [IntArray] (an
      integer array, int64 when its entries fit) or [FloatArray]
      (float64).
    - An artist is a record of its attributes.  A setter is a computation
      in a state-and-exception monad: attribute writes made before an
      exception is raised stay in the state, as in Python.
    - The matplotlib canvas and the psygnal signals are not computed: every
      call made on them, and every warning, is appended to the [log] field
      of the artist, in program order.  The calls that matplotlib refuses
      raise as they do there: a normalization whose bounds are out of
      order or outside the domain of its scale, a [pcolormesh] whose
      grid does not fit its centres, an [ax.scatter] whose sizes do not
      fit its points, and an [ax.imshow] with an unknown interpolation
      or an opacity outside [0, 1].
    - numpy and matplotlib functions are written out after their
      documentation, each under the name it has there. *)

From Stdlib Require Import ZArith QArith Qround Ascii String Lia Lqa.
From Stdlib Require Floats.
From stdpp Require Import base list.

Open Scope Q_scope.
Open Scope nat_scope.

(** ** Numbers *)

Inductive float64 : Type :=
| NaN
| NInf
| Fin (q : Q)
| PInf.

Definition isnan (a : float64) : bool :=
  match a with NaN => true | _ => false end.

Definition isfinite (a : float64) : bool :=
  match a with Fin _ => true | _ => false end.

Definition fadd (a b : float64) : float64 :=
  match a, b with
  | NaN, _ | _, NaN => NaN
  | PInf, NInf | NInf, PInf => NaN
  | PInf, _ | _, PInf => PInf
  | NInf, _ | _, NInf => NInf
  | Fin p, Fin q => Fin (Qred (p + q))
  end.

Definition fneg (a : float64) : float64 :=
  match a with
  | NaN => NaN
  | NInf => PInf
  | PInf => NInf
  | Fin p => Fin (Qred (- p))
  end.

Definition fdiv (a b : float64) : float64 :=
  match a, b with
  | NaN, _ | _, NaN => NaN
  | Fin p, Fin q =>
      if Qeq_bool q 0 then
        (if Qeq_bool p 0 then NaN
         else if Qle_bool 0 p then PInf else NInf)
      else Fin (Qred (p / q))
  | Fin _, _ => Fin 0
  | PInf, Fin q => if Qle_bool 0 q then PInf else NInf
  | NInf, Fin q => if Qle_bool 0 q then NInf else PInf
  | _, _ => NaN
  end.

(** [a <= b], [a < b] and [a == b] on doubles: false as soon as one side
    is NaN. *)
Definition fle (a b : float64) : bool :=
  match a, b with
  | NaN, _ | _, NaN => false
  | NInf, _ => true
  | _, PInf => true
  | Fin p, Fin q => Qle_bool p q
  | _, _ => false
  end.

Definition flt (a b : float64) : bool := fle a b && negb (fle b a).

Definition feq (a b : float64) : bool := fle a b && fle b a.

(** [np.fmin] and [np.fmax]: the other operand when one is NaN. *)
Definition fmin (a b : float64) : float64 :=
  if isnan a then b else if isnan b then a else if fle a b then a else b.

Definition fmax (a b : float64) : float64 :=
  if isnan a then b else if isnan b then a else if fle a b then b else a.

(** A numpy or Python scalar. *)
Inductive scalar : Type :=
| SInt (z : Z)
| SFloat (f : float64).

Definition to_float (s : scalar) : float64 :=
  match s with
  | SInt z => Fin (inject_Z z)
  | SFloat f => f
  end.

Definition scalar_le0 (s : scalar) : bool :=
  match s with
  | SInt z => (z <=? 0)%Z
  | SFloat f => fle f (Fin 0)
  end.

(** ** Exceptions and the setter monad *)

Inductive exn : Type :=
| TypeError
| AttributeError
| ValueError
| IndexError
| KeyError
| OverflowError.

Definition result (A : Type) : Type := exn + A.

Definition M (S A : Type) : Type := S -> result A * S.

Definition ret {S A} (a : A) : M S A := fun s => (inr a, s).

Definition raise {S A} (e : exn) : M S A := fun s => (inl e, s).

Definition bind {S A B} (m : M S A) (k : A -> M S B) : M S B :=
  fun s =>
    match m s with
    | (inr a, s') => k a s'
    | (inl e, s') => (inl e, s')
    end.

Definition get {S} : M S S := fun s => (inr s, s).

Definition modify {S} (f : S -> S) : M S unit := fun s => (inr tt, f s).

Definition lift {S A} (r : result A) : M S A := fun s => (r, s).

Declare Scope py_scope.
Delimit Scope py_scope with py.
Notation "'let!' x ':=' m 'in' k" := (bind m (fun x => k))
  (at level 10, x pattern, k at level 200) : py_scope.
Notation "'run!' m 'in' k" := (bind m (fun _ => k))
  (at level 10, k at level 200) : py_scope.

(** The pure counterpart, for functions that only fail. *)
Definition rbind {A B} (r : result A) (k : A -> result B) : result B :=
  match r with
  | inr a => k a
  | inl e => inl e
  end.

Notation "'let?' x ':=' m 'in' k" := (rbind m (fun x => k))
  (at level 10, x pattern, k at level 200) : py_scope.

Open Scope py_scope.

(** ** One-dimensional arrays *)

Inductive ndarray : Type :=
| IntArray (l : list Z)
| FloatArray (l : list float64).

Definition len (a : ndarray) : nat :=
  match a with
  | IntArray l => length l
  | FloatArray l => length l
  end.

(** [a.dtype == int], that is int64.  An integer array built from
    Python integers has that dtype when every entry fits in 64 signed
    bits, and an unsigned or object dtype otherwise: [np.full(n, 2**63)]
    is a uint64 array. *)
Definition fits_int64 (z : Z) : bool :=
  (- 2 ^ 63 <=? z)%Z && (z <? 2 ^ 63)%Z.

Definition dtype_is_int (a : ndarray) : bool :=
  match a with
  | IntArray l => forallb fits_int64 l
  | FloatArray _ => false
  end.

(** The elements as doubles, the way numpy converts them when they are
    stored into a float array. *)
Definition as_floats (a : ndarray) : list float64 :=
  match a with
  | IntArray l => map (fun z => Fin (inject_Z z)) l
  | FloatArray l => l
  end.

(** [a[i]] as a scalar of the array's dtype. *)
Definition item (a : ndarray) (i : nat) : option scalar :=
  match a with
  | IntArray l => SInt <$> l !! i
  | FloatArray l => SFloat <$> l !! i
  end.

(** [np.full(n, v)]: the dtype is the one of the fill value. *)
Definition np_full (n : nat) (v : scalar) : ndarray :=
  match v with
  | SInt z => IntArray (replicate n z)
  | SFloat f => FloatArray (replicate n f)
  end.

(** [np.resize(a, n)] for a 1-d array: the array repeated as often as
    needed and cut at [n]; zeros when [a] is empty. *)
Definition resize_list {A} (zero : A) (l : list A) (n : nat) : list A :=
  match l with
  | [] => replicate n zero
  | _ => take n (mjoin (replicate ((n + length l - 1) / length l) l))
  end.

Definition np_resize (a : ndarray) (n : nat) : ndarray :=
  match a with
  | IntArray l => IntArray (resize_list 0%Z l n)
  | FloatArray l => FloatArray (resize_list (Fin 0) l n)
  end.

(** [a[m:] = 0] *)
Definition fill_from {A} (zero : A) (m : nat) (l : list A) : list A :=
  take m l ++ replicate (length l - m) zero.

Definition set_tail_zero (a : ndarray) (m : nat) : ndarray :=
  match a with
  | IntArray l => IntArray (fill_from 0%Z m l)
  | FloatArray l => FloatArray (fill_from (Fin 0) m l)
  end.

(** Storing a scalar into an int64 array: a float is truncated towards
    zero, NaN and the infinities cannot be converted. *)
Definition astype_int (v : scalar) : result Z :=
  match v with
  | SInt z => inr z
  | SFloat (Fin q) => inr (Z.quot (Qnum q) (Z.pos (Qden q)))
  | SFloat NaN => inl ValueError
  | SFloat _ => inl OverflowError
  end.

(** [a[a <= 0] = v], in the dtype of [a]. *)
Definition clamp_le0 (a : ndarray) (v : scalar) : result ndarray :=
  match a with
  | IntArray l =>
      match astype_int v with
      | inr k => inr (IntArray (map (fun z => if (z <=? 0)%Z then k else z) l))
      | inl e => inl e
      end
  | FloatArray l =>
      inr (FloatArray (map (fun x => if fle x (Fin 0) then to_float v else x) l))
  end.

(** [np.nanmin(a)] and [np.nanmax(a)]: an empty array has no minimum; an
    all-NaN float array gives NaN (the RuntimeWarning is filtered out by
    both callers). *)
Definition nanmin (a : ndarray) : result scalar :=
  match a with
  | IntArray [] | FloatArray [] => inl ValueError
  | IntArray (z :: l) => inr (SInt (foldl Z.min z l))
  | FloatArray (x :: l) => inr (SFloat (foldl fmin x l))
  end.

Definition nanmax (a : ndarray) : result scalar :=
  match a with
  | IntArray [] | FloatArray [] => inl ValueError
  | IntArray (z :: l) => inr (SInt (foldl Z.max z l))
  | FloatArray (x :: l) => inr (SFloat (foldl fmax x l))
  end.

(** [np.nanmean(a)]: the mean of the entries that are not NaN, NaN when
    there is none. *)
Definition nanmean_list (l : list float64) : float64 :=
  let kept := filter (fun x => isnan x = false) l in
  match kept with
  | [] => NaN
  | _ => fdiv (foldl fadd (Fin 0) kept) (Fin (inject_Z (Z.of_nat (length kept))))
  end.

Definition nanmean (a : ndarray) : float64 := nanmean_list (as_floats a).

(** [np.median] of a Python list of numbers: NaN as soon as one entry is
    NaN, else the middle of the sorted values (the mean of the two middle
    ones for an even count). *)
Fixpoint insert_sorted (x : float64) (l : list float64) : list float64 :=
  match l with
  | [] => [x]
  | y :: l' => if fle x y then x :: l else y :: insert_sorted x l'
  end.

Definition sort_floats (l : list float64) : list float64 :=
  foldr insert_sorted [] l.

Definition np_median (l : list float64) : float64 :=
  if existsb isnan l then NaN
  else
    let s := sort_floats l in
    let n := length s in
    if Nat.even n then
      match s !! (n / 2 - 1), s !! (n / 2) with
      | Some a, Some b => fdiv (fadd a b) (Fin 2)
      | _, _ => NaN
      end
    else default NaN (s !! (n / 2)).

(** ** Two-dimensional arrays *)

Abbreviation grid A := (list (list A)) (only parsing).

(** [np.full((height, width), v)] *)
Definition np_full2 {A} (height width : nat) (v : A) : grid A :=
  replicate height (replicate width v).

(** [g[x, y]] and [g[x, y] = v] for non-negative indices; numpy raises
    IndexError out of range. *)
Definition grid_get {A} (g : grid A) (x y : nat) : result A :=
  match g !! x with
  | Some row =>
      match row !! y with
      | Some v => inr v
      | None => inl IndexError
      end
  | None => inl IndexError
  end.

Definition grid_set {A} (g : grid A) (x y : nat) (v : A) : result (grid A) :=
  match g !! x with
  | Some row =>
      if decide (y < length row) then inr (<[x := <[y := v]> row]> g)
      else inl IndexError
  | None => inl IndexError
  end.

(** [g.shape == (height, width)] *)
Definition has_shape {A} (g : grid A) (height width : nat) : Prop :=
  length g = height /\ Forall (fun row => length row = width) g.

#[global] Instance has_shape_dec {A} (g : grid A) (height width : nat) :
  Decision (has_shape g height width).
Proof. unfold has_shape. apply _. Defined.

(** Elementwise combination of grids of equal shape. *)
Definition grid_zip_with {A B C} (f : A -> B -> C) (g : grid A) (h : grid B)
  : grid C :=
  zip_with (zip_with f) g h.

(** A loop whose body may raise. *)
Fixpoint for_each {A B} (body : A -> B -> result A) (acc : A) (l : list B)
  : result A :=
  match l with
  | [] => inr acc
  | b :: l' =>
      match body acc b with
      | inr acc' => for_each body acc' l'
      | inl e => inl e
      end
  end.

(** Python's [max] of a sequence. *)
Definition py_max (l : list nat) : result nat :=
  match l with
  | [] => inl ValueError
  | x :: l' => inr (foldl Nat.max x l')
  end.

(** [zip(x_indices, y_indices, features)] *)
Definition zip3 {A B C} (a : list A) (b : list B) (c : list C)
  : list (A * B * C) :=
  zip (zip a b) c.

(** ** Histogram2D._calculate_statistic_histogram

    The bin indices are natural numbers: the only caller clips them to
    [0, len(edges) - 2]. *)

Definition mean_body (acc : grid float64 * grid float64)
    (p : nat * nat * float64) : result (grid float64 * grid float64) :=
  let '(sums, counts) := acc in
  let '(x, y, feature) := p in
  let? s := grid_get sums x y in
  let? sums := grid_set sums x y (fadd s feature) in
  let? c := grid_get counts x y in
  let? counts := grid_set counts x y (fadd c (Fin 1)) in
  inr (sums, counts).

(** [np.divide(sums, counts, out=statistic_histogram, where=counts != 0)] *)
Definition divide_where (sums counts out : grid float64) : grid float64 :=
  grid_zip_with (fun sc o => if negb (feq (snd sc) (Fin 0))
                             then fdiv (fst sc) (snd sc) else o)
    (grid_zip_with pair sums counts) out.

(** [feature_lists[(x, y)].append(feature)] on a [defaultdict(list)]; the
    association list keeps the insertion order of the keys. *)
Fixpoint append_feature (d : list (nat * nat * list float64))
    (k : nat * nat) (v : float64) : list (nat * nat * list float64) :=
  match d with
  | [] => [(k, [v])]
  | (k', vs) :: d' =>
      if decide (k' = k) then (k', vs ++ [v]) :: d'
      else (k', vs) :: append_feature d' k v
  end.

Definition median_body (g : grid float64) (e : nat * nat * list float64)
  : result (grid float64) :=
  let '(x, y, feats) := e in
  match feats with
  | [] => inr g
  | _ => grid_set g x y (np_median feats)
  end.

Definition sum_body (acc : grid float64 * grid bool)
    (p : nat * nat * float64) : result (grid float64 * grid bool) :=
  let '(sums, sums_flags) := acc in
  let '(x, y, feature) := p in
  let? s := grid_get sums x y in
  let? sums := (if isnan s then grid_set sums x y (Fin 0) else inr sums) in
  let? s := grid_get sums x y in
  let? sums := grid_set sums x y (fadd s feature) in
  let? sums_flags := grid_set sums_flags x y true in
  inr (sums, sums_flags).

(** [statistic_histogram[sums_flags] = sums[sums_flags]] *)
Definition assign_where (flags : grid bool) (sums out : grid float64)
  : grid float64 :=
  grid_zip_with (fun (fs : bool * float64) o => if fst fs then snd fs else o)
    (grid_zip_with pair flags sums) out.

Definition _calculate_statistic_histogram (x_indices y_indices : list nat)
    (features : ndarray) (statistic : string) : result (grid float64) :=
  let? mx := py_max x_indices in
  let height := mx + 1 in
  let? my := py_max y_indices in
  let width := my + 1 in
  let statistic_histogram := np_full2 height width NaN in
  let points := zip3 x_indices y_indices (as_floats features) in
  if String.eqb statistic "mean"%string then
    let sums := np_full2 height width (Fin 0) in
    let counts := np_full2 height width (Fin 0) in
    let? (sums, counts) := for_each mean_body (sums, counts) points in
    inr (divide_where sums counts statistic_histogram)
  else if String.eqb statistic "median"%string then
    let feature_lists :=
      foldl (fun d '(x, y, feature) => append_feature d (x, y) feature)
        [] points in
    for_each median_body statistic_histogram feature_lists
  else if String.eqb statistic "sum"%string then
    let sums := np_full2 height width (Fin 0) in
    let sums_flags := np_full2 height width false in
    let? (sums, sums_flags) := for_each sum_body (sums, sums_flags) points in
    inr (assign_where sums_flags sums statistic_histogram)
  else inr statistic_histogram.

(** ** numpy.histogram2d and numpy.digitize *)

Abbreviation point := (float64 * float64)%type (only parsing).

Definition finite_value (x : float64) : option Q :=
  match x with Fin q => Some q | _ => None end.

(** numpy refuses a sample whose minimum or maximum is not finite, that
    is, a sample with a NaN or an infinite value. *)
Definition finite_values (a : list float64) : result (list Q) :=
  match mapM finite_value a with
  | Some l => inr l
  | None => inl ValueError
  end.

Definition qmin (a b : Q) : Q := if Qle_bool a b then a else b.
Definition qmax (a b : Q) : Q := if Qle_bool a b then b else a.

(** [_get_outer_edges(a, None)]: the range of the sample, widened by 0.5
    on both sides when it is a single value. *)
Definition _get_outer_edges (a : list Q) : Q * Q :=
  match a with
  | [] => (0, 1)%Q
  | q :: qs =>
      let first_edge := foldl qmin q qs in
      let last_edge := foldl qmax q qs in
      if Qeq_bool first_edge last_edge
      then (first_edge - 0.5, last_edge + 0.5)%Q
      else (first_edge, last_edge)
  end.

(** [np.linspace(start, stop, div + 1)]: the last point is [stop]
    itself. *)
Definition np_linspace (start stop : Q) (div : nat) : list Q :=
  let step := ((stop - start) / inject_Z (Z.of_nat div))%Q in
  map (fun i => Qred (inject_Z (Z.of_nat i) * step + start)) (seq 0 div)
  ++ [Qred stop].

(** [np.searchsorted(edges, x, side='right')] on increasing edges: the
    number of edges that are [<= x]. *)
Definition searchsorted_right (edges : list Q) (x : Q) : nat :=
  length (List.filter (fun e => Qle_bool e x) edges).

(** The bin of [x] in [histogramdd]: a value on the last edge is moved
    into the last bin ([on_edge]); the two outlier bins are dropped, hence
    the final [- 1]. *)
Definition hist_bin (edges : list Q) (x : Q) : nat :=
  let n := searchsorted_right edges x in
  let n := if Qeq_bool x (List.last edges 0%Q) then n - 1 else n in
  n - 1.

Abbreviation histogram :=
  (grid float64 * list float64 * list float64)%type (only parsing).

Definition np_histogram2d (x y : list float64) (bins : Z) : result histogram :=
  if (bins <? 1)%Z then inl ValueError
  else
    let n := Z.to_nat bins in
    let? xs := finite_values x in
    let? ys := finite_values y in
    let x_edges := (let '(lo, hi) := _get_outer_edges xs in np_linspace lo hi n) in
    let y_edges := (let '(lo, hi) := _get_outer_edges ys in np_linspace lo hi n) in
    let cells := zip (map (hist_bin x_edges) xs) (map (hist_bin y_edges) ys) in
    let counts :=
      map (fun i =>
             map (fun j =>
                    Fin (inject_Z (Z.of_nat
                      (length (filter (fun c => c = (i, j)) cells)))))
               (seq 0 n))
        (seq 0 n) in
    inr (counts, map Fin x_edges, map Fin y_edges).

(** [np.digitize(x, edges, right=False)]: NaN is sorted after every
    edge. *)
Definition np_digitize (edges : list float64) (x : float64) : nat :=
  if isnan x then length edges
  else length (List.filter (fun e => fle e x) edges).

(** [(np.digitize(x, edges, right=False) - 1).clip(0, len(edges) - 2)] *)
Definition bin_index (edges : list float64) (x : float64) : nat :=
  Z.to_nat
    (Z.min (Z.max (Z.of_nat (np_digitize edges x) - 1) 0)
       (Z.of_nat (length edges) - 2)).

(** ** Colormaps and normalizations *)

Abbreviation rgba := (Q * Q * Q * Q)%type (only parsing).

(** Modelled from the spec: [biaplotter.colormap.BiaColormap] is not among
    the sources.  Section 4.1 of the specification describes it as a
    wrapper exposing the ordered RGBA entries, their number [N] and the
    [categorical] flag. *)
Record BiaColormap : Type := {
  cmap : list rgba;
  categorical : bool
}.

Definition cmap_N (c : BiaColormap) : Z := Z.of_nat (length (cmap c)).

Inductive norm_class : Type :=
| Normalize_class
| LogNorm_class
| SymLogNorm_class
| CenteredNorm_class.

Inductive norm : Type :=
| Normalize (vmin vmax : scalar)
| LogNorm (vmin vmax : scalar)
| SymLogNorm (vmin vmax : scalar) (linthresh : Q)
| CenteredNorm (vcenter : float64).

(** The dictionary [self._normalization_methods]. *)
Definition _normalization_methods (method : string) : result norm_class :=
  if String.eqb method "linear"%string then inr Normalize_class
  else if String.eqb method "log"%string then inr LogNorm_class
  else if String.eqb method "symlog"%string then inr SymLogNorm_class
  else if String.eqb method "centered"%string then inr CenteredNorm_class
  else inl KeyError.

(** [norm_class(vmin=.., vmax=..)], [norm_class(vmin=.., vmax=..,
    linthresh=..)] and [norm_class(vcenter=..)]: a class called with
    keywords it does not take, or without one it requires, raises. *)
Definition call_vmin_vmax (c : norm_class) (vmin vmax : scalar) : result norm :=
  match c with
  | Normalize_class => inr (Normalize vmin vmax)
  | LogNorm_class => inr (LogNorm vmin vmax)
  | _ => inl TypeError
  end.

Definition call_linthresh (c : norm_class) (vmin vmax : scalar) (l : Q)
  : result norm :=
  match c with
  | SymLogNorm_class => inr (SymLogNorm vmin vmax l)
  | _ => inl TypeError
  end.

Definition call_vcenter (c : norm_class) (vcenter : float64) : result norm :=
  match c with
  | CenteredNorm_class => inr (CenteredNorm vcenter)
  | _ => inl TypeError
  end.

(** [norm(values)], the first thing [ScalarMappable.to_rgba] does.
    matplotlib checks the bounds when the normalization is applied:
    [Normalize] raises ValueError when [vmin > vmax]; the normalizations
    built from a scale ([LogNorm], [SymLogNorm]) raise ValueError when
    [vmin > vmax] and, unless [vmin == vmax], when the transform of a
    bound is not finite (a logarithm is finite on the finite positive
    numbers, the symmetric logarithm on the finite numbers).
    [CenteredNorm] derives its bounds from the centre and the values and
    raises nothing. *)
Definition norm_call (n : norm) : result unit :=
  match n with
  | Normalize vmin vmax =>
      if flt (to_float vmax) (to_float vmin) then inl ValueError else inr tt
  | LogNorm vmin vmax =>
      let lo := to_float vmin in
      let hi := to_float vmax in
      if flt hi lo then inl ValueError
      else if feq lo hi then inr tt
      else if isfinite lo && isfinite hi && flt (Fin 0) lo && flt (Fin 0) hi
           then inr tt
           else inl ValueError
  | SymLogNorm vmin vmax _ =>
      let lo := to_float vmin in
      let hi := to_float vmax in
      if flt hi lo then inl ValueError
      else if feq lo hi then inr tt
      else if isfinite lo && isfinite hi then inr tt
           else inl ValueError
  | CenteredNorm _ => inr tt
  end.

(** ** Colours, in binary64

    The colour of a value is decided by a truncation, so the rounding of
    the two operations before it matters: this part is computed on
    IEEE 754 doubles. *)

(** The double nearest to an integer (of magnitude below [2^63]). *)
Definition binary64_of_Z (z : Z) : PrimFloat.float :=
  match z with
  | Z0 => PrimFloat.zero
  | Zpos _ => PrimFloat.of_uint63 (Uint63.of_Z z)
  | Zneg p => PrimFloat.opp (PrimFloat.of_uint63 (Uint63.of_Z (Zpos p)))
  end.

(** The double of an array element: exact for an integer, the quotient
    of numerator and denominator for the other finite numbers. *)
Definition binary64 (x : float64) : PrimFloat.float :=
  match x with
  | NaN => PrimFloat.nan
  | NInf => PrimFloat.neg_infinity
  | PInf => PrimFloat.infinity
  | Fin q =>
      PrimFloat.div (binary64_of_Z (Qnum q)) (binary64_of_Z (Zpos (Qden q)))
  end.

(** [x.astype(int)] on a finite double: truncation towards zero. *)
Definition binary64_trunc (x : PrimFloat.float) : Z :=
  match FloatOps.Prim2SF x with
  | SpecFloat.S754_finite s m e =>
      let v := if (0 <=? e)%Z then Z.shiftl (Zpos m) e
               else Z.shiftr (Zpos m) (- e) in
      if s then (- v)%Z else v
  | _ => 0%Z
  end.

(** [Normalize(vmin, vmax)(v)]: [(v - vmin) / (vmax - vmin)], and 0 when
    the bounds coincide. *)
Definition normalize_linear (vmin vmax v : PrimFloat.float)
  : PrimFloat.float :=
  if PrimFloat.eqb vmin vmax then PrimFloat.zero
  else PrimFloat.div (PrimFloat.sub v vmin) (PrimFloat.sub vmax vmin).

Definition transparent : rgba := (0, 0, 0, 0)%Q.

(** [Colormap.__call__] on a double, for a palette of [n] entries: the
    entry at [int(x * n)]; the last entry for [x * n == n]; the under
    and over colours (first and last entry) below 0 and above [n]; no
    entry (the transparent bad colour) for NaN. *)
Definition palette_index (n : nat) (x : PrimFloat.float) : option nat :=
  let N := binary64_of_Z (Z.of_nat n) in
  if PrimFloat.is_nan x then None
  else
    let xa := PrimFloat.mul x N in
    if PrimFloat.ltb xa PrimFloat.zero then Some 0
    else if PrimFloat.leb N xa then Some (n - 1)
    else Some (Z.to_nat (binary64_trunc xa)).

Definition palette_lookup (palette : list rgba) (x : PrimFloat.float)
  : rgba :=
  match palette_index (length palette) x with
  | Some i => default transparent (palette !! i)
  | None => transparent
  end.

(** [ScalarMappable(norm=Normalize(vmin, vmax), cmap=palette)
    .to_rgba(values)] *)
Definition to_rgba_linear (vmin vmax : scalar) (palette : list rgba)
    (values : ndarray) : list rgba :=
  map (fun v =>
         palette_lookup palette
           (normalize_linear (binary64 (to_float vmin))
              (binary64 (to_float vmax)) (binary64 v)))
    (as_floats values).

(** The palette entry picked for the integer [i] under
    [Normalize(0, K)] and a palette of [K] entries. *)
Definition categorical_index (K : nat) (i : Z) : option nat :=
  palette_index K
    (normalize_linear (binary64_of_Z 0) (binary64_of_Z (Z.of_nat K))
       (binary64_of_Z i)).

(** ** What the artists do to their surroundings *)

Inductive warning : Type :=
| Color_indices_must_be_integers
| Categorical_colormap_detected
| Log_normalization_applied (min_value : scalar).

Inductive size_value : Type :=
| SizeScalar (v : scalar)
| SizeArray (l : list float64).

(** [ax.scatter(x, y, s=s)] raises ValueError unless [s] is a scalar or
    has one entry or one entry per point. *)
Definition scatter_accepts_size (s : size_value) (n : nat) : bool :=
  match s with
  | SizeScalar _ => true
  | SizeArray l => (length l =? 1) || (length l =? n)
  end.

(** [str.lower()] on the letters of ASCII. *)
Definition ascii_lower (c : ascii) : ascii :=
  let n := nat_of_ascii c in
  if (65 <=? n) && (n <=? 90) then ascii_of_nat (n + 32) else c.

Fixpoint lower (s : string) : string :=
  match s with
  | EmptyString => EmptyString
  | String c s' => String (ascii_lower c) (lower s')
  end.

(** The interpolation names that every release of matplotlib since 3.2
    accepts (3.10 adds 'auto', which is not counted here). *)
Definition interpolations_names : list string :=
  ["none"; "antialiased"; "nearest"; "bilinear"; "bicubic"; "spline16";
   "spline36"; "hanning"; "hamming"; "hermite"; "kaiser"; "quadric";
   "catrom"; "gaussian"; "bessel"; "mitchell"; "sinc"; "lanczos";
   "blackman"]%string.

(** What [AxesImage] checks of the arguments [interpolation] and
    [alpha] of [ax.imshow]: the lower-cased name is known, and
    [0 <= alpha <= 1]. *)
Definition imshow_accepts (interpolation : string) (alpha : Q) : bool :=
  existsb (String.eqb (lower interpolation)) interpolations_names
  && Qle_bool 0 alpha && Qle_bool alpha 1.

(** The result of [_histogram2D_array_to_rgba]: the grid coloured through
    [norm] and [cmap], NaN cells transparent.  The colours themselves are
    not computed. *)
Record image : Type := {
  img_norm : norm;
  img_cmap : list rgba;
  img_values : grid float64
}.

Abbreviation handle := nat (only parsing).

(** A value of [color_indices], as a setter or [__init__] receives it
    and as the attribute [_color_indices] holds it: None, a scalar or an
    array.  [Artist.__init__] stores its argument as given; the setters
    store None or an array. *)
Inductive indices_arg : Type :=
| ArgNone
| ArgScalar (v : scalar)
| ArgArray (a : ndarray).

Inductive event : Type :=
| data_changed_signal_emit (d : list point)
| color_indices_changed_signal_emit (c : indices_arg)
| warnings_warn (w : warning)
| ax_scatter (d : list point) (s : size_value)
| set_offsets (d : list point)
| set_facecolor (n : norm) (palette : list rgba) (values : ndarray)
| set_edgecolor_None
| set_sizes (s : size_value)
| ax_imshow (h : handle) (zorder : nat) (img : image)
    (interpolation : string) (alpha : Q)
| image_remove (h : handle)
| draw_idle.

(** ** class Scatter *)

Module Scatter.

(** [_scatter] tells whether the matplotlib collection exists
    ([self._scatter is not None]); [_size] is [None] as long as the
    attribute has not been assigned, which is the case while
    [__init__] runs its first [self.data = data]. *)
Record t : Type := {
  _data : option (list point);
  _visible : bool;
  _overlay_colormap : BiaColormap;
  _color_indices : indices_arg;
  _scatter : bool;
  _color_normalization_method : string;
  _size : option size_value;
  log : list event
}.

Definition set__data (v : option (list point)) (s : t) : t :=
  {| _data := v; _visible := _visible s;
     _overlay_colormap := _overlay_colormap s;
     _color_indices := _color_indices s; _scatter := _scatter s;
     _color_normalization_method := _color_normalization_method s;
     _size := _size s; log := log s |}.

Definition set__overlay_colormap (v : BiaColormap) (s : t) : t :=
  {| _data := _data s; _visible := _visible s;
     _overlay_colormap := v;
     _color_indices := _color_indices s; _scatter := _scatter s;
     _color_normalization_method := _color_normalization_method s;
     _size := _size s; log := log s |}.

Definition set__color_indices (v : indices_arg) (s : t) : t :=
  {| _data := _data s; _visible := _visible s;
     _overlay_colormap := _overlay_colormap s;
     _color_indices := v; _scatter := _scatter s;
     _color_normalization_method := _color_normalization_method s;
     _size := _size s; log := log s |}.

Definition set__scatter (v : bool) (s : t) : t :=
  {| _data := _data s; _visible := _visible s;
     _overlay_colormap := _overlay_colormap s;
     _color_indices := _color_indices s; _scatter := v;
     _color_normalization_method := _color_normalization_method s;
     _size := _size s; log := log s |}.

Definition set__color_normalization_method (v : string) (s : t) : t :=
  {| _data := _data s; _visible := _visible s;
     _overlay_colormap := _overlay_colormap s;
     _color_indices := _color_indices s; _scatter := _scatter s;
     _color_normalization_method := v;
     _size := _size s; log := log s |}.

Definition set__size (v : option size_value) (s : t) : t :=
  {| _data := _data s; _visible := _visible s;
     _overlay_colormap := _overlay_colormap s;
     _color_indices := _color_indices s; _scatter := _scatter s;
     _color_normalization_method := _color_normalization_method s;
     _size := v; log := log s |}.

Definition emit (e : event) : M t unit :=
  modify (fun s =>
    {| _data := _data s; _visible := _visible s;
       _overlay_colormap := _overlay_colormap s;
       _color_indices := _color_indices s; _scatter := _scatter s;
       _color_normalization_method := _color_normalization_method s;
       _size := _size s; log := log s ++ [e] |}).

Definition draw : M t unit := emit draw_idle.

(** The normalization chosen for a continuous colormap, with the array
    as it is after the in-place clamp of the log branch. *)
Definition continuous_norm (method : string) (norm_class : norm_class)
    (indices : ndarray) : M t (norm * ndarray) :=
  if String.eqb method "log"%string then
    let! min_value := lift (nanmin indices) in
    let min_value :=
      if scalar_le0 min_value then SFloat (Fin 0.01) else min_value in
    let! vmax := lift (nanmax indices) in
    let! norm := lift (call_vmin_vmax norm_class min_value vmax) in
    run! emit (warnings_warn (Log_normalization_applied min_value)) in
    let! indices := lift (clamp_le0 indices min_value) in
    (* [indices] and [self._color_indices] are the same array *)
    run! modify (set__color_indices (ArgArray indices)) in
    ret (norm, indices)
  else if String.eqb method "centered"%string then
    let! norm := lift (call_vcenter norm_class (nanmean indices)) in
    ret (norm, indices)
  else if String.eqb method "symlog"%string then
    let! vmin := lift (nanmin indices) in
    let! vmax := lift (nanmax indices) in
    let! norm := lift (call_linthresh norm_class vmin vmax 0.03) in
    ret (norm, indices)
  else
    let! vmin := lift (nanmin indices) in
    let! vmax := lift (nanmax indices) in
    let! norm := lift (call_vmin_vmax norm_class vmin vmax) in
    ret (norm, indices).

Definition categorical_norm (indices : ndarray) : M t (norm * ndarray) :=
  let! self := get in
  run! (if negb (dtype_is_int indices)
        then emit (warnings_warn Color_indices_must_be_integers)
        else ret tt) in
  run! (if negb (String.eqb (_color_normalization_method self) "linear"%string)
        then
          run! emit (warnings_warn Categorical_colormap_detected) in
          modify (set__color_normalization_method "linear"%string)
        else ret tt) in
  ret (Normalize (SInt 0) (SInt (cmap_N (_overlay_colormap self))), indices).

(** The [color_indices] setter. *)
Definition color_indices_set (indices : indices_arg) : M t unit :=
  let! self := get in
  let! indices :=
    match indices with
    | ArgScalar v =>
        match _data self with
        | Some d => ret (ArgArray (np_full (length d) v))
        | None => raise TypeError
        end
    | ArgArray a => ret (ArgArray a)
    | ArgNone => ret ArgNone
    end in
  run! modify (set__color_indices indices) in
  run! match indices with
       | ArgArray a =>
           if _scatter self then
             let! norm_class :=
               lift (_normalization_methods (_color_normalization_method self)) in
             let! (norm, a) :=
               (if categorical (_overlay_colormap self)
                then categorical_norm a
                else continuous_norm (_color_normalization_method self)
                       norm_class a) in
             (* sm.to_rgba(indices) *)
             run! lift (norm_call norm) in
             run! emit (set_facecolor norm (cmap (_overlay_colormap self)) a) in
             emit set_edgecolor_None
           else ret tt
       | _ => ret tt
       end in
  let! self := get in
  run! emit (color_indices_changed_signal_emit (_color_indices self)) in
  draw.

(** The [size] setter. *)
Definition size_set (value : size_value) : M t unit :=
  run! modify (set__size (Some value)) in
  let! self := get in
  run! (if _scatter self then
          match _data self with
          | Some _ => emit (set_sizes value)
          | None =>
              match value with
              | SizeScalar _ => raise TypeError
              | SizeArray _ => emit (set_sizes value)
              end
          end
        else ret tt) in
  draw.

(** [color_indices = np.resize(self._color_indices, self._data.shape[0])]
    followed by [color_indices[color_indices_size:] = 0] when the array
    grew. *)
Definition resized_color_indices (old : ndarray) (n : nat) : ndarray :=
  let color_indices_size := len old in
  let color_indices := np_resize old n in
  if color_indices_size <? len color_indices
  then set_tail_zero color_indices color_indices_size
  else color_indices.

(** The [data] setter. *)
Definition data_set (value : option (list point)) : M t unit :=
  match value with
  | None => ret tt
  | Some [] => ret tt
  | Some value =>
      run! modify (set__data (Some value)) in
      run! emit (data_changed_signal_emit value) in
      let! self := get in
      run! (if _scatter self then emit (set_offsets value)
            else
              let! s := match _size self with
                        | Some s => ret s
                        | None => raise AttributeError
                        end in
              run! (if scatter_accepts_size s (length value) then ret tt
                    else raise ValueError) in
              run! emit (ax_scatter value s) in
              run! modify (set__scatter true) in
              color_indices_set (ArgScalar (SInt 0))) in
      let! self := get in
      run! match _color_indices self with
           | ArgNone => color_indices_set (ArgScalar (SInt 0))
           | ArgArray old =>
               color_indices_set
                 (ArgArray (resized_color_indices old (length value)))
           | ArgScalar _ => raise TypeError
           end in
      run! size_set (SizeScalar (SInt 50)) in
      draw
  end.

(** The [overlay_colormap] and [color_normalization_method] setters. *)
Definition overlay_colormap_set (value : BiaColormap) : M t unit :=
  run! modify (set__overlay_colormap value) in
  let! self := get in
  color_indices_set (_color_indices self).

Definition color_normalization_method_set (value : string) : M t unit :=
  run! modify (set__color_normalization_method value) in
  let! self := get in
  color_indices_set (_color_indices self).

(** [Scatter(ax, data, overlay_colormap, color_indices)] *)
Definition __init__ (data : option (list point))
    (overlay_colormap : BiaColormap) (color_indices : indices_arg)
  : result unit * t :=
  (run! data_set data in
   run! modify (set__size (Some (SizeScalar (SInt 50)))) in
   draw)
    {| _data := data; _visible := true;
       _overlay_colormap := overlay_colormap;
       _color_indices := color_indices; _scatter := false;
       _color_normalization_method := "linear"%string;
       _size := None; log := [] |}.

End Scatter.

(** ** class Histogram2D *)

Module Histogram2D.

(** [_histogram], [_histogram_rgba] and [overlay_histogram_rgba] are
    [None] until the first assignment creates the attribute.  An image
    handle is the position in [log] of the [ax.imshow] call that made
    it. *)
Record t : Type := {
  _data : option (list point);
  _visible : bool;
  _overlay_colormap : BiaColormap;
  _color_indices : indices_arg;
  _histogram_image : option handle;
  _bins : Z;
  _histogram_colormap : BiaColormap;
  _histogram_interpolation : string;
  _overlay_interpolation : string;
  _overlay_opacity : Q;
  _overlay_visible : bool;
  _overlay_histogram_image : option handle;
  _histogram_color_normalization_method : string;
  _overlay_color_normalization_method : string;
  _histogram : option histogram;
  _histogram_rgba : option image;
  overlay_histogram_rgba : option image;
  log : list event
}.

(** Attribute assignment: the fields named in a [patch] are replaced,
    the others kept. *)
Record patch : Type := {
  p_data : option (option (list point));
  p_color_indices : option indices_arg;
  p_histogram_image : option (option handle);
  p_bins : option Z;
  p_overlay_histogram_image : option (option handle);
  p_histogram_method : option string;
  p_overlay_method : option string;
  p_histogram : option (option histogram);
  p_histogram_rgba : option (option image);
  p_overlay_rgba : option (option image)
}.

Definition apply (p : patch) (s : t) : t :=
  {| _data := default (_data s) (p_data p);
     _visible := _visible s;
     _overlay_colormap := _overlay_colormap s;
     _color_indices := default (_color_indices s) (p_color_indices p);
     _histogram_image := default (_histogram_image s) (p_histogram_image p);
     _bins := default (_bins s) (p_bins p);
     _histogram_colormap := _histogram_colormap s;
     _histogram_interpolation := _histogram_interpolation s;
     _overlay_interpolation := _overlay_interpolation s;
     _overlay_opacity := _overlay_opacity s;
     _overlay_visible := _overlay_visible s;
     _overlay_histogram_image :=
       default (_overlay_histogram_image s) (p_overlay_histogram_image p);
     _histogram_color_normalization_method :=
       default (_histogram_color_normalization_method s) (p_histogram_method p);
     _overlay_color_normalization_method :=
       default (_overlay_color_normalization_method s) (p_overlay_method p);
     _histogram := default (_histogram s) (p_histogram p);
     _histogram_rgba := default (_histogram_rgba s) (p_histogram_rgba p);
     overlay_histogram_rgba :=
       default (overlay_histogram_rgba s) (p_overlay_rgba p);
     log := log s |}.

Definition set__data v : M t unit :=
  modify (apply
    {| p_data := Some v; p_color_indices := None;
    p_histogram_image := None; p_bins := None;
    p_overlay_histogram_image := None; p_histogram_method := None;
    p_overlay_method := None; p_histogram := None;
    p_histogram_rgba := None; p_overlay_rgba := None |}).

Definition set__color_indices v : M t unit :=
  modify (apply
    {| p_data := None; p_color_indices := Some v;
    p_histogram_image := None; p_bins := None;
    p_overlay_histogram_image := None; p_histogram_method := None;
    p_overlay_method := None; p_histogram := None;
    p_histogram_rgba := None; p_overlay_rgba := None |}).

Definition set__histogram_image v : M t unit :=
  modify (apply
    {| p_data := None; p_color_indices := None;
    p_histogram_image := Some v; p_bins := None;
    p_overlay_histogram_image := None; p_histogram_method := None;
    p_overlay_method := None; p_histogram := None;
    p_histogram_rgba := None; p_overlay_rgba := None |}).


Definition set__overlay_histogram_image v : M t unit :=
  modify (apply
    {| p_data := None; p_color_indices := None;
    p_histogram_image := None; p_bins := None;
    p_overlay_histogram_image := Some v; p_histogram_method := None;
    p_overlay_method := None; p_histogram := None;
    p_histogram_rgba := None; p_overlay_rgba := None |}).

Definition set__histogram_color_normalization_method v : M t unit :=
  modify (apply
    {| p_data := None; p_color_indices := None;
    p_histogram_image := None; p_bins := None;
    p_overlay_histogram_image := None; p_histogram_method := Some v;
    p_overlay_method := None; p_histogram := None;
    p_histogram_rgba := None; p_overlay_rgba := None |}).

Definition set__overlay_color_normalization_method v : M t unit :=
  modify (apply
    {| p_data := None; p_color_indices := None;
    p_histogram_image := None; p_bins := None;
    p_overlay_histogram_image := None; p_histogram_method := None;
    p_overlay_method := Some v; p_histogram := None;
    p_histogram_rgba := None; p_overlay_rgba := None |}).

Definition set__histogram v : M t unit :=
  modify (apply
    {| p_data := None; p_color_indices := None;
    p_histogram_image := None; p_bins := None;
    p_overlay_histogram_image := None; p_histogram_method := None;
    p_overlay_method := None; p_histogram := Some v;
    p_histogram_rgba := None; p_overlay_rgba := None |}).

Definition set__histogram_rgba v : M t unit :=
  modify (apply
    {| p_data := None; p_color_indices := None;
    p_histogram_image := None; p_bins := None;
    p_overlay_histogram_image := None; p_histogram_method := None;
    p_overlay_method := None; p_histogram := None;
    p_histogram_rgba := Some v; p_overlay_rgba := None |}).

Definition set_overlay_histogram_rgba v : M t unit :=
  modify (apply
    {| p_data := None; p_color_indices := None;
    p_histogram_image := None; p_bins := None;
    p_overlay_histogram_image := None; p_histogram_method := None;
    p_overlay_method := None; p_histogram := None;
    p_histogram_rgba := None; p_overlay_rgba := Some v |}).

Definition emit (e : event) : M t unit :=
  modify (fun s =>
    {| _data := _data s; _visible := _visible s;
       _overlay_colormap := _overlay_colormap s;
       _color_indices := _color_indices s;
       _histogram_image := _histogram_image s; _bins := _bins s;
       _histogram_colormap := _histogram_colormap s;
       _histogram_interpolation := _histogram_interpolation s;
       _overlay_interpolation := _overlay_interpolation s;
       _overlay_opacity := _overlay_opacity s;
       _overlay_visible := _overlay_visible s;
       _overlay_histogram_image := _overlay_histogram_image s;
       _histogram_color_normalization_method :=
         _histogram_color_normalization_method s;
       _overlay_color_normalization_method :=
         _overlay_color_normalization_method s;
       _histogram := _histogram s; _histogram_rgba := _histogram_rgba s;
       overlay_histogram_rgba := overlay_histogram_rgba s;
       log := log s ++ [e] |}).

Definition draw : M t unit := emit draw_idle.

(** [ax.imshow(...)]: the new image is handed back.  [AxesImage]
    refuses an interpolation it does not know and an [alpha] outside
    [0, 1] with ValueError, before the image is added to the axes. *)
Definition imshow (img : image) (zorder : nat) (interpolation : string)
    (alpha : Q) : M t handle :=
  run! (if imshow_accepts interpolation alpha then ret tt
        else raise ValueError) in
  let! self := get in
  let h := length (log self) in
  run! emit (ax_imshow h zorder img interpolation alpha) in
  ret h.

Definition method_of (is_overlay : bool) (self : t) : string :=
  if is_overlay then _overlay_color_normalization_method self
  else _histogram_color_normalization_method self.

Definition _handle_norm_method_for_categorical_colormap (is_overlay : bool)
    (colormap : BiaColormap) (dtype_int : bool) : M t norm :=
  let! self := get in
  let color_normalization_method := method_of is_overlay self in
  run! (if negb dtype_int
        then emit (warnings_warn Color_indices_must_be_integers)
        else ret tt) in
  run! (if negb (String.eqb color_normalization_method "linear"%string)
        then
          run! emit (warnings_warn Categorical_colormap_detected) in
          if is_overlay
          then set__overlay_color_normalization_method "linear"%string
          else set__histogram_color_normalization_method "linear"%string
        else ret tt) in
  ret (Normalize (SInt 0) (SInt (cmap_N colormap))).

(** [histogram_data[histogram_data <= 0] = min_value] on a float grid. *)
Definition grid_clamp_le0 (g : grid float64) (v : scalar) : grid float64 :=
  map (map (fun x => if fle x (Fin 0) then to_float v else x)) g.

(** Returns the normalization together with [histogram_data] as the
    in-place clamp of the log branch leaves it. *)
Definition _handle_norm_method_for_continuous_colormap (is_overlay : bool)
    (norm_class : norm_class) (histogram_data : grid float64)
    (lintresh_for_symlog min_value_for_log : Q)
  : M t (norm * grid float64) :=
  let! self := get in
  let color_normalization_method := method_of is_overlay self in
  let flat := FloatArray (concat histogram_data) in
  if String.eqb color_normalization_method "log"%string then
    let! min_value := lift (nanmin flat) in
    let min_value :=
      if scalar_le0 min_value then SFloat (Fin min_value_for_log)
      else min_value in
    let! vmax := lift (nanmax flat) in
    let! norm := lift (call_vmin_vmax norm_class min_value vmax) in
    run! emit (warnings_warn (Log_normalization_applied min_value)) in
    ret (norm, grid_clamp_le0 histogram_data min_value)
  else if String.eqb color_normalization_method "centered"%string then
    let! norm := lift (call_vcenter norm_class (nanmean flat)) in
    ret (norm, histogram_data)
  else if String.eqb color_normalization_method "symlog"%string then
    let! vmin := lift (nanmin flat) in
    let! vmax := lift (nanmax flat) in
    let! norm := lift (call_linthresh norm_class vmin vmax lintresh_for_symlog) in
    ret (norm, histogram_data)
  else
    let! vmin := lift (nanmin flat) in
    let! vmax := lift (nanmax flat) in
    let! norm := lift (call_vmin_vmax norm_class vmin vmax) in
    ret (norm, histogram_data).

(** Every colormap the artist holds is a [BiaColormap], which has the
    attribute [categorical]: the first [return] is the one taken. *)
Definition _is_categorical_colormap (colormap : BiaColormap) : bool :=
  categorical colormap.

Definition _get_normalization_class (is_overlay : bool) : M t norm_class :=
  let! self := get in
  lift (_normalization_methods (method_of is_overlay self)).

Definition _select_norm_class (is_overlay : bool)
    (histogram_data : grid float64) : M t (norm * grid float64) :=
  let! self := get in
  let! (colormap, dtype_int) :=
    (if is_overlay then
       match _color_indices self with
       | ArgArray a => ret (_overlay_colormap self, dtype_is_int a)
       | _ => raise AttributeError
       end
     else ret (_histogram_colormap self, false)) in
  let! norm_class := _get_normalization_class is_overlay in
  if _is_categorical_colormap colormap then
    let! norm :=
      _handle_norm_method_for_categorical_colormap is_overlay colormap
        dtype_int in
    ret (norm, histogram_data)
  else
    _handle_norm_method_for_continuous_colormap is_overlay norm_class
      histogram_data 0.03 0.01.

(** The temporary [pcolormesh] that computes the colours is created and
    removed inside this method and leaves no trace in [log].
    [write_back] is what the in-place clamp of [_select_norm_class] does
    to the artist when [histogram_data] is an array the artist holds.
    With [shading='nearest'], [pcolormesh] raises TypeError unless the
    transposed grid has one row per y centre and one column per x
    centre; [qm.to_rgba] then applies the normalization. *)
Definition _histogram2D_array_to_rgba (histogram_data : grid float64)
    (x_edges y_edges : list float64) (is_overlay : bool)
    (write_back : grid float64 -> M t unit) : M t (image * grid float64) :=
  let! (norm, histogram_data) := _select_norm_class is_overlay histogram_data in
  run! write_back histogram_data in
  let xcenters := length x_edges - 1 in
  let ycenters := length y_edges - 1 in
  run! (if decide (has_shape histogram_data xcenters ycenters)
        then ret tt else raise TypeError) in
  run! lift (norm_call norm) in
  let! self := get in
  let palette :=
    if is_overlay then cmap (_overlay_colormap self)
    else cmap (_histogram_colormap self) in
  ret ({| img_norm := norm; img_cmap := palette;
          img_values := histogram_data |}, histogram_data).

Definition all_nan (g : grid float64) : bool := forallb (forallb isnan) g.

(** The [color_indices] setter. *)
Definition color_indices_set (indices : indices_arg) : M t unit :=
  let! self := get in
  let! indices :=
    match indices with
    | ArgScalar v =>
        match _data self with
        | Some d => ret (ArgArray (np_full (length d) v))
        | None => raise TypeError
        end
    | ArgArray a => ret (ArgArray a)
    | ArgNone => ret ArgNone
    end in
  run! set__color_indices indices in
  run! match _overlay_histogram_image self with
       | Some h =>
           run! emit (image_remove h) in
           set__overlay_histogram_image None
       | None => ret tt
       end in
  let! (counts, x_edges, y_edges) :=
    match _histogram self with
    | Some h => ret h
    | None => raise AttributeError
    end in
  let! data := match _data self with
               | Some d => ret d
               | None => raise TypeError
               end in
  let x_bin_indices := map (fun p => bin_index x_edges (fst p)) data in
  let y_bin_indices := map (fun p => bin_index y_edges (snd p)) data in
  let! features := match indices with
                   | ArgArray a => ret a
                   | _ => raise TypeError
                   end in
  let! statistic_histogram :=
    lift (_calculate_statistic_histogram x_bin_indices y_bin_indices
            features "median"%string) in
  run! (if negb (all_nan statistic_histogram) then
          let! (rgba, _) :=
            _histogram2D_array_to_rgba statistic_histogram x_edges y_edges
              true (fun _ => ret tt) in
          run! set_overlay_histogram_rgba (Some rgba) in
          let! self := get in
          let! h := imshow rgba 2 (_overlay_interpolation self)
                      (_overlay_opacity self) in
          set__overlay_histogram_image (Some h)
        else ret tt) in
  let! self := get in
  run! emit (color_indices_changed_signal_emit (_color_indices self)) in
  draw.

(** The [data] setter.  [counts] is the array stored in
    [self._histogram], so the in-place clamp of the log normalization
    shows in that attribute. *)
Definition data_set (value : option (list point)) : M t unit :=
  match value with
  | None => ret tt
  | Some [] => ret tt
  | Some value =>
      run! set__data (Some value) in
      run! emit (data_changed_signal_emit value) in
      let! self := get in
      run! match _histogram_image self with
           | Some h => emit (image_remove h)
           | None => ret tt
           end in
      let! (counts, x_edges, y_edges) :=
        lift (np_histogram2d (map fst value) (map snd value) (_bins self)) in
      run! set__histogram (Some (counts, x_edges, y_edges)) in
      let! (rgba, counts) :=
        _histogram2D_array_to_rgba counts x_edges y_edges false
          (fun counts => set__histogram (Some (counts, x_edges, y_edges))) in
      run! set__histogram_rgba (Some rgba) in
      let! self := get in
      let! h := imshow rgba 1 (_histogram_interpolation self) 1 in
      run! set__histogram_image (Some h) in
      let! self := get in
      run! match _color_indices self with
           | ArgNone => color_indices_set (ArgScalar (SInt 0))
           | ArgArray old =>
               color_indices_set
                 (ArgArray
                    (Scatter.resized_color_indices old (length value)))
           | ArgScalar _ => raise TypeError
           end in
      draw
  end.


(** The [overlay_color_normalization_method] setter. *)
Definition overlay_color_normalization_method_set (value : string)
  : M t unit :=
  run! set__overlay_color_normalization_method value in
  let! self := get in
  color_indices_set (_color_indices self).

(** [np.where(cond)[0]] and [np.argwhere(cond)], in row-major order. *)
Fixpoint where_from {A} (cond : A -> bool) (i : nat) (l : list A) : list nat :=
  match l with
  | [] => []
  | a :: l' => (if cond a then [i] else []) ++ where_from cond (S i) l'
  end.

Definition np_where {A} (cond : A -> bool) (l : list A) : list nat :=
  where_from cond 0 l.

Definition np_argwhere {A} (cond : A -> bool) (g : grid A) : list (nat * nat) :=
  concat (imap (fun i row => map (pair i) (np_where cond row)) g).

Definition edge (edges : list float64) (i : nat) : result float64 :=
  match edges !! i with
  | Some e => inr e
  | None => inl IndexError
  end.

(** [(x >= x_min) & (x < x_max) & (y >= y_min) & (y < y_max)] *)
Definition in_patch (x_min x_max y_min y_max : float64) (p : point) : bool :=
  fle x_min (fst p) && flt (fst p) x_max
  && fle y_min (snd p) && flt (snd p) y_max.

Definition indices_in_patches_above_threshold (self : t) (threshold : Z)
  : result (list nat) :=
  let? (histogram, x_edges, y_edges) :=
    match _histogram self with
    | Some h => inr h
    | None => inl AttributeError
    end in
  let exceeding_bins :=
    np_argwhere (fun c => flt (Fin (inject_Z threshold)) c) histogram in
  for_each
    (fun indices (b : nat * nat) =>
       let '(bin_x, bin_y) := b in
       let? x_min := edge x_edges bin_x in
       let? x_max := edge x_edges (bin_x + 1) in
       let? y_min := edge y_edges bin_y in
       let? y_max := edge y_edges (bin_y + 1) in
       let? data := match _data self with
                    | Some d => inr d
                    | None => inl TypeError
                    end in
       let bin_indices := np_where (in_patch x_min x_max y_min y_max) data in
       inr (indices ++ bin_indices))
    [] exceeding_bins.

(** [Histogram2D(ax, data, overlay_colormap, color_indices, bins,
    histogram_colormap)] *)
Definition __init__ (data : option (list point))
    (overlay_colormap : BiaColormap) (color_indices : indices_arg)
    (bins : Z) (histogram_colormap : BiaColormap) : result unit * t :=
  (run! data_set data in draw)
    {| _data := data; _visible := true;
       _overlay_colormap := overlay_colormap;
       _color_indices := color_indices;
       _histogram_image := None; _bins := bins;
       _histogram_colormap := histogram_colormap;
       _histogram_interpolation := "nearest"%string;
       _overlay_interpolation := "nearest"%string;
       _overlay_opacity := 1;
       _overlay_visible := true;
       _overlay_histogram_image := None;
       _histogram_color_normalization_method := "linear"%string;
       _overlay_color_normalization_method := "linear"%string;
       _histogram := None; _histogram_rgba := None;
       overlay_histogram_rgba := None;
       log := [] |}.

(** ** The other attribute setters of Histogram2D *)

Definition set__overlay_colormap (v : BiaColormap) : M t unit :=
  modify (fun s =>
    {| _data := _data s; _visible := _visible s; _overlay_colormap := v;
       _color_indices := _color_indices s;
       _histogram_image := _histogram_image s; _bins := _bins s;
       _histogram_colormap := _histogram_colormap s;
       _histogram_interpolation := _histogram_interpolation s;
       _overlay_interpolation := _overlay_interpolation s;
       _overlay_opacity := _overlay_opacity s;
       _overlay_visible := _overlay_visible s;
       _overlay_histogram_image := _overlay_histogram_image s;
       _histogram_color_normalization_method := _histogram_color_normalization_method s;
       _overlay_color_normalization_method := _overlay_color_normalization_method s;
       _histogram := _histogram s; _histogram_rgba := _histogram_rgba s;
       overlay_histogram_rgba := overlay_histogram_rgba s; log := log s |}).

Definition set__histogram_colormap (v : BiaColormap) : M t unit :=
  modify (fun s =>
    {| _data := _data s; _visible := _visible s;
       _overlay_colormap := _overlay_colormap s;
       _color_indices := _color_indices s;
       _histogram_image := _histogram_image s; _bins := _bins s;
       _histogram_colormap := v;
       _histogram_interpolation := _histogram_interpolation s;
       _overlay_interpolation := _overlay_interpolation s;
       _overlay_opacity := _overlay_opacity s;
       _overlay_visible := _overlay_visible s;
       _overlay_histogram_image := _overlay_histogram_image s;
       _histogram_color_normalization_method := _histogram_color_normalization_method s;
       _overlay_color_normalization_method := _overlay_color_normalization_method s;
       _histogram := _histogram s; _histogram_rgba := _histogram_rgba s;
       overlay_histogram_rgba := overlay_histogram_rgba s; log := log s |}).

Definition set__histogram_interpolation (v : string) : M t unit :=
  modify (fun s =>
    {| _data := _data s; _visible := _visible s;
       _overlay_colormap := _overlay_colormap s;
       _color_indices := _color_indices s;
       _histogram_image := _histogram_image s; _bins := _bins s;
       _histogram_colormap := _histogram_colormap s;
       _histogram_interpolation := v;
       _overlay_interpolation := _overlay_interpolation s;
       _overlay_opacity := _overlay_opacity s;
       _overlay_visible := _overlay_visible s;
       _overlay_histogram_image := _overlay_histogram_image s;
       _histogram_color_normalization_method := _histogram_color_normalization_method s;
       _overlay_color_normalization_method := _overlay_color_normalization_method s;
       _histogram := _histogram s; _histogram_rgba := _histogram_rgba s;
       overlay_histogram_rgba := overlay_histogram_rgba s; log := log s |}).

Definition set__overlay_interpolation (v : string) : M t unit :=
  modify (fun s =>
    {| _data := _data s; _visible := _visible s;
       _overlay_colormap := _overlay_colormap s;
       _color_indices := _color_indices s;
       _histogram_image := _histogram_image s; _bins := _bins s;
       _histogram_colormap := _histogram_colormap s;
       _histogram_interpolation := _histogram_interpolation s;
       _overlay_interpolation := v;
       _overlay_opacity := _overlay_opacity s;
       _overlay_visible := _overlay_visible s;
       _overlay_histogram_image := _overlay_histogram_image s;
       _histogram_color_normalization_method := _histogram_color_normalization_method s;
       _overlay_color_normalization_method := _overlay_color_normalization_method s;
       _histogram := _histogram s; _histogram_rgba := _histogram_rgba s;
       overlay_histogram_rgba := overlay_histogram_rgba s; log := log s |}).

Definition set__overlay_opacity (v : Q) : M t unit :=
  modify (fun s =>
    {| _data := _data s; _visible := _visible s;
       _overlay_colormap := _overlay_colormap s;
       _color_indices := _color_indices s;
       _histogram_image := _histogram_image s; _bins := _bins s;
       _histogram_colormap := _histogram_colormap s;
       _histogram_interpolation := _histogram_interpolation s;
       _overlay_interpolation := _overlay_interpolation s;
       _overlay_opacity := v; _overlay_visible := _overlay_visible s;
       _overlay_histogram_image := _overlay_histogram_image s;
       _histogram_color_normalization_method := _histogram_color_normalization_method s;
       _overlay_color_normalization_method := _overlay_color_normalization_method s;
       _histogram := _histogram s; _histogram_rgba := _histogram_rgba s;
       overlay_histogram_rgba := overlay_histogram_rgba s; log := log s |}).

(** The [overlay_colormap] setter: [BiaColormap(value)] is the argument. *)
Definition overlay_colormap_set (value : BiaColormap) : M t unit :=
  run! set__overlay_colormap value in
  let! self := get in
  color_indices_set (_color_indices self).

(** The setters that end with [self.data = self._data]. *)
Definition histogram_color_normalization_method_set (value : string)
  : M t unit :=
  run! set__histogram_color_normalization_method value in
  let! self := get in
  data_set (_data self).

Definition histogram_colormap_set (value : BiaColormap) : M t unit :=
  run! set__histogram_colormap value in
  let! self := get in
  data_set (_data self).

Definition histogram_interpolation_set (value : string) : M t unit :=
  run! set__histogram_interpolation value in
  let! self := get in
  data_set (_data self).

Definition overlay_interpolation_set (value : string) : M t unit :=
  run! set__overlay_interpolation value in
  let! self := get in
  data_set (_data self).

Definition overlay_opacity_set (value : Q) : M t unit :=
  run! set__overlay_opacity value in
  let! self := get in
  data_set (_data self).

End Histogram2D.

(** * Vocabulary of the properties, and the artists of the examples *)

(** Whatever its outcome, [m] takes a state to an [R]-related one. *)
Definition keeps {S A} (R : relation S) (m : M S A) : Prop :=
  forall s r s', m s = (r, s') -> R s s'.

(** Both grids of a loop state have the shape [(height, width)]. *)
Definition two_shapes {A B} (height width : nat) (acc : grid A * grid B)
  : Prop :=
  has_shape acc.1 height width /\ has_shape acc.2 height width.

Definition tab10 : BiaColormap :=
  {| cmap := [(0, 0, 0, 0); (1, 0, 0, 1); (0, 1, 0, 1); (0, 0, 1, 1)]%Q;
     categorical := true |}.

Definition gray : BiaColormap :=
  {| cmap := [(0, 0, 0, 1); (1, 1, 1, 1)]%Q; categorical := false |}.

(** [Scatter(ax)] and [Histogram2D(ax, bins=2)] before any data. *)
Definition empty_scatter : Scatter.t :=
  snd (Scatter.__init__ None tab10 ArgNone).

Definition empty_histogram : Histogram2D.t :=
  snd (Histogram2D.__init__ None tab10 ArgNone 2 gray).

Definition three_points : list point :=
  [(Fin 0, Fin 0); (Fin 0, Fin 0); (Fin 5, Fin 5)].

(** The scatter plot of the three points, with the categorical colormap
    of four colours. *)
Definition three_point_scatter : Scatter.t :=
  snd (Scatter.data_set (Some three_points) empty_scatter).

(** The same, recoloured with the classes 1, 2, 3. *)
Definition coloured_scatter : Scatter.t :=
  snd (Scatter.color_indices_set (ArgArray (IntArray [1; 2; 3]%Z))
         three_point_scatter).

(** A categorical colormap of 22 colours, and the scatter plot of the
    three points under it. *)
Definition tab22 : BiaColormap :=
  {| cmap := map (fun i => (inject_Z (Z.of_nat i) / 22, 0, 0, 1)%Q) (seq 0 22);
     categorical := true |}.

Definition scatter22 : Scatter.t :=
  snd (Scatter.overlay_colormap_set tab22 three_point_scatter).

(** Then given a continuous colormap and log normalization. *)
Definition log_scatter : Scatter.t :=
  snd (Scatter.color_normalization_method_set "log"%string
         (snd (Scatter.overlay_colormap_set gray coloured_scatter))).

(** A scatter plot of three points whose sizes were set one by one. *)
Definition sized_scatter : Scatter.t :=
  snd (Scatter.size_set (SizeArray [Fin 10; Fin 20; Fin 30])
         (snd (Scatter.data_set (Some three_points) empty_scatter))).

(** The cell of a zipped point lies inside the grid sized by the maxima. *)
Definition in_grid {F} (height width : nat) (p : nat * nat * F) : Prop :=
  p.1.1 < height /\ p.1.2 < width.

(** The values of the points that were assigned to cell [(i, j)], in the
    order of the loop. *)
Definition cell_values (points : list (nat * nat * float64)) (i j : nat)
  : list float64 :=
  map snd (filter (fun p => p.1 = (i, j)) points).

Definition values_in_cell (x_indices y_indices : list nat)
    (features : ndarray) (i j : nat) : list float64 :=
  cell_values (zip3 x_indices y_indices (as_floats features)) i j.

(** Every cell of the grid returned for [statistic='sum'] relates to the
    values assigned to it as [P] says. *)
Definition sum_cells (P : list float64 -> float64 -> Prop)
    (x_indices y_indices : list nat) (features : ndarray) : Prop :=
  exists statistic_histogram,
    _calculate_statistic_histogram x_indices y_indices features "sum"%string
    = inr statistic_histogram
    /\ forall i j,
      i <= list_max x_indices -> j <= list_max y_indices ->
      exists v, grid_get statistic_histogram i j = inr v
                /\ P (values_in_cell x_indices y_indices features i j) v.

(** A cell is defined exactly when a point was assigned to it. *)
Definition defined_iff_assigned (vs : list float64) (v : float64) : Prop :=
  isnan v = false <-> vs <> [].

(** After the points [seen], every cell of [sums] holds the sum of its
    values and every cell of [sums_flags] tells whether it has any. *)
Definition sum_invariant (height width : nat)
    (seen : list (nat * nat * float64)) (acc : grid float64 * grid bool)
  : Prop :=
  two_shapes height width acc
  /\ Forall (fun p => isfinite p.2 = true) seen
  /\ forall i j, i < height -> j < width ->
       grid_get acc.1 i j = inr (foldl fadd (Fin 0) (cell_values seen i j))
       /\ grid_get acc.2 i j = inr (bool_decide (cell_values seen i j <> [])).

(** Point [k] lies in the half-open rectangle of bin [b]. *)
Definition in_bin_patch (x_edges y_edges : list float64) (data : list point)
    (b : nat * nat) (k : nat) : Prop :=
  exists x_min x_max y_min y_max p,
    x_edges !! b.1 = Some x_min /\ x_edges !! (b.1 + 1) = Some x_max
    /\ y_edges !! b.2 = Some y_min /\ y_edges !! (b.2 + 1) = Some y_max
    /\ data !! k = Some p
    /\ Histogram2D.in_patch x_min x_max y_min y_max p = true.

(** The histogram of the three points [(0,0)], [(0,0)], [(5,5)] over two
    bins per axis. *)
Definition three_point_histogram : Histogram2D.t :=
  snd (Histogram2D.data_set (Some three_points) empty_histogram).

(** The log of an artist only grows. *)
Definition log_grows : relation Histogram2D.t :=
  fun s s' => exists rest, Histogram2D.log s' = Histogram2D.log s ++ rest.

(** The events a call appended to the log. *)
Definition new_events (before after : Histogram2D.t) : list event :=
  drop (length (Histogram2D.log before)) (Histogram2D.log after).

(** The property C2 asks for: within [events], the overlay image [old] is
    removed only after a new overlay image (z-order 2) has been drawn. *)
Definition overlay_kept_until_replaced (old : handle) (events : list event)
  : Prop :=
  forall n, events !! n = Some (image_remove old) ->
            exists m h img interpolation alpha,
              m < n /\ events !! m = Some (ax_imshow h 2 img interpolation alpha).

(** What the resize rule of the [data] setters makes of the old color
    indices for [n] points: [n] entries, the old ones first, zeros from
    the old length on. *)
Definition resized_from (old new : ndarray) (n : nat) : Prop :=
  len new = n
  /\ (forall k, k < len old -> k < n -> item new k = item old k)
  /\ (forall k, len old <= k < n ->
                exists z, item new k = Some z /\ to_float z = Fin 0).

(** Only an assignment to [_color_indices] changes the color indices. *)
Definition histogram_same_indices : relation Histogram2D.t :=
  fun s s' => Histogram2D._color_indices s' = Histogram2D._color_indices s.

Definition scatter_same_indices : relation Scatter.t :=
  fun s s' => Scatter._color_indices s' = Scatter._color_indices s.

(** The color indices, if any, have [n] entries before and after. *)
Definition scatter_indices_len (n : nat) : relation Scatter.t :=
  fun s s' =>
    (exists c, Scatter._color_indices s = ArgArray c /\ len c = n) ->
    exists c, Scatter._color_indices s' = ArgArray c /\ len c = n.

Definition scatter_same_data : relation Scatter.t :=
  fun s s' => Scatter._data s' = Scatter._data s.

Definition valid_method (m : string) : Prop :=
  m = "linear"%string \/ m = "log"%string \/ m = "symlog"%string
  \/ m = "centered"%string.

Definition finite_point (p : point) : Prop :=
  isfinite p.1 = true /\ isfinite p.2 = true.

(** The normalization the artist builds for this colormap and method is
    applied without an error whatever the values are: a categorical
    colormap gives [Normalize(0, N)], the methods 'linear' and 'centered'
    give bounds that are in order.  ('log' and 'symlog' are refused on
    some values: [LogNorm(0.01, 0)] for values that are all 0.) *)
Definition norm_never_refused (colormap : BiaColormap) (method : string)
  : Prop :=
  categorical colormap = true
  \/ method = "linear"%string \/ method = "centered"%string.

Definition not_scalar (indices : indices_arg) : Prop :=
  forall v, indices <> ArgScalar v.





(** A scatter plot is ready for a [data] assignment of [n] points: its
    normalization method is a key of [_normalization_methods] and its
    normalization is never refused; if it is drawn, its color indices are
    not a scalar left by [__init__]; if it is not, it has its size
    attribute, which [ax.scatter] accepts for [n] points. *)
Definition ready_scatter (n : nat) (s : Scatter.t) : Prop :=
  valid_method (Scatter._color_normalization_method s)
  /\ norm_never_refused (Scatter._overlay_colormap s)
       (Scatter._color_normalization_method s)
  /\ ((Scatter._scatter s = true /\ not_scalar (Scatter._color_indices s))
      \/ (Scatter._scatter s = false
          /\ exists sz, Scatter._size s = Some sz
                        /\ scatter_accepts_size sz n = true)).

(** [np.nanmin(a) <= np.nanmax(a)], unless both are NaN. *)
Definition in_order (lo hi : float64) : Prop :=
  (isnan lo = true /\ isnan hi = true) \/ fle lo hi = true.





(** The color indices, if they are [a], are still [a] afterwards. *)
Definition scatter_indices_stay (a : ndarray) : relation Scatter.t :=
  fun s s' =>
    Scatter._color_indices s = ArgArray a ->
    Scatter._color_indices s' = ArgArray a.

Definition histogram_same_data_indices : relation Histogram2D.t :=
  fun s s' =>
    Histogram2D._data s' = Histogram2D._data s
    /\ Histogram2D._color_indices s' = Histogram2D._color_indices s.

(** The exception of an assignment that recolours the overlay of a
    histogram without [_histogram]: a scalar left in [_color_indices] is
    broadcast first, over [len(self._data)]. *)
Definition overlay_update_error (h : Histogram2D.t) : exn :=
  match Histogram2D._color_indices h, Histogram2D._data h with
  | ArgScalar _, None => TypeError
  | _, _ => AttributeError
  end.

Definition five_points : list point :=
  [(Fin 0, Fin 0); (Fin 1, Fin 3); (Fin 2, Fin 2); (Fin 4, Fin 1); (Fin 5, Fin 5)].

(** The three-point histogram, recoloured. *)
Definition coloured_histogram : Histogram2D.t :=
  snd (Histogram2D.color_indices_set (ArgArray (IntArray [1; 2; 3]%Z))
         three_point_histogram).


(** ** Vocabulary of the further properties *)

(** Every cell of the grid returned for [statistic] relates to the values
    assigned to it as [P] says. *)
Definition statistic_cells (statistic : string)
    (P : list float64 -> float64 -> Prop)
    (x_indices y_indices : list nat) (features : ndarray) : Prop :=
  exists statistic_histogram,
    _calculate_statistic_histogram x_indices y_indices features statistic
    = inr statistic_histogram
    /\ forall i j,
      i <= list_max x_indices -> j <= list_max y_indices ->
      exists v, grid_get statistic_histogram i j = inr v
                /\ P (values_in_cell x_indices y_indices features i j) v.

(** The running sum of the `sum` branch: a sum that has become NaN is
    set back to 0 before the next value is added. *)
Definition restarting_sum (vs : list float64) : float64 :=
  foldl (fun acc f => fadd (if isnan acc then Fin 0 else acc) f) (Fin 0) vs.

(** What the two arrays of the [sum] loop hold after the points [seen]. *)
Definition sum_restart_invariant (height width : nat)
    (seen : list (nat * nat * float64)) (acc : grid float64 * grid bool)
  : Prop :=
  two_shapes height width acc
  /\ forall i j, i < height -> j < width ->
       grid_get acc.1 i j = inr (restarting_sum (cell_values seen i j))
       /\ grid_get acc.2 i j = inr (bool_decide (cell_values seen i j <> [])).

(** [sums / counts] of a cell that received the values [vs]. *)
Definition mean_of (vs : list float64) : float64 :=
  fdiv (foldl fadd (Fin 0) vs) (Fin (inject_Z (Z.of_nat (length vs)))).

(** What the two arrays of the [mean] loop hold after the points [seen]. *)
Definition mean_invariant (height width : nat)
    (seen : list (nat * nat * float64)) (acc : grid float64 * grid float64)
  : Prop :=
  two_shapes height width acc
  /\ forall i j, i < height -> j < width ->
       grid_get acc.1 i j = inr (foldl fadd (Fin 0) (cell_values seen i j))
       /\ grid_get acc.2 i j
          = inr (Fin (inject_Z (Z.of_nat (length (cell_values seen i j))))).

(** [feature_lists.get(k, [])] *)
Fixpoint lookup_features (d : list (nat * nat * list float64))
    (k : nat * nat) : list float64 :=
  match d with
  | [] => []
  | (k', vs) :: d' => if decide (k' = k) then vs else lookup_features d' k
  end.

(** Only the [data] setter and its callers change the data, the number of
    bins and the histogram. *)
Definition histogram_same_base : relation Histogram2D.t :=
  fun s s' =>
    Histogram2D._data s' = Histogram2D._data s
    /\ Histogram2D._bins s' = Histogram2D._bins s
    /\ Histogram2D._histogram s' = Histogram2D._histogram s.


(** A histogram with the continuous colormap [gray] and log
    normalization, before any data. *)
Definition empty_log_histogram : Histogram2D.t :=
  snd (Histogram2D.histogram_color_normalization_method_set "log"%string
         empty_histogram).

(** The bin of a point in the overlay path of the [color_indices]
    setter, and the number of points of [data] that share a bin. *)
Definition cell_of (x_edges y_edges : list float64) (p : point) : nat * nat :=
  (bin_index x_edges p.1, bin_index y_edges p.2).

Definition points_in_cell (x_edges y_edges : list float64)
    (data : list point) (c : nat * nat) : nat :=
  length (filter (fun q => cell_of x_edges y_edges q = c) data).

(** Edges in increasing order. *)
Definition increasing (edges : list Q) : Prop :=
  forall i j a b,
    i <= j -> edges !! i = Some a -> edges !! j = Some b -> (a <= b)%Q.

(** * Properties *)

(** ** The setter monad *)

Lemma bind_inr {S A B} (m : M S A) (k : A -> M S B) s b s' :
  bind m k s = (inr b, s') ->
  exists a s1, m s = (inr a, s1) /\ k a s1 = (inr b, s').
Proof.
  unfold bind. destruct (m s) as [[e | a] s1]; [discriminate |].
  intros H. exists a, s1. split; [reflexivity | exact H].
Qed.

Lemma bind_step {S A B} (m : M S A) (k : A -> M S B) s a s1 :
  m s = (inr a, s1) -> bind m k s = k a s1.
Proof. unfold bind. intros ->. reflexivity. Qed.

Lemma bind_raise {S A B} (m : M S A) (k : A -> M S B) s e s1 :
  m s = (inl e, s1) -> bind m k s = (inl e, s1).
Proof. unfold bind. intros ->. reflexivity. Qed.

(** ** Empty and null data *)

(** C4.  For both artists, assigning [None] or an empty array to [data]
    returns normally and leaves the whole artist as it was: data, color
    indices, histogram, images, and the log of signals, warnings and canvas
    calls. *)
Theorem data_set_null_or_empty_is_noop :
  (forall s : Scatter.t,
      Scatter.data_set None s = (inr tt, s)
      /\ Scatter.data_set (Some []) s = (inr tt, s))
  /\ (forall h : Histogram2D.t,
         Histogram2D.data_set None h = (inr tt, h)
         /\ Histogram2D.data_set (Some []) h = (inr tt, h)).
Proof. split; intros; split; reflexivity. Qed.

(** ** Scalar color indices *)

(** With a point set held, a scalar is broadcast to its length. *)
Lemma scatter_scalar_is_broadcast (s : Scatter.t) d v :
  Scatter._data s = Some d ->
  Scatter.color_indices_set (ArgScalar v) s
  = Scatter.color_indices_set (ArgArray (np_full (length d) v)) s.
Proof.
  intros Hd. unfold Scatter.color_indices_set, bind, get.
  rewrite Hd. reflexivity.
Qed.

Lemma histogram_scalar_is_broadcast (h : Histogram2D.t) d v :
  Histogram2D._data h = Some d ->
  Histogram2D.color_indices_set (ArgScalar v) h
  = Histogram2D.color_indices_set (ArgArray (np_full (length d) v)) h.
Proof.
  intros Hd. unfold Histogram2D.color_indices_set, bind, get.
  rewrite Hd. reflexivity.
Qed.

(** C10.  While [data] is [None], assigning a scalar to [color_indices]
    raises TypeError ([len(None)]) in both artists, before any attribute is
    written. *)
Theorem scalar_color_indices_without_data_raises
    (s : Scatter.t) (h : Histogram2D.t) (v : scalar) :
  Scatter._data s = None ->
  Histogram2D._data h = None ->
  Scatter.color_indices_set (ArgScalar v) s = (inl TypeError, s)
  /\ Histogram2D.color_indices_set (ArgScalar v) h = (inl TypeError, h).
Proof.
  intros Hs Hh. split.
  - unfold Scatter.color_indices_set, bind, get. rewrite Hs. reflexivity.
  - unfold Histogram2D.color_indices_set, bind, get. rewrite Hh. reflexivity.
Qed.

Lemma scalar_color_indices_without_data_raises_witness :
  Scatter._data empty_scatter = None
  /\ Histogram2D._data empty_histogram = None
  /\ Scatter.color_indices_set (ArgScalar (SInt 3)) empty_scatter
     = (inl TypeError, empty_scatter)
  /\ Histogram2D.color_indices_set (ArgScalar (SInt 3)) empty_histogram
     = (inl TypeError, empty_histogram).
Proof.
  split; [reflexivity |]. split; [reflexivity |].
  apply (scalar_color_indices_without_data_raises
           empty_scatter empty_histogram (SInt 3)); reflexivity.
Defined.

(** ** Marker size *)

Lemma scatter_emit_size e s s' u :
  Scatter.emit e s = (inr u, s') -> Scatter._size s' = Scatter._size s.
Proof. unfold Scatter.emit, modify. intros [= <- <-]. reflexivity. Qed.

Lemma scatter_size_set_size v s s' u :
  Scatter.size_set v s = (inr u, s') -> Scatter._size s' = Some v.
Proof.
  unfold Scatter.size_set. intros H.
  apply bind_inr in H as (? & s1 & H1 & H).
  apply bind_inr in H as (self & s2 & H2 & H).
  apply bind_inr in H as (? & s3 & H3 & H).
  unfold modify in H1. injection H1 as _ <-.
  unfold get in H2. injection H2 as <- <-.
  apply scatter_emit_size in H. rewrite H. clear H.
  destruct (Scatter._scatter _).
  - destruct (Scatter._data _).
    + apply scatter_emit_size in H3. rewrite H3. reflexivity.
    + destruct v; [discriminate |].
      apply scatter_emit_size in H3. rewrite H3. reflexivity.
  - injection H3 as _ <-. reflexivity.
Qed.

(** ** Grids *)

Section Grids.
Context {A : Type}.
Implicit Types (g : grid A) (v : A).

Lemma has_shape_full2 height width v :
  has_shape (np_full2 height width v) height width.
Proof.
  split; [apply length_replicate |].
  apply Forall_replicate, length_replicate.
Qed.

Lemma grid_get_full2 height width v i j :
  i < height -> j < width ->
  grid_get (np_full2 height width v) i j = inr v.
Proof.
  intros Hi Hj. unfold grid_get, np_full2.
  rewrite (lookup_replicate_2 height (replicate width v) i Hi).
  rewrite (lookup_replicate_2 width v j Hj). reflexivity.
Qed.

Lemma has_shape_row g height width i row :
  has_shape g height width -> g !! i = Some row -> length row = width.
Proof.
  intros [_ Hrows] Hrow.
  exact (proj1 (Forall_lookup _ _) Hrows i row Hrow).
Qed.

Lemma grid_get_in_shape g height width i j :
  has_shape g height width -> i < height -> j < width ->
  exists v, grid_get g i j = inr v.
Proof.
  intros Hs Hi Hj. unfold grid_get.
  destruct (lookup_lt_is_Some_2 g i) as [row Hrow];
    [rewrite (proj1 Hs); exact Hi |].
  rewrite Hrow.
  destruct (lookup_lt_is_Some_2 row j) as [v Hv];
    [rewrite (has_shape_row _ _ _ _ _ Hs Hrow); exact Hj |].
  rewrite Hv. eauto.
Qed.


(** An assignment inside the shape succeeds, keeps the shape and changes
    the one cell. *)
Lemma grid_set_in_shape g height width i j v :
  has_shape g height width -> i < height -> j < width ->
  exists g',
    grid_set g i j v = inr g'
    /\ has_shape g' height width
    /\ grid_get g' i j = inr v
    /\ (forall i' j', (i', j') <> (i, j) ->
                      grid_get g' i' j' = grid_get g i' j').
Proof.
  intros Hs Hi Hj. unfold grid_set.
  destruct (lookup_lt_is_Some_2 g i) as [row Hrow];
    [rewrite (proj1 Hs); exact Hi |].
  rewrite Hrow.
  pose proof (has_shape_row _ _ _ _ _ Hs Hrow) as Hlen.
  destruct (decide (j < length row)) as [_ | Hn]; [| lia].
  eexists. split; [reflexivity |].
  assert (Hig : i < length g) by (rewrite (proj1 Hs); exact Hi).
  split; [| split].
  - split; [rewrite length_insert; apply Hs |].
    apply Forall_insert; [apply Hs |].
    rewrite length_insert. exact Hlen.
  - unfold grid_get.
    rewrite list_lookup_insert_eq by exact Hig.
    rewrite list_lookup_insert_eq by lia. reflexivity.
  - intros i' j' Hne. unfold grid_get.
    destruct (decide (i' = i)) as [-> | Hi'].
    + rewrite list_lookup_insert_eq by exact Hig. rewrite Hrow.
      rewrite list_lookup_insert_ne by congruence. reflexivity.
    + rewrite list_lookup_insert_ne by congruence. reflexivity.
Qed.

End Grids.

Lemma grid_zip_with_shape {A B C} (f : A -> B -> C) (g : grid A) (h : grid B)
    height width :
  has_shape g height width -> has_shape h height width ->
  has_shape (grid_zip_with f g h) height width.
Proof.
  intros [Hg Hgr] [Hh Hhr]. unfold grid_zip_with. split.
  - rewrite length_zip_with. lia.
  - apply Forall_lookup. intros i row Hrow.
    apply lookup_zip_with_Some in Hrow as (ra & rb & -> & Ha & Hb).
    rewrite length_zip_with.
    rewrite (proj1 (Forall_lookup _ _) Hgr i ra Ha).
    rewrite (proj1 (Forall_lookup _ _) Hhr i rb Hb). lia.
Qed.

Lemma grid_zip_with_get {A B C} (f : A -> B -> C) (g : grid A) (h : grid B)
    i j a b :
  grid_get g i j = inr a -> grid_get h i j = inr b ->
  grid_get (grid_zip_with f g h) i j = inr (f a b).
Proof.
  unfold grid_get, grid_zip_with. intros Ha Hb.
  destruct (g !! i) as [ra |] eqn:Hra; [| discriminate].
  destruct (h !! i) as [rb |] eqn:Hrb; [| discriminate].
  destruct (ra !! j) as [a' |] eqn:Ha'; [| discriminate].
  destruct (rb !! j) as [b' |] eqn:Hb'; [| discriminate].
  injection Ha as ->. injection Hb as ->.
  rewrite lookup_zip_with, Hra, Hrb. simpl.
  rewrite lookup_zip_with, Ha', Hb'. reflexivity.
Qed.

(** ** Loops *)

(** A loop whose body keeps an invariant indexed by the items already
    processed runs to its end and establishes the invariant for all the
    items. *)
Lemma for_each_history {A B} (body : A -> B -> result A)
    (I : list B -> A -> Prop) (P : B -> Prop) :
  (forall seen a b, I seen a -> P b ->
                    exists a', body a b = inr a' /\ I (seen ++ [b]) a') ->
  forall l seen a, I seen a -> Forall P l ->
                   exists a', for_each body a l = inr a' /\ I (seen ++ l) a'.
Proof.
  intros Hbody. induction l as [| b l IH]; intros seen a Ha Hl.
  - exists a. rewrite app_nil_r. split; [reflexivity | exact Ha].
  - apply Forall_cons in Hl as [Hb Hl].
    destruct (Hbody seen a b Ha Hb) as (a' & Hstep & Ha').
    destruct (IH (seen ++ [b]) a' Ha' Hl) as (a'' & Hrun & Ha'').
    exists a''. simpl. rewrite Hstep. split; [exact Hrun |].
    rewrite <- app_assoc in Ha''. exact Ha''.
Qed.

Lemma for_each_invariant {A B} (body : A -> B -> result A)
    (I : A -> Prop) (P : B -> Prop) :
  (forall a b, I a -> P b -> exists a', body a b = inr a' /\ I a') ->
  forall l a, I a -> Forall P l ->
              exists a', for_each body a l = inr a' /\ I a'.
Proof.
  intros Hbody l a Ha Hl.
  exact (for_each_history body (fun _ => I) P
           (fun _ a b => Hbody a b) l [] a Ha Hl).
Qed.

Lemma foldl_max_list_max x l : foldl Nat.max x l = Nat.max x (list_max l).
Proof.
  revert x. induction l as [| y l IH]; intros x; simpl; [lia |].
  rewrite IH. lia.
Qed.

Lemma py_max_list_max l : l <> [] -> py_max l = inr (list_max l).
Proof.
  destruct l as [| x l]; [congruence |]. intros _.
  unfold py_max. rewrite foldl_max_list_max. reflexivity.
Qed.

Lemma elem_le_list_max x l : x ∈ l -> x <= list_max l.
Proof.
  intros Hx. pose proof (proj1 (list_max_le l (list_max l)) (Nat.le_refl _)) as H.
  apply List.Forall_forall with (x := x) in H; [exact H |].
  apply list_elem_of_In. exact Hx.
Qed.

Lemma zip3_in_grid {F} (xs ys : list nat) (fs : list F) :
  Forall (in_grid (list_max xs + 1) (list_max ys + 1)) (zip3 xs ys fs).
Proof.
  apply Forall_forall. intros [[x y] f] Hin. unfold zip3 in Hin.
  apply elem_of_zip_l in Hin as Hxy. simpl in Hxy.
  apply elem_of_zip_l in Hxy as Hx. apply elem_of_zip_r in Hxy as Hy.
  simpl in Hx, Hy. apply elem_le_list_max in Hx. apply elem_le_list_max in Hy.
  unfold in_grid. simpl. lia.
Qed.

Section StatisticLoops.
Variables height width : nat.

Lemma mean_body_shape acc p :
  two_shapes height width acc -> in_grid height width p ->
  exists acc', mean_body acc p = inr acc' /\ two_shapes height width acc'.
Proof.
  destruct acc as [sums counts], p as [[x y] f].
  intros [Hs Hc] [Hx Hy]. simpl in *. unfold mean_body.
  destruct (grid_get_in_shape sums _ _ x y Hs Hx Hy) as (s & ->). simpl.
  destruct (grid_set_in_shape sums _ _ x y (fadd s f) Hs Hx Hy)
    as (sums' & -> & Hs' & _). simpl.
  destruct (grid_get_in_shape counts _ _ x y Hc Hx Hy) as (c & ->). simpl.
  destruct (grid_set_in_shape counts _ _ x y (fadd c (Fin 1)) Hc Hx Hy)
    as (counts' & -> & Hc' & _). simpl.
  eexists. split; [reflexivity |]. split; assumption.
Qed.

Lemma sum_body_shape acc p :
  two_shapes height width acc -> in_grid height width p ->
  exists acc', sum_body acc p = inr acc' /\ two_shapes height width acc'.
Proof.
  destruct acc as [sums flags], p as [[x y] f].
  intros [Hs Hf] [Hx Hy]. simpl in *. unfold sum_body.
  destruct (grid_get_in_shape sums _ _ x y Hs Hx Hy) as (s & ->). simpl.
  assert (exists sums1,
             (if isnan s then grid_set sums x y (Fin 0) else inr sums)
             = inr sums1 /\ has_shape sums1 height width)
    as (sums1 & -> & Hs1).
  { destruct (isnan s); [| eauto].
    destruct (grid_set_in_shape sums _ _ x y (Fin 0) Hs Hx Hy)
      as (sums1 & -> & Hs1 & _). eauto. }
  simpl.
  destruct (grid_get_in_shape sums1 _ _ x y Hs1 Hx Hy) as (s1 & ->). simpl.
  destruct (grid_set_in_shape sums1 _ _ x y (fadd s1 f) Hs1 Hx Hy)
    as (sums2 & -> & Hs2 & _). simpl.
  destruct (grid_set_in_shape flags _ _ x y true Hf Hx Hy)
    as (flags' & -> & Hf' & _). simpl.
  eexists. split; [reflexivity |]. split; assumption.
Qed.

Lemma median_body_shape (g : grid float64) e :
  has_shape g height width -> in_grid height width e ->
  exists g', median_body g e = inr g' /\ has_shape g' height width.
Proof.
  destruct e as [[x y] feats]. intros Hg [Hx Hy]. simpl in *.
  unfold median_body. destruct feats as [| f feats]; [eauto |].
  destruct (grid_set_in_shape g _ _ x y (np_median (f :: feats)) Hg Hx Hy)
    as (g' & -> & Hg' & _). eauto.
Qed.

Lemma append_feature_in_grid d k v :
  Forall (in_grid height width) d -> k.1 < height -> k.2 < width ->
  Forall (in_grid height width) (append_feature d k v).
Proof.
  intros Hd Hx Hy. induction d as [| [k' vs] d IH]; simpl.
  - repeat constructor; assumption.
  - apply Forall_cons in Hd as [Hk' Hd].
    destruct (decide (k' = k)); constructor; auto.
Qed.

Lemma feature_lists_in_grid points d :
  Forall (in_grid height width) points ->
  Forall (in_grid height width) d ->
  Forall (in_grid height width)
    (foldl (fun d '(x, y, feature) => append_feature d (x, y) feature)
       d points).
Proof.
  intros Hp. revert d. induction Hp as [| [[x y] f] points [Hx Hy] _ IH];
    intros d Hd; simpl; [exact Hd |].
  apply IH. apply append_feature_in_grid; assumption.
Qed.

End StatisticLoops.

(** ** Shape of the statistic grid *)

(** C6.  For non-empty bin-index arrays, whatever the values and the
    requested statistic, [_calculate_statistic_histogram] returns a grid of
    shape [(max(x_indices) + 1, max(y_indices) + 1)]. *)
Theorem statistic_histogram_shape (x_indices y_indices : list nat)
    (features : ndarray) (statistic : string) :
  x_indices <> [] ->
  y_indices <> [] ->
  exists statistic_histogram,
    _calculate_statistic_histogram x_indices y_indices features statistic
    = inr statistic_histogram
    /\ has_shape statistic_histogram
         (list_max x_indices + 1) (list_max y_indices + 1).
Proof.
  intros Hx Hy. unfold _calculate_statistic_histogram.
  rewrite (py_max_list_max _ Hx), (py_max_list_max _ Hy). simpl.
  set (height := list_max x_indices + 1).
  set (width := list_max y_indices + 1).
  pose proof (zip3_in_grid x_indices y_indices (as_floats features)) as Hpts.
  fold height width in Hpts.
  pose proof (has_shape_full2 height width NaN) as Hnan.
  destruct (String.eqb statistic "mean");
    [| destruct (String.eqb statistic "median");
       [| destruct (String.eqb statistic "sum")]].
  - destruct (for_each_invariant mean_body (two_shapes height width)
                (in_grid height width) (mean_body_shape height width)
                (zip3 x_indices y_indices (as_floats features))
                (np_full2 height width (Fin 0), np_full2 height width (Fin 0))
                (conj (has_shape_full2 height width (Fin 0))
                      (has_shape_full2 height width (Fin 0)))
                Hpts)
      as ([sums counts] & Hrun & Hs & Hc).
    rewrite Hrun. simpl. eexists. split; [reflexivity |].
    unfold divide_where. repeat apply grid_zip_with_shape; assumption.
  - apply (for_each_invariant median_body (fun g => has_shape g height width)
             (in_grid height width) (median_body_shape height width));
      [exact Hnan |].
    apply feature_lists_in_grid; [exact Hpts | constructor].
  - destruct (for_each_invariant sum_body (two_shapes height width)
                (in_grid height width) (sum_body_shape height width)
                (zip3 x_indices y_indices (as_floats features))
                (np_full2 height width (Fin 0), np_full2 height width false)
                (conj (has_shape_full2 height width (Fin 0))
                      (has_shape_full2 height width false))
                Hpts)
      as ([sums flags] & Hrun & Hs & Hf).
    rewrite Hrun. simpl. eexists. split; [reflexivity |].
    unfold assign_where. repeat apply grid_zip_with_shape; assumption.
  - eexists. split; [reflexivity | exact Hnan].
Qed.

Lemma statistic_histogram_shape_witness :
  [0; 2; 1] <> [] /\ [1; 0; 0] <> []
  /\ exists statistic_histogram,
      _calculate_statistic_histogram [0; 2; 1] [1; 0; 0]
        (FloatArray [Fin 1; Fin 2; NaN]) "mean"%string
      = inr statistic_histogram
      /\ has_shape statistic_histogram 3 2.
Proof.
  split; [discriminate |]. split; [discriminate |].
  apply (statistic_histogram_shape [0; 2; 1] [1; 0; 0]
           (FloatArray [Fin 1; Fin 2; NaN]) "mean"%string); discriminate.
Defined.

(** ** The sum statistic *)

Lemma isfinite_fadd a b :
  isfinite a = true -> isfinite b = true -> isfinite (fadd a b) = true.
Proof. destruct a, b; simpl; congruence. Qed.

Lemma isfinite_sum vs :
  Forall (fun v => isfinite v = true) vs ->
  isfinite (foldl fadd (Fin 0) vs) = true.
Proof.
  assert (forall a, isfinite a = true ->
                    Forall (fun v => isfinite v = true) vs ->
                    isfinite (foldl fadd a vs) = true) as H.
  { induction vs as [| v vs IH]; intros a Ha Hvs; simpl; [exact Ha |].
    apply Forall_cons in Hvs as [Hv Hvs].
    apply IH; [apply isfinite_fadd |]; assumption. }
  apply H. reflexivity.
Qed.

Lemma isfinite_not_nan a : isfinite a = true -> isnan a = false.
Proof. destruct a; simpl; congruence. Qed.

Lemma cell_values_snoc points x y f i j :
  cell_values (points ++ [(x, y, f)]) i j
  = cell_values points i j ++ (if decide ((x, y) = (i, j)) then [f] else []).
Proof.
  unfold cell_values. rewrite filter_app, map_app. f_equal.
  rewrite filter_cons, filter_nil. simpl.
  destruct (decide ((x, y) = (i, j))); reflexivity.
Qed.

Lemma cell_values_finite points i j :
  Forall (fun p : nat * nat * float64 => isfinite p.2 = true) points ->
  Forall (fun v => isfinite v = true) (cell_values points i j).
Proof.
  intros H. unfold cell_values. apply List.Forall_map.
  apply Forall_forall. intros p Hp.
  apply list_elem_of_filter in Hp as [_ Hp].
  exact (proj1 (Forall_forall _ _) H p Hp).
Qed.

Section SumLoop.
Variables height width : nat.

Lemma sum_body_invariant seen acc p :
  sum_invariant height width seen acc ->
  in_grid height width p /\ isfinite p.2 = true ->
  exists acc', sum_body acc p = inr acc' /\ sum_invariant height width (seen ++ [p]) acc'.
Proof.
  destruct acc as [sums flags], p as [[x y] f].
  intros ([Hs Hf] & Hseen & Hcells) [[Hx Hy] Hfin]. simpl in *.
  destruct (Hcells x y Hx Hy) as [Hsum Hflag].
  unfold sum_body. rewrite Hsum. simpl.
  rewrite (isfinite_not_nan _
             (isfinite_sum _ (cell_values_finite seen x y Hseen))).
  simpl. rewrite Hsum. simpl.
  destruct (grid_set_in_shape sums _ _ x y
              (fadd (foldl fadd (Fin 0) (cell_values seen x y)) f) Hs Hx Hy)
    as (sums' & -> & Hs' & Hnew & Hold). simpl.
  destruct (grid_set_in_shape flags _ _ x y true Hf Hx Hy)
    as (flags' & -> & Hf' & Hfnew & Hfold). simpl.
  eexists. split; [reflexivity |]. split; [split; assumption |].
  split; [apply Forall_app; split; [exact Hseen | repeat constructor; exact Hfin] |].
  intros i j Hi Hj. simpl. rewrite cell_values_snoc.
  destruct (decide ((x, y) = (i, j))) as [[= <- <-] | Hne].
  - rewrite foldl_app. simpl. split; [exact Hnew |].
    rewrite Hfnew. f_equal. symmetry. apply bool_decide_eq_true.
    intros Hnil. apply app_eq_nil in Hnil as [_ Hnil]. discriminate.
  - rewrite app_nil_r.
    rewrite (Hold i j) by congruence. rewrite (Hfold i j) by congruence.
    exact (Hcells i j Hi Hj).
Qed.

End SumLoop.

(** C5, as the code has it.  When every value is a finite number, the grid
    returned for [statistic='sum'] covers the cells up to the largest bin
    indices, and each of its cells is non-NaN exactly when at least one
    point was assigned to it, in which case it holds the sum of the values
    assigned to it (so values 5 and -5 give the defined value 0). *)
Theorem sum_statistic_defined_iff_assigned (x_indices y_indices : list nat)
    (features : ndarray) :
  x_indices <> [] ->
  y_indices <> [] ->
  Forall (fun v => isfinite v = true) (as_floats features) ->
  sum_cells
    (fun vs v => defined_iff_assigned vs v
                 /\ (vs <> [] -> v = foldl fadd (Fin 0) vs))
    x_indices y_indices features.
Proof.
  intros Hx Hy Hfin. unfold sum_cells, _calculate_statistic_histogram.
  rewrite (py_max_list_max _ Hx), (py_max_list_max _ Hy). simpl.
  set (height := list_max x_indices + 1).
  set (width := list_max y_indices + 1).
  set (points := zip3 x_indices y_indices (as_floats features)).
  assert (Forall (fun p => in_grid height width p /\ isfinite p.2 = true) points)
    as Hpts.
  { apply Forall_and. split; [apply zip3_in_grid |].
    apply Forall_forall. intros [[x y] f] Hin. unfold points, zip3 in Hin.
    apply elem_of_zip_r in Hin. simpl in *.
    exact (proj1 (Forall_forall _ _) Hfin f Hin). }
  destruct (for_each_history sum_body (sum_invariant height width) _
              (sum_body_invariant height width) points []
              (np_full2 height width (Fin 0), np_full2 height width false))
    as ([sums flags] & Hrun & [Hs Hf] & Hseen & Hcells).
  { split; [split; apply has_shape_full2 |]. split; [constructor |].
    intros i j Hi Hj. simpl. split; apply grid_get_full2; assumption. }
  { exact Hpts. }
  rewrite Hrun. simpl in *. eexists. split; [reflexivity |].
  intros i j Hi Hj.
  destruct (Hcells i j) as [Hsum Hflag]; [lia | lia |].
  unfold values_in_cell. fold points.
  eexists. split.
  - unfold assign_where.
    apply grid_zip_with_get;
      [apply grid_zip_with_get; [exact Hflag | exact Hsum] |].
    apply grid_get_full2; lia.
  - simpl. unfold defined_iff_assigned.
    destruct (cell_values points i j) as [| v vs] eqn:Hvs.
    + simpl. split; [split; [discriminate | congruence] | congruence].
    + rewrite bool_decide_eq_true_2 by discriminate.
      split; [| reflexivity]. split; [discriminate | intros _].
      apply isfinite_not_nan, isfinite_sum. rewrite <- Hvs.
      apply cell_values_finite. exact Hseen.
Qed.

Lemma sum_statistic_defined_iff_assigned_witness :
  _calculate_statistic_histogram [0; 0; 1] [0; 0; 1]
    (IntArray [5; -5; 7]%Z) "sum"%string
  = inr [[Fin 0; NaN]; [NaN; Fin 7]]
  /\ sum_cells
       (fun vs v => defined_iff_assigned vs v
                    /\ (vs <> [] -> v = foldl fadd (Fin 0) vs))
       [0; 0; 1] [0; 0; 1] (IntArray [5; -5; 7]%Z).
Proof.
  split; [vm_compute; reflexivity |].
  apply (sum_statistic_defined_iff_assigned [0; 0; 1] [0; 0; 1]
           (IntArray [5; -5; 7]%Z)); [discriminate | discriminate |].
  repeat constructor.
Defined.

(** C5, as stated, fails on a NaN value: the cell that received the one
    point is NaN all the same. *)
Lemma sum_statistic_nan_value_counterexample :
  ~ sum_cells defined_iff_assigned [0] [0] (FloatArray [NaN]).
Proof.
  intros (g & Hg & Hcell). vm_compute in Hg. injection Hg as <-.
  destruct (Hcell 0 0) as (v & Hv & Hiff); [vm_compute; lia | vm_compute; lia |].
  vm_compute in Hv. injection Hv as <-.
  assert (values_in_cell [0] [0] (FloatArray [NaN]) 0 0 <> []) as Hne
      by (vm_compute; discriminate).
  apply Hiff in Hne. discriminate.
Qed.

(** ** Points recovered from the bins above a threshold *)

Lemma elem_of_where_from {A} (cond : A -> bool) (l : list A) i k :
  k ∈ Histogram2D.where_from cond i l
  <-> exists a, i <= k /\ l !! (k - i) = Some a /\ cond a = true.
Proof.
  revert i. induction l as [| a l IH]; intros i; simpl.
  - split; [intros H; inversion H | intros (a & _ & H & _); discriminate].
  - rewrite elem_of_app, IH. split.
    + intros [Hk | (b & Hle & Hb & Hc)].
      * destruct (cond a) eqn:Ha; [| inversion Hk].
        apply list_elem_of_singleton in Hk as ->. exists a.
        rewrite Nat.sub_diag. auto.
      * exists b. split; [lia |]. split; [| exact Hc].
        replace (k - i) with (S (k - S i)) by lia. exact Hb.
    + intros (b & Hle & Hb & Hc).
      destruct (decide (k = i)) as [-> | Hne].
      * rewrite Nat.sub_diag in Hb. injection Hb as ->. left.
        rewrite Hc. apply list_elem_of_singleton. reflexivity.
      * right. exists b. split; [lia |]. split; [| exact Hc].
        replace (k - i) with (S (k - S i)) in Hb by lia. exact Hb.
Qed.

Lemma elem_of_np_where {A} (cond : A -> bool) (l : list A) k :
  k ∈ Histogram2D.np_where cond l
  <-> exists a, l !! k = Some a /\ cond a = true.
Proof.
  unfold Histogram2D.np_where. rewrite elem_of_where_from.
  rewrite Nat.sub_0_r. split.
  - intros (a & _ & H). eauto.
  - intros (a & H). exists a. split; [lia | exact H].
Qed.

Lemma elem_of_np_argwhere {A} (cond : A -> bool) (g : grid A) i j :
  (i, j) ∈ Histogram2D.np_argwhere cond g
  <-> exists c, grid_get g i j = inr c /\ cond c = true.
Proof.
  unfold Histogram2D.np_argwhere, grid_get.
  rewrite list_elem_of_In, in_concat. split.
  - intros (cells & Hcells & Hin).
    apply list_elem_of_In, elem_of_lookup_imap in Hcells
      as (i' & row & -> & Hrow).
    apply in_map_iff in Hin as (j' & [= <- <-] & Hj).
    apply list_elem_of_In, elem_of_np_where in Hj as (c & Hc & Hcond).
    exists c. rewrite Hrow, Hc. auto.
  - intros (c & Hget & Hcond).
    destruct (g !! i) as [row |] eqn:Hrow; [| discriminate].
    destruct (row !! j) as [c' |] eqn:Hc; [| discriminate].
    injection Hget as ->.
    exists (map (pair i) (Histogram2D.np_where cond row)). split.
    + apply list_elem_of_In, elem_of_lookup_imap. eauto.
    + apply in_map, list_elem_of_In, elem_of_np_where. eauto.
Qed.

(** The indices returned are those of the points lying in the half-open
    rectangle of some bin whose count exceeds the threshold. *)
Lemma indices_in_patches_half_open (self : Histogram2D.t) (threshold : Z)
    counts x_edges y_edges data indices :
  Histogram2D._histogram self = Some (counts, x_edges, y_edges) ->
  Histogram2D._data self = Some data ->
  Histogram2D.indices_in_patches_above_threshold self threshold = inr indices ->
  forall k,
    k ∈ indices
    <-> exists bin_x bin_y c,
        grid_get counts bin_x bin_y = inr c
        /\ flt (Fin (inject_Z threshold)) c = true
        /\ in_bin_patch x_edges y_edges data (bin_x, bin_y) k.
Proof.
  intros Hh Hd. unfold Histogram2D.indices_in_patches_above_threshold.
  rewrite Hh, Hd. simpl.
  set (bins := Histogram2D.np_argwhere _ counts).
  assert (forall b, b ∈ bins <->
            exists c, grid_get counts b.1 b.2 = inr c
                      /\ flt (Fin (inject_Z threshold)) c = true) as Hbins.
  { intros [i j]. apply elem_of_np_argwhere. }
  clearbody bins. intros Hrun k.
  assert (k ∈ indices <->
          k ∈ [] \/ exists b, b ∈ bins /\ in_bin_patch x_edges y_edges data b k)
    as ->.
  { revert Hrun. generalize (@nil nat) as acc. clear Hbins.
    induction bins as [| [bx by_] bins IH]; intros acc Hrun; simpl in Hrun.
    - injection Hrun as ->. split; [auto |].
      intros [H | (b & Hb & _)]; [exact H | inversion Hb].
    - unfold Histogram2D.edge in Hrun at 1 2 3 4.
      destruct (x_edges !! bx) as [x_min |] eqn:E1; [| discriminate].
      destruct (x_edges !! (bx + 1)) as [x_max |] eqn:E2; [| discriminate].
      destruct (y_edges !! by_) as [y_min |] eqn:E3; [| discriminate].
      destruct (y_edges !! (by_ + 1)) as [y_max |] eqn:E4; [| discriminate].
      simpl in Hrun. rewrite (IH _ Hrun), elem_of_app, elem_of_np_where.
      split.
      + intros [[H | (p & Hp & Hin)] | (b & Hb & Hin)].
        * auto.
        * right. exists (bx, by_). split; [left |].
          exists x_min, x_max, y_min, y_max, p. auto 10.
        * right. exists b. split; [right; exact Hb | exact Hin].
      + intros [H | (b & Hb & Hin)]; [auto |].
        apply elem_of_cons in Hb as [-> | Hb].
        * left. right.
          destruct Hin as (a1 & a2 & a3 & a4 & p & H1 & H2 & H3 & H4 & Hp & Hin).
          simpl in *. exists p. split; [exact Hp | congruence].
        * right. eauto. }
  split.
  - intros [H | ([i j] & Hb & Hin)]; [inversion H |].
    apply Hbins in Hb as (c & Hc & Hgt). eauto 10.
  - intros (i & j & c & Hc & Hgt & Hin). right. exists (i, j).
    split; [apply Hbins; eauto | exact Hin].
Qed.

(** A point whose abscissa is not below any edge lies in no half-open
    rectangle, so its index is never returned.  [np.histogram2d] makes
    the largest abscissa the last edge. *)
Lemma point_on_last_edge_not_returned (self : Histogram2D.t) (threshold : Z)
    counts x_edges y_edges data indices k p :
  Histogram2D._histogram self = Some (counts, x_edges, y_edges) ->
  Histogram2D._data self = Some data ->
  Histogram2D.indices_in_patches_above_threshold self threshold = inr indices ->
  data !! k = Some p ->
  Forall (fun e => fle e p.1 = true) x_edges ->
  k ∉ indices.
Proof.
  intros Hh Hd Hrun Hk Hedges Hin.
  apply (indices_in_patches_half_open _ _ _ _ _ _ _ Hh Hd Hrun) in Hin
    as (bx & by_ & c & _ & _ & Hpatch).
  destruct Hpatch as (x_min & x_max & y_min & y_max & q & _ & Hmax & _ & _ & Hq & Hp).
  simpl in *. assert (q = p) as -> by congruence.
  pose proof (proj1 (Forall_lookup _ _) Hedges _ _ Hmax) as Hle.
  unfold Histogram2D.in_patch, flt in Hp. rewrite Hle in Hp.
  rewrite !andb_false_r in Hp. simpl in Hp.
  rewrite ?andb_false_r in Hp. discriminate.
Qed.

(** C1, at [data = [[0,0],[0,0],[5,5]]], [bins = 2], [threshold = -1].
    [np.histogram2d] counts the point [(5,5)], which lies on the last
    edge, in the last bin; every bin exceeds the threshold -1; yet the
    indices returned are 0 and 1 only: index 2 is missing. *)
Theorem indices_in_patches_misses_point_on_last_edge :
  Histogram2D._histogram three_point_histogram
  = Some ([[Fin 2; Fin 0]; [Fin 0; Fin 1]],
          [Fin 0; Fin (5 # 2); Fin 5], [Fin 0; Fin (5 # 2); Fin 5])
  /\ Histogram2D.indices_in_patches_above_threshold three_point_histogram (-1)
     = inr [0; 1]
  /\ Histogram2D.indices_in_patches_above_threshold three_point_histogram 1
     = inr [0; 1].
Proof. vm_compute. repeat split. Qed.

(** ** What a computation leaves alone *)

Section Keeps.
Context {S : Type} (R : relation S) `{!PreOrder R}.

Lemma keeps_ret {A} (a : A) : keeps R (ret a).
Proof. intros s r s' [= _ <-]. reflexivity. Qed.

Lemma keeps_raise {A} (e : exn) : keeps R (@raise S A e).
Proof. intros s r s' [= _ <-]. reflexivity. Qed.

Lemma keeps_lift {A} (x : result A) : keeps R (lift x).
Proof. intros s r s' [= _ <-]. reflexivity. Qed.

Lemma keeps_get : keeps R get.
Proof. intros s r s' [= _ <-]. reflexivity. Qed.

Lemma keeps_modify (f : S -> S) : (forall s, R s (f s)) -> keeps R (modify f).
Proof. intros Hf s r s' [= _ <-]. apply Hf. Qed.

Lemma keeps_bind {A B} (m : M S A) (k : A -> M S B) :
  keeps R m -> (forall a, keeps R (k a)) -> keeps R (bind m k).
Proof.
  intros Hm Hk s r s'. unfold bind.
  destruct (m s) as [[e | a] s1] eqn:E.
  - intros [= _ <-]. exact (Hm _ _ _ E).
  - intros H. transitivity s1; [exact (Hm _ _ _ E) | exact (Hk _ _ _ _ H)].
Qed.

End Keeps.

(** Splits a [keeps] goal along the structure of the computation. *)
Ltac keeps_step :=
  lazymatch goal with
  | |- keeps _ (bind _ _) => apply keeps_bind; [typeclasses eauto | | intros]
  | |- keeps _ (ret _) => apply keeps_ret; typeclasses eauto
  | |- keeps _ (raise _) => apply keeps_raise; typeclasses eauto
  | |- keeps _ (lift _) => apply keeps_lift; typeclasses eauto
  | |- keeps _ get => apply keeps_get; typeclasses eauto
  | |- keeps _ (match ?x with _ => _ end) => destruct x
  end.

#[local] Instance log_grows_preorder : PreOrder log_grows.
Proof.
  split.
  - intros s. exists []. symmetry. apply app_nil_r.
  - intros s1 s2 s3 [r1 H1] [r2 H2]. exists (r1 ++ r2).
    rewrite H2, H1. symmetry. apply app_assoc.
Qed.

Lemma histogram_apply_log_grows p :
  keeps log_grows (modify (Histogram2D.apply p)).
Proof.
  apply keeps_modify. intros s. exists []. simpl. symmetry. apply app_nil_r.
Qed.

Lemma histogram_emit_log_grows e : keeps log_grows (Histogram2D.emit e).
Proof. apply keeps_modify. intros s. exists [e]. reflexivity. Qed.

Ltac log_grows_step :=
  first [ apply histogram_apply_log_grows
        | apply histogram_emit_log_grows
        | keeps_step ].

Lemma histogram_to_rgba_log_grows g x_edges y_edges is_overlay write_back :
  (forall g', keeps log_grows (write_back g')) ->
  keeps log_grows
    (Histogram2D._histogram2D_array_to_rgba g x_edges y_edges is_overlay
       write_back).
Proof.
  intros Hwb.
  unfold Histogram2D._histogram2D_array_to_rgba, Histogram2D._select_norm_class,
    Histogram2D._get_normalization_class,
    Histogram2D._handle_norm_method_for_categorical_colormap,
    Histogram2D._handle_norm_method_for_continuous_colormap,
    Histogram2D.set__overlay_color_normalization_method,
    Histogram2D.set__histogram_color_normalization_method.
  repeat first [ apply Hwb | log_grows_step ].
Qed.

(** ** Order of removal and redraw of the overlay *)

Lemma scalar_or_not (indices : indices_arg) :
  (exists v, indices = ArgScalar v) \/ (forall v, indices <> ArgScalar v).
Proof. destruct indices; [right | left | right]; eauto; discriminate. Qed.

Lemma histogram_imshow_log_grows img zorder interpolation alpha :
  keeps log_grows (Histogram2D.imshow img zorder interpolation alpha).
Proof. unfold Histogram2D.imshow. repeat log_grows_step. Qed.


(** C2, as stated, fails: recolouring the three-point histogram removes
    the overlay it shows as the very first canvas call. *)
Lemma overlay_removed_before_replacement_counterexample :
  Histogram2D._overlay_histogram_image three_point_histogram = Some 3
  /\ ~ overlay_kept_until_replaced 3
         (new_events three_point_histogram
            (snd (Histogram2D.color_indices_set (ArgScalar (SInt 1))
                    three_point_histogram))).
Proof.
  split; [reflexivity |]. intros H.
  destruct (H 0) as (m & _ & _ & _ & _ & Hm & _); [reflexivity | lia].
Qed.

(** Past the broadcast of a scalar, the setter first removes the overlay
    image it finds; whatever it draws comes later in the log. *)
Lemma histogram_color_indices_set_array_removes_first (h : Histogram2D.t)
    (old : handle) (indices : indices_arg) :
  Histogram2D._overlay_histogram_image h = Some old ->
  (forall v, indices <> ArgScalar v) ->
  exists r h' rest,
    Histogram2D.color_indices_set indices h = (r, h')
    /\ Histogram2D.log h' = Histogram2D.log h ++ image_remove old :: rest.
Proof.
  intros Hold Hind.
  destruct (Histogram2D.color_indices_set indices h) as [r h'] eqn:Hrun.
  exists r, h'.
  unfold Histogram2D.color_indices_set in Hrun.
  erewrite bind_step in Hrun by reflexivity.
  rewrite Hold in Hrun.
  assert (forall K : indices_arg -> M Histogram2D.t unit,
             bind (match indices with
                   | ArgNone => ret ArgNone
                   | ArgScalar v =>
                       match Histogram2D._data h with
                       | Some d => ret (ArgArray (np_full (length d) v))
                       | None => raise TypeError
                       end
                   | ArgArray a0 => ret (ArgArray a0)
                   end) K h = K indices h) as Hb
      by (intros K; destruct indices as [| v | a];
          [| destruct (Hind v) |]; reflexivity).
  rewrite Hb in Hrun. clear Hb.
  erewrite bind_step in Hrun by reflexivity.
  erewrite bind_step in Hrun by reflexivity.
  match type of Hrun with
  | ?K ?s = _ =>
      assert (keeps log_grows K) as HK;
        [| destruct (HK s _ _ Hrun) as [rest Hrest]]
  end.
  - unfold Histogram2D.set__color_indices,
      Histogram2D.set__overlay_histogram_image,
      Histogram2D.set_overlay_histogram_rgba, Histogram2D.draw.
    repeat first [ apply histogram_to_rgba_log_grows; intros ?
                 | apply histogram_imshow_log_grows
                 | log_grows_step ].
  - exists rest. split; [reflexivity |].
    rewrite Hrest. simpl. rewrite <- app_assoc. reflexivity.
Qed.

(** C2, as the code has it.  When a histogram shows an overlay,
    assigning [color_indices] (an array, or a scalar once data is held)
    removes that overlay image first: the removal is the first call the
    setter logs, before the new statistic is computed and before any new
    overlay image is drawn. *)
Theorem histogram_color_indices_set_removes_overlay_first (h : Histogram2D.t)
    (old : handle) (indices : indices_arg) :
  Histogram2D._overlay_histogram_image h = Some old ->
  (forall v, indices = ArgScalar v -> Histogram2D._data h <> None) ->
  exists r h' rest,
    Histogram2D.color_indices_set indices h = (r, h')
    /\ Histogram2D.log h' = Histogram2D.log h ++ image_remove old :: rest.
Proof.
  intros Hold Hdata.
  destruct (scalar_or_not indices) as [[v ->] | Hns].
  - destruct (Histogram2D._data h) as [d |] eqn:Hd;
      [| destruct (Hdata v eq_refl); reflexivity].
    rewrite (histogram_scalar_is_broadcast h d v Hd).
    apply histogram_color_indices_set_array_removes_first;
      [exact Hold | discriminate].
  - apply histogram_color_indices_set_array_removes_first; assumption.
Qed.

Lemma histogram_color_indices_set_removes_overlay_first_witness :
  Histogram2D._overlay_histogram_image three_point_histogram = Some 3
  /\ exists r h' rest,
      Histogram2D.color_indices_set (ArgArray (IntArray [1; 2; 1]%Z))
        three_point_histogram = (r, h')
      /\ Histogram2D.log h'
         = Histogram2D.log three_point_histogram ++ image_remove 3 :: rest.
Proof.
  split; [reflexivity |].
  apply (histogram_color_indices_set_removes_overlay_first
           three_point_histogram 3 (ArgArray (IntArray [1; 2; 1]%Z)));
    [reflexivity | discriminate].
Defined.

(** ** Log normalization *)

Lemma fle_refl a : isnan a = false -> fle a a = true.
Proof.
  destruct a; simpl; try congruence. intros _.
  apply Qle_bool_iff, Qle_refl.
Qed.


Lemma fle_total a b :
  isnan a = false -> isnan b = false -> fle a b = false -> fle b a = true.
Proof.
  destruct a, b; simpl; try congruence. intros _ _ H.
  apply Qle_bool_iff.
  destruct (Qlt_le_dec q0 q) as [Hlt | Hle]; [apply Qlt_le_weak; exact Hlt |].
  apply Qle_bool_iff in Hle. congruence.
Qed.

Lemma fle_not_nan a b : fle a b = true -> isnan a = false /\ isnan b = false.
Proof. destruct a, b; simpl; auto; congruence. Qed.






(** On a float array with a non-positive minimum, the entries [<= 0]
    become the floor 0.01 and the others stay. *)
Lemma clamp_le0_float_floor (l : list float64) :
  clamp_le0 (FloatArray l) (SFloat (Fin 0.01))
  = inr (FloatArray (map (fun x => if fle x (Fin 0) then Fin 0.01 else x) l)).
Proof. reflexivity. Qed.

(** On an int64 array the floor 0.01 is stored as the integer 0: zeros
    stay zeros and negative entries become 0. *)
Lemma clamp_le0_int_floor (l : list Z) :
  clamp_le0 (IntArray l) (SFloat (Fin 0.01))
  = inr (IntArray (map (fun z => if (z <=? 0)%Z then 0%Z else z) l)).
Proof. reflexivity. Qed.

(** The log branch of the histogram, on its float grid. *)
Lemma histogram_log_norm (h : Histogram2D.t) (is_overlay : bool)
    (histogram_data : grid float64) (min_value vmax : scalar) :
  Histogram2D.method_of is_overlay h = "log"%string ->
  nanmin (FloatArray (concat histogram_data)) = inr min_value ->
  nanmax (FloatArray (concat histogram_data)) = inr vmax ->
  let floor := if scalar_le0 min_value then SFloat (Fin 0.01) else min_value in
  exists h',
    Histogram2D._handle_norm_method_for_continuous_colormap is_overlay
      LogNorm_class histogram_data 0.03 0.01 h
    = (inr (LogNorm floor vmax,
            Histogram2D.grid_clamp_le0 histogram_data floor), h')
    /\ Histogram2D.log h'
       = Histogram2D.log h ++ [warnings_warn (Log_normalization_applied floor)].
Proof.
  intros Hm Hmin Hmax floor.
  unfold Histogram2D._handle_norm_method_for_continuous_colormap.
  erewrite bind_step by reflexivity. rewrite Hm, String.eqb_refl.
  unfold lift. erewrite bind_step by (rewrite Hmin; reflexivity).
  erewrite bind_step by (rewrite Hmax; reflexivity).
  erewrite bind_step by reflexivity.
  erewrite bind_step by reflexivity.
  eexists. split; reflexivity.
Qed.


(** C7, at a Scatter of three points with a continuous colormap and log
    normalization, when [color_indices = np.array([0, 1, 2])] (int64) is
    assigned.  The lower bound is
    clamped to 0.01 and the warning is issued, but the entry 0 is not
    raised to 0.01: stored into the integer array the floor is 0, and the
    array goes to the colour mapping unchanged. *)
Theorem scatter_log_clamp_lost_on_int_array :
  exists s',
    Scatter.color_indices_set (ArgArray (IntArray [0; 1; 2]%Z)) log_scatter
    = (inr tt, s')
    /\ Scatter._color_indices s' = ArgArray (IntArray [0; 1; 2]%Z)
    /\ drop (length (Scatter.log log_scatter)) (Scatter.log s')
       = [warnings_warn (Log_normalization_applied (SFloat (Fin 0.01)));
          set_facecolor (LogNorm (SFloat (Fin 0.01)) (SInt 2)) (cmap gray)
            (IntArray [0; 1; 2]%Z);
          set_edgecolor_None;
          color_indices_changed_signal_emit (ArgArray (IntArray [0; 1; 2]%Z));
          draw_idle].
Proof. eexists. vm_compute. repeat split. Qed.

(** The same assignment with a float array does clamp. *)
Example scatter_log_clamp_on_float_array :
  Scatter._color_indices
    (snd (Scatter.color_indices_set (ArgArray (FloatArray [Fin 0; Fin 1; Fin 2]))
            log_scatter))
  = ArgArray (FloatArray [Fin 0.01; Fin 1; Fin 2]).
Proof. vm_compute. reflexivity. Qed.

(** ** Categorical colormaps *)

Lemma lookup_map {A B} (f : A -> B) (l : list A) (k : nat) :
  map f l !! k = f <$> l !! k.
Proof.
  revert k. induction l as [| a l IH]; intros [| k]; simpl; auto.
Qed.

Lemma flt_categorical (N : Z) :
  (0 <= N)%Z -> flt (Fin (inject_Z N)) (Fin (inject_Z 0)) = false.
Proof.
  intros HN. unfold flt, fle.
  destruct (Qle_bool (inject_Z N) (inject_Z 0)) eqn:H1; [| reflexivity].
  destruct (Qle_bool (inject_Z 0) (inject_Z N)) eqn:H2; [reflexivity |].
  exfalso. apply not_true_iff_false in H2. apply H2.
  apply Qle_bool_iff. rewrite <- Zle_Qle. exact HN.
Qed.

(** [Normalize(0, N)] is applied without an error. *)
Lemma norm_call_categorical (N : Z) :
  (0 <= N)%Z -> norm_call (Normalize (SInt 0) (SInt N)) = inr tt.
Proof.
  intros HN. unfold norm_call, to_float. rewrite (flt_categorical N HN).
  reflexivity.
Qed.

(** The part of C8 that holds for every categorical colormap: an int64
    array is accepted without a warning and the face colours are set
    through [Normalize(0, K)]. *)
Lemma scatter_categorical_indices_no_warning (s : Scatter.t)
    (indices : list Z) :
  Scatter._scatter s = true ->
  categorical (Scatter._overlay_colormap s) = true ->
  Scatter._color_normalization_method s = "linear"%string ->
  dtype_is_int (IntArray indices) = true ->
  let palette := cmap (Scatter._overlay_colormap s) in
  let K := cmap_N (Scatter._overlay_colormap s) in
  exists s',
    Scatter.color_indices_set (ArgArray (IntArray indices)) s = (inr tt, s')
    /\ Scatter.log s'
       = Scatter.log s
         ++ [set_facecolor (Normalize (SInt 0) (SInt K)) palette
               (IntArray indices);
             set_edgecolor_None;
             color_indices_changed_signal_emit (ArgArray (IntArray indices));
             draw_idle].
Proof.
  intros Hdrawn Hcat Hlin Hint palette K.
  destruct s as [d v [pal cat] ci sc method sz lg]. simpl in *. subst.
  pose proof (flt_categorical (Z.of_nat (length pal)) (Nat2Z.is_nonneg _))
    as Hnorm.
  unfold Scatter.color_indices_set, Scatter.categorical_norm, bind, get,
    ret, lift, modify, Scatter.emit, Scatter.draw. simpl.
  rewrite Hint. unfold cmap_N. simpl. rewrite Hnorm. simpl.
  eexists. split; [reflexivity |].
  simpl. rewrite <- !app_assoc. reflexivity.
Qed.

(** Up to 21 colours, every index below the palette size picks its own
    entry. *)
Lemma categorical_index_exact_up_to_21 :
  forallb (fun K =>
             forallb (fun i => bool_decide
                                 (categorical_index K (Z.of_nat i) = Some i))
               (seq 0 K))
    (seq 0 22)
  = true.
Proof. vm_compute. reflexivity. Qed.

(** The warning is decided by [dtype != int]: an integer array of
    another dtype raises it, as [np.full(3, 2**63)] (uint64) does. *)
Example scatter_uint64_indices_warn :
  warnings_warn Color_indices_must_be_integers
  ∈ Scatter.log
      (snd (Scatter.color_indices_set (ArgScalar (SInt (2 ^ 63)))
              three_point_scatter)).
Proof. vm_compute. repeat constructor. Qed.

(** C8, at a categorical colormap of 22 colours and the int64 indices
    [15, 0, 21].  The setter accepts them without a warning and sets
    the face colours through [Normalize(0, 22)]; under it the point with
    index 15 gets palette entry 14: in doubles, [(15 / 22) * 22] is
    [14.999999999999998], which the lookup truncates. *)
Theorem scatter_categorical_color_misses_palette_entry :
  Scatter._scatter scatter22 = true
  /\ categorical (Scatter._overlay_colormap scatter22) = true
  /\ cmap_N (Scatter._overlay_colormap scatter22) = 22%Z
  /\ Scatter._color_normalization_method scatter22 = "linear"%string
  /\ (exists s',
         Scatter.color_indices_set (ArgArray (IntArray [15; 0; 21]%Z))
           scatter22
         = (inr tt, s')
         /\ Scatter.log s'
            = Scatter.log scatter22
              ++ [set_facecolor (Normalize (SInt 0) (SInt 22)) (cmap tab22)
                    (IntArray [15; 0; 21]%Z);
                  set_edgecolor_None;
                  color_indices_changed_signal_emit
                    (ArgArray (IntArray [15; 0; 21]%Z));
                  draw_idle])
  /\ categorical_index 22 15 = Some 14
  /\ to_rgba_linear (SInt 0) (SInt 22) (cmap tab22)
       (IntArray [15; 0; 21]%Z) !! 0
     = cmap tab22 !! 14
  /\ cmap tab22 !! 14 <> cmap tab22 !! 15.
Proof.
  split; [reflexivity |]. split; [reflexivity |]. split; [reflexivity |].
  split; [reflexivity |].
  split; [eexists; split; vm_compute; reflexivity |].
  split; [vm_compute; reflexivity |].
  split; [vm_compute; reflexivity |].
  vm_compute. discriminate.
Qed.

(** ** Color indices after a change of data *)

Lemma length_mjoin_replicate {A} (n : nat) (l : list A) :
  length (mjoin (replicate n l)) = n * length l.
Proof. induction n as [| n IH]; simpl; [reflexivity |]. rewrite length_app, IH. lia. Qed.

Lemma resize_list_length {A} (zero : A) (l : list A) (n : nat) :
  length (resize_list zero l n) = n.
Proof.
  unfold resize_list. destruct l as [| a l]; [apply length_replicate |].
  rewrite length_take, length_mjoin_replicate.
  set (m := length (a :: l)). assert (0 < m) by (unfold m; simpl; lia).
  pose proof (Nat.div_mod_eq (n + m - 1) m) as Hdiv.
  pose proof (Nat.mod_upper_bound (n + m - 1) m) as Hmod.
  nia.
Qed.

Lemma resize_list_prefix {A} (zero : A) (l : list A) (n k : nat) :
  k < length l -> k < n -> resize_list zero l n !! k = l !! k.
Proof.
  intros Hk Hn. unfold resize_list. destruct l as [| a l]; [simpl in Hk; lia |].
  set (m := length (a :: l)) in *.
  destruct ((n + m - 1) / m) as [| r] eqn:Hr.
  - apply Nat.div_small_iff in Hr; lia.
  - rewrite lookup_take_lt by exact Hn.
    change (mjoin (replicate (S r) (a :: l)))
      with ((a :: l) ++ mjoin (replicate r (a :: l))).
    rewrite lookup_app_l by exact Hk. reflexivity.
Qed.

Lemma fill_from_length {A} (zero : A) (m : nat) (l : list A) :
  m <= length l -> length (fill_from zero m l) = length l.
Proof.
  intros Hm. unfold fill_from.
  rewrite length_app, length_take, length_replicate. lia.
Qed.

Lemma fill_from_prefix {A} (zero : A) (m : nat) (l : list A) (k : nat) :
  k < m -> m <= length l -> fill_from zero m l !! k = l !! k.
Proof.
  intros Hk Hm. unfold fill_from.
  rewrite lookup_app_l by (rewrite length_take; lia).
  apply lookup_take_lt. exact Hk.
Qed.

Lemma fill_from_tail {A} (zero : A) (m : nat) (l : list A) (k : nat) :
  m <= k < length l -> fill_from zero m l !! k = Some zero.
Proof.
  intros Hk. unfold fill_from.
  rewrite lookup_app_r by (rewrite length_take; lia).
  rewrite length_take. apply lookup_replicate_2. lia.
Qed.

Lemma resized_color_indices_spec (old : ndarray) (n : nat) :
  resized_from old (Scatter.resized_color_indices old n) n.
Proof.
  unfold Scatter.resized_color_indices, resized_from.
  destruct old as [l | l]; simpl;
    rewrite !resize_list_length;
    destruct (Nat.ltb_spec (length l) n) as [Hlt | Hge]; simpl.
  - rewrite fill_from_length by (rewrite resize_list_length; lia).
    rewrite resize_list_length. split; [reflexivity |]. split.
    + intros k Hk Hn.
      rewrite fill_from_prefix by (rewrite ?resize_list_length; lia).
      rewrite resize_list_prefix by lia. reflexivity.
    + intros k Hk. exists (SInt 0).
      rewrite fill_from_tail by (rewrite resize_list_length; lia).
      split; reflexivity.
  - rewrite resize_list_length. split; [reflexivity |]. split.
    + intros k Hk Hn. rewrite resize_list_prefix by lia. reflexivity.
    + intros k Hk. lia.
  - rewrite fill_from_length by (rewrite resize_list_length; lia).
    rewrite resize_list_length. split; [reflexivity |]. split.
    + intros k Hk Hn.
      rewrite fill_from_prefix by (rewrite ?resize_list_length; lia).
      rewrite resize_list_prefix by lia. reflexivity.
    + intros k Hk. exists (SFloat (Fin 0)).
      rewrite fill_from_tail by (rewrite resize_list_length; lia).
      split; reflexivity.
  - rewrite resize_list_length. split; [reflexivity |]. split.
    + intros k Hk Hn. rewrite resize_list_prefix by lia. reflexivity.
    + intros k Hk. lia.
Qed.

(** *** Histogram2D *)

#[local] Instance histogram_same_indices_preorder :
  PreOrder histogram_same_indices.
Proof.
  split.
  - intros s. reflexivity.
  - intros s1 s2 s3 H1 H2. unfold histogram_same_indices in *. congruence.
Qed.








(** *** Scatter *)


#[local] Instance scatter_same_indices_preorder : PreOrder scatter_same_indices.
Proof.
  split.
  - intros s. reflexivity.
  - intros s1 s2 s3 H1 H2. unfold scatter_same_indices in *. congruence.
Qed.

#[local] Instance scatter_indices_len_preorder n :
  PreOrder (scatter_indices_len n).
Proof.
  split.
  - intros s H. exact H.
  - intros s1 s2 s3 H1 H2 H. exact (H2 (H1 H)).
Qed.














Lemma np_full_len n v : len (np_full n v) = n.
Proof. destruct v; simpl; apply length_replicate. Qed.

Lemma resized_color_indices_len old n :
  len (Scatter.resized_color_indices old n) = n.
Proof. apply resized_color_indices_spec. Qed.


#[local] Instance scatter_same_data_preorder : PreOrder scatter_same_data.
Proof.
  split.
  - intros s. reflexivity.
  - intros s1 s2 s3 H1 H2. unfold scatter_same_data in *. congruence.
Qed.





(** *** The setters return *)

Lemma fmin_fmax_in_order lo hi y :
  in_order lo hi -> in_order (fmin lo y) (fmax hi y).
Proof.
  unfold in_order, fmin, fmax. intros [[Hlo Hhi] | Hle].
  - rewrite Hlo, Hhi. destruct (isnan y) eqn:Hy; [left; auto | right].
    apply fle_refl. exact Hy.
  - destruct (fle_not_nan _ _ Hle) as [Hlo Hhi]. rewrite Hlo, Hhi.
    destruct (isnan y) eqn:Hy; [right; exact Hle |]. right.
    destruct (fle lo y) eqn:Hloy, (fle hi y) eqn:Hhiy; auto.
    + apply fle_refl. exact Hy.
    + apply fle_total; assumption.
Qed.

Lemma foldl_fmin_fmax_in_order l lo hi :
  in_order lo hi -> in_order (foldl fmin lo l) (foldl fmax hi l).
Proof.
  revert lo hi. induction l as [| y l IH]; intros lo hi H; simpl; [exact H |].
  apply IH, fmin_fmax_in_order, H.
Qed.

Lemma foldl_Zmin_Zmax l lo hi :
  (lo <= hi)%Z -> (foldl Z.min lo l <= foldl Z.max hi l)%Z.
Proof.
  revert lo hi. induction l as [| y l IH]; intros lo hi H; simpl; [exact H |].
  apply IH. lia.
Qed.

Lemma in_order_not_flt lo hi : in_order lo hi -> flt hi lo = false.
Proof.
  unfold flt. intros [[Hlo Hhi] | Hle].
  - destruct hi; try discriminate. reflexivity.
  - rewrite Hle. apply andb_false_r.
Qed.

(** [Normalize(np.nanmin(a), np.nanmax(a))] is applied without an
    error. *)
Lemma norm_call_nanmin_nanmax (a : ndarray) (lo hi : scalar) :
  nanmin a = inr lo -> nanmax a = inr hi ->
  norm_call (Normalize lo hi) = inr tt.
Proof.
  intros Hlo Hhi. unfold norm_call.
  assert (flt (to_float hi) (to_float lo) = false) as ->; [| reflexivity].
  destruct a as [[| z l] | [| x l]]; simpl in Hlo, Hhi; try discriminate;
    injection Hlo as <-; injection Hhi as <-; simpl.
  - apply in_order_not_flt. right. apply Qle_bool_iff. rewrite <- Zle_Qle.
    apply foldl_Zmin_Zmax. lia.
  - apply in_order_not_flt, foldl_fmin_fmax_in_order.
    unfold in_order. destruct (isnan x) eqn:Hx; [left; auto | right].
    apply fle_refl. exact Hx.
Qed.

Lemma nanmin_returns (a : ndarray) :
  0 < len a -> exists lo, nanmin a = inr lo.
Proof. destruct a as [[| z l] | [| x l]]; simpl; try lia; eauto. Qed.

Lemma nanmax_returns (a : ndarray) :
  0 < len a -> exists hi, nanmax a = inr hi.
Proof. destruct a as [[| z l] | [| x l]]; simpl; try lia; eauto. Qed.

Lemma valid_method_class (m : string) :
  valid_method m -> exists cls, _normalization_methods m = inr cls.
Proof. intros [-> | [-> | [-> | ->]]]; eexists; reflexivity. Qed.

(** The normalization of a categorical colormap: [Normalize(0, N)], the
    method reset to 'linear'. *)
Lemma scatter_categorical_norm_returns (a : ndarray) (s : Scatter.t) :
  exists s',
    Scatter.categorical_norm a s
    = (inr (Normalize (SInt 0) (SInt (cmap_N (Scatter._overlay_colormap s))),
            a), s')
    /\ Scatter._color_normalization_method s' = "linear"%string
    /\ Scatter._overlay_colormap s' = Scatter._overlay_colormap s
    /\ Scatter._scatter s' = Scatter._scatter s
    /\ Scatter._data s' = Scatter._data s
    /\ Scatter._size s' = Scatter._size s
    /\ Scatter._color_indices s' = Scatter._color_indices s.
Proof.
  destruct s as [d v cm ci sc method sz lg].
  unfold Scatter.categorical_norm, bind, get, ret, modify, Scatter.emit.
  simpl.
  destruct (dtype_is_int a); simpl;
    destruct (String.eqb method "linear") eqn:Hm; simpl;
    (eexists; split; [reflexivity |]); simpl;
    rewrite ?String.eqb_eq in Hm; auto 10.
Qed.

(** The normalization of a continuous colormap under 'linear' and
    'centered': a norm that is applied without an error; nothing is
    written. *)
Lemma scatter_continuous_norm_returns (method : string) (cls : norm_class)
    (a : ndarray) (s : Scatter.t) :
  method = "linear"%string \/ method = "centered"%string ->
  _normalization_methods method = inr cls ->
  0 < len a ->
  exists norm,
    Scatter.continuous_norm method cls a s = (inr (norm, a), s)
    /\ norm_call norm = inr tt.
Proof.
  intros Hm Hcls Ha.
  destruct (nanmin_returns a Ha) as (lo & Hlo).
  destruct (nanmax_returns a Ha) as (hi & Hhi).
  unfold Scatter.continuous_norm.
  destruct Hm as [-> | ->]; simpl in Hcls; injection Hcls as <-; simpl.
  - unfold bind, lift, ret. rewrite Hlo, Hhi. simpl.
    eexists. split; [reflexivity |].
    apply (norm_call_nanmin_nanmax a); assumption.
  - unfold bind, lift, ret. simpl. eexists. split; reflexivity.
Qed.

(** With a normalization method that is a key of the dictionary and a
    normalization that is never refused, the [color_indices] setter of
    the scatter plot returns normally on a non-empty array; it keeps
    both properties and does not touch the data, the collection or the
    size. *)
Lemma scatter_color_indices_set_returns (a : ndarray) (s : Scatter.t) :
  valid_method (Scatter._color_normalization_method s) ->
  norm_never_refused (Scatter._overlay_colormap s)
    (Scatter._color_normalization_method s) ->
  0 < len a ->
  exists s',
    Scatter.color_indices_set (ArgArray a) s = (inr tt, s')
    /\ valid_method (Scatter._color_normalization_method s')
    /\ norm_never_refused (Scatter._overlay_colormap s')
         (Scatter._color_normalization_method s')
    /\ Scatter._scatter s' = Scatter._scatter s
    /\ Scatter._data s' = Scatter._data s
    /\ Scatter._size s' = Scatter._size s
    /\ exists c, Scatter._color_indices s' = ArgArray c.
Proof.
  intros Hm Hn Ha. unfold Scatter.color_indices_set.
  erewrite bind_step by reflexivity.
  erewrite bind_step by reflexivity.
  erewrite bind_step by reflexivity.
  cbv beta iota.
  match goal with
  | |- exists s', bind ?m _ ?st = _ /\ _ =>
      assert (exists s1,
                 m st = (inr tt, s1)
                 /\ valid_method (Scatter._color_normalization_method s1)
                 /\ norm_never_refused (Scatter._overlay_colormap s1)
                      (Scatter._color_normalization_method s1)
                 /\ Scatter._scatter s1 = Scatter._scatter s
                 /\ Scatter._data s1 = Scatter._data s
                 /\ Scatter._size s1 = Scatter._size s
                 /\ Scatter._color_indices s1 = ArgArray a)
        as (s1 & Hin & Hm1 & Hn1 & Hsc1 & Hd1 & Hsz1 & Hci1)
  end.
  { destruct (Scatter._scatter s) eqn:Hsc;
      [| eexists; split; [reflexivity |]; simpl; auto 10].
    destruct (valid_method_class _ Hm) as (cls & Hcls).
    rewrite Hcls. erewrite bind_step by reflexivity.
    destruct (categorical (Scatter._overlay_colormap s)) eqn:Hcat.
    - destruct (scatter_categorical_norm_returns a
                  (Scatter.set__color_indices (ArgArray a) s))
        as (s1 & Hnorm & Hm1 & Hcm1 & Hsc1 & Hd1 & Hsz1 & Hci1).
      erewrite bind_step by exact Hnorm. cbv beta iota.
      rewrite norm_call_categorical by (unfold cmap_N; lia).
      erewrite bind_step by reflexivity.
      erewrite bind_step by reflexivity.
      eexists. split; [reflexivity |]. simpl.
      rewrite Hm1, Hcm1, Hsc1, Hd1, Hsz1, Hci1. simpl.
      split; [unfold valid_method; auto |].
      split; [left; exact Hcat |]. auto 10.
    - assert (Scatter._color_normalization_method s = "linear"%string
              \/ Scatter._color_normalization_method s = "centered"%string)
        as Hlc by (destruct Hn as [? | ?]; [congruence | assumption]).
      destruct (scatter_continuous_norm_returns _ cls a
                  (Scatter.set__color_indices (ArgArray a) s) Hlc Hcls Ha)
        as (norm & Hnorm & Hcall).
      erewrite bind_step by exact Hnorm. cbv beta iota.
      rewrite Hcall.
      erewrite bind_step by reflexivity.
      erewrite bind_step by reflexivity.
      eexists. split; [reflexivity |]. simpl. auto 10. }
  erewrite bind_step by exact Hin.
  erewrite bind_step by reflexivity.
  erewrite bind_step by reflexivity.
  eexists. split; [reflexivity |]. simpl. eauto 10.
Qed.

Lemma scatter_size_set_returns (v : size_value) (s : Scatter.t) :
  Scatter._data s <> None ->
  exists s', Scatter.size_set v s = (inr tt, s').
Proof.
  intros Hd. destruct s as [d vis cm ci sc method sz lg]. simpl in *.
  unfold Scatter.size_set, bind, get, modify, Scatter.draw, Scatter.emit.
  simpl. destruct sc; [| eauto]. destruct d; [eauto | congruence].
Qed.

Lemma scatter_data_set_tail_returns (s : Scatter.t) (d : list point) :
  Scatter._data s = Some d ->
  d <> [] ->
  valid_method (Scatter._color_normalization_method s) ->
  norm_never_refused (Scatter._overlay_colormap s)
    (Scatter._color_normalization_method s) ->
  not_scalar (Scatter._color_indices s) ->
  exists s',
    (let! self := get in
     let! _ := match Scatter._color_indices self with
               | ArgNone => Scatter.color_indices_set (ArgScalar (SInt 0))
               | ArgArray old =>
                   Scatter.color_indices_set
                     (ArgArray (Scatter.resized_color_indices old (length d)))
               | ArgScalar _ => raise TypeError
               end in
     let! _ := Scatter.size_set (SizeScalar (SInt 50)) in
     Scatter.draw) s = (inr tt, s').
Proof.
  intros Hdata Hne Hm Hn Hns.
  assert (0 < length d) as Hlen by (destruct d; [congruence | simpl; lia]).
  erewrite bind_step by reflexivity.
  assert (exists s1 u,
             match Scatter._color_indices s with
             | ArgNone => Scatter.color_indices_set (ArgScalar (SInt 0))
             | ArgArray old =>
                 Scatter.color_indices_set
                   (ArgArray (Scatter.resized_color_indices old (length d)))
             | ArgScalar _ => raise TypeError
             end s = (inr u, s1)
             /\ Scatter._data s1 = Some d) as (s1 & u & Hcolor & Hdata1).
  { destruct (Scatter._color_indices s) as [| v | old].
    - rewrite (scatter_scalar_is_broadcast s d _ Hdata).
      destruct (scatter_color_indices_set_returns
                  (np_full (length d) (SInt 0)) s Hm Hn)
        as (s1 & Hrun & _ & _ & _ & Hd & _);
        [rewrite np_full_len; exact Hlen |].
      exists s1, tt. split; [exact Hrun | congruence].
    - destruct (Hns v). reflexivity.
    - destruct (scatter_color_indices_set_returns
                  (Scatter.resized_color_indices old (length d)) s Hm Hn)
        as (s1 & Hrun & _ & _ & _ & Hd & _);
        [rewrite resized_color_indices_len; exact Hlen |].
      exists s1, tt. split; [exact Hrun | congruence]. }
  erewrite bind_step by exact Hcolor.
  destruct (scatter_size_set_returns (SizeScalar (SInt 50)) s1) as (s2 & Hsize);
    [congruence |].
  erewrite bind_step by exact Hsize.
  eexists. reflexivity.
Qed.

(** The first branch of the [data] setter, when the collection does not
    exist yet. *)
Lemma scatter_first_draw_returns (s : Scatter.t) (d : list point)
    (sz : size_value) :
  Scatter._data s = Some d ->
  d <> [] ->
  scatter_accepts_size sz (length d) = true ->
  valid_method (Scatter._color_normalization_method s) ->
  norm_never_refused (Scatter._overlay_colormap s)
    (Scatter._color_normalization_method s) ->
  exists s1,
    (let! s0 := ret sz in
     let! _ := (if scatter_accepts_size s0 (length d) then ret tt
                else raise ValueError) in
     let! _ := Scatter.emit (ax_scatter d s0) in
     let! _ := modify (Scatter.set__scatter true) in
     Scatter.color_indices_set (ArgScalar (SInt 0))) s = (inr tt, s1)
    /\ Scatter._data s1 = Some d
    /\ valid_method (Scatter._color_normalization_method s1)
    /\ norm_never_refused (Scatter._overlay_colormap s1)
         (Scatter._color_normalization_method s1)
    /\ not_scalar (Scatter._color_indices s1).
Proof.
  intros Hdata Hne Hsz Hm Hn.
  erewrite bind_step by reflexivity.
  rewrite Hsz.
  erewrite bind_step by reflexivity.
  erewrite bind_step by reflexivity.
  erewrite bind_step by reflexivity.
  erewrite scatter_scalar_is_broadcast by exact Hdata.
  match goal with
  | |- context [Scatter.color_indices_set (ArgArray ?a) ?s0] =>
      destruct (scatter_color_indices_set_returns a s0)
        as (s1 & Hrun & Hm1 & Hn1 & _ & Hd & _ & c & Hc)
  end; [exact Hm | exact Hn
       | rewrite np_full_len; destruct d; [congruence | simpl; lia] |].
  exists s1. split; [exact Hrun |]. split; [rewrite Hd; exact Hdata |].
  split; [exact Hm1 |]. split; [exact Hn1 |].
  intros v. rewrite Hc. discriminate.
Qed.

(** The [data] setter of a ready scatter plot returns normally. *)
Lemma scatter_data_set_returns (s : Scatter.t) (p : point) (value : list point) :
  ready_scatter (length (p :: value)) s ->
  exists s', Scatter.data_set (Some (p :: value)) s = (inr tt, s').
Proof.
  intros (Hm & Hn & Hdrawn). unfold Scatter.data_set.
  erewrite bind_step by reflexivity.
  erewrite bind_step by reflexivity.
  erewrite bind_step by reflexivity.
  simpl Scatter._scatter. simpl Scatter._size.
  destruct (Scatter._scatter s) eqn:Hsc.
  - destruct Hdrawn as [[_ Hns] | [? _]]; [| discriminate].
    erewrite bind_step by reflexivity.
    apply (scatter_data_set_tail_returns _ (p :: value));
      [reflexivity | discriminate | exact Hm | exact Hn | exact Hns].
  - destruct Hdrawn as [[? _] | [_ (sz & Hsize & Hsz)]]; [discriminate |].
    rewrite Hsize.
    match goal with
    | |- exists s', bind _ _ ?st = _ =>
        destruct (scatter_first_draw_returns st (p :: value) sz)
          as (s1 & Hfirst & Hdata1 & Hm1 & Hn1 & Hns1)
    end; [reflexivity | discriminate | exact Hsz | exact Hm | exact Hn |].
    erewrite bind_step by exact Hfirst.
    apply (scatter_data_set_tail_returns _ (p :: value));
      [exact Hdata1 | discriminate | exact Hm1 | exact Hn1 | exact Hns1].
Qed.

Lemma finite_values_returns (a : list float64) :
  Forall (fun v => isfinite v = true) a ->
  exists qs, finite_values a = inr qs /\ length qs = length a.
Proof.
  intros Ha. unfold finite_values.
  destruct (mapM finite_value a) as [qs |] eqn:Hqs.
  - exists qs. split; [reflexivity |]. symmetry. exact (length_mapM _ _ _ Hqs).
  - exfalso. apply mapM_None_1, Exists_exists in Hqs as (v & Hv & Hnone).
    pose proof (proj1 (Forall_forall _ _) Ha v Hv) as Hfin.
    destruct v; discriminate.
Qed.

(** On finite coordinates and at least one bin, [np.histogram2d] returns
    a grid that is not empty. *)
Lemma np_histogram2d_returns (x y : list float64) (bins : Z) :
  (1 <= bins)%Z ->
  Forall (fun v => isfinite v = true) x ->
  Forall (fun v => isfinite v = true) y ->
  exists counts x_edges y_edges,
    np_histogram2d x y bins = inr (counts, x_edges, y_edges)
    /\ concat counts <> [].
Proof.
  intros Hbins Hx Hy. unfold np_histogram2d.
  destruct (Z.ltb_spec bins 1); [lia |].
  destruct (finite_values_returns x Hx) as (xs & -> & _).
  destruct (finite_values_returns y Hy) as (ys & -> & _). simpl.
  do 3 eexists. split; [reflexivity |].
  destruct (Z.to_nat bins) as [| n] eqn:Hn; [lia |]. simpl. discriminate.
Qed.

Lemma has_shape_concat_nonempty {A} (g : grid A) height width :
  has_shape g (height + 1) (width + 1) -> concat g <> [].
Proof.
  intros [Hlen Hrows]. destruct g as [| row g]; [simpl in Hlen; lia |].
  apply Forall_cons in Hrows as [Hrow _].
  destruct row; [simpl in Hrow; lia | discriminate].
Qed.

(** The median statistic of non-empty index arrays is a non-empty
    grid. *)
Lemma median_statistic_returns (x_indices y_indices : list nat)
    (features : ndarray) :
  x_indices <> [] ->
  y_indices <> [] ->
  exists statistic_histogram,
    _calculate_statistic_histogram x_indices y_indices features "median"
    = inr statistic_histogram
    /\ concat statistic_histogram <> [].
Proof.
  intros Hx Hy. unfold _calculate_statistic_histogram.
  rewrite (py_max_list_max _ Hx), (py_max_list_max _ Hy). simpl.
  set (height := list_max x_indices + 1).
  set (width := list_max y_indices + 1).
  destruct (for_each_invariant median_body (fun g => has_shape g height width)
              (in_grid height width) (median_body_shape height width)
              (foldl (fun d '(x, y, feature) => append_feature d (x, y) feature)
                 [] (zip3 x_indices y_indices (as_floats features)))
              (np_full2 height width NaN))
    as (g & Hrun & Hshape).
  - apply has_shape_full2.
  - apply feature_lists_in_grid; [apply zip3_in_grid | constructor].
  - exists g. split; [exact Hrun |].
    exact (has_shape_concat_nonempty g _ _ Hshape).
Qed.

(** ** Marker size after a change of data *)

(** C9.  An assignment of a non-empty point set to [Scatter.data] returns
    normally on a scatter plot that is ready for it, and every such
    assignment that returns leaves the marker size at the scalar 50,
    whatever scalar or array the size was before. *)
Theorem scatter_data_set_resets_size (s : Scatter.t) (p : point)
    (value : list point) :
  (ready_scatter (length (p :: value)) s ->
   exists s', Scatter.data_set (Some (p :: value)) s = (inr tt, s'))
  /\ (forall s', Scatter.data_set (Some (p :: value)) s = (inr tt, s') ->
                 Scatter._size s' = Some (SizeScalar (SInt 50))).
Proof.
  split.
  - exact (scatter_data_set_returns s p value).
  - intros s' H. unfold Scatter.data_set in H.
    do 6 (apply bind_inr in H as (? & ? & _ & H)).
    apply bind_inr in H as (? & s1 & Hsize & H).
    apply scatter_emit_size in H. rewrite H.
    exact (scatter_size_set_size _ _ _ _ Hsize).
Qed.

Lemma scatter_data_set_resets_size_witness :
  ready_scatter 3 sized_scatter
  /\ Scatter._size sized_scatter = Some (SizeArray [Fin 10; Fin 20; Fin 30])
  /\ exists s',
      Scatter.data_set (Some three_points) sized_scatter = (inr tt, s')
      /\ Scatter._size s' = Some (SizeScalar (SInt 50)).
Proof.
  assert (ready_scatter 3 sized_scatter) as Hready.
  { split; [left; reflexivity |]. split; [left; reflexivity |].
    left. split; [reflexivity |]. intros v. discriminate. }
  split; [exact Hready |]. split; [reflexivity |].
  destruct (scatter_data_set_resets_size sized_scatter (Fin 0, Fin 0)
              [(Fin 0, Fin 0); (Fin 5, Fin 5)]) as [Hreturns Hsize].
  destruct (Hreturns Hready) as [s' Hs'].
  exists s'. split; [exact Hs' | exact (Hsize s' Hs')].
Defined.

(** A scatter plot that is not ready: under log normalization with a
    continuous colormap, color indices below the floor 0.01 give
    [LogNorm(0.01, 0.002)], which matplotlib refuses; the assignment of
    five points raises ValueError after the data and the resized indices
    were stored. *)
Example scatter_data_set_log_floor_above_vmax_raises :
  let s :=
    snd (Scatter.color_indices_set
           (ArgArray (FloatArray [Fin 0.001; Fin 0.002; Fin 0.002]))
           log_scatter) in
  fst (Scatter.data_set (Some five_points) s) = inl ValueError
  /\ Scatter._data (snd (Scatter.data_set (Some five_points) s))
     = Some five_points.
Proof. vm_compute. split; reflexivity. Qed.


(** * Further properties *)

(** ** The three statistics, cell by cell *)

Lemma sum_body_restart_invariant height width seen acc p :
  sum_restart_invariant height width seen acc ->
  in_grid height width p ->
  exists acc', sum_body acc p = inr acc'
               /\ sum_restart_invariant height width (seen ++ [p]) acc'.
Proof.
  destruct acc as [sums flags], p as [[x y] f].
  intros ([Hs Hf] & Hcells) [Hx Hy]. simpl in *.
  destruct (Hcells x y Hx Hy) as [Hsum Hflag].
  unfold sum_body. rewrite Hsum. simpl.
  set (s := restarting_sum (cell_values seen x y)) in *.
  assert (exists sums1,
             (if isnan s then grid_set sums x y (Fin 0) else inr sums) = inr sums1
             /\ has_shape sums1 height width
             /\ grid_get sums1 x y = inr (if isnan s then Fin 0 else s)
             /\ forall i j, (i, j) <> (x, y) ->
                            grid_get sums1 i j = grid_get sums i j)
    as (sums1 & -> & Hs1 & Hget1 & Hold1).
  { destruct (isnan s).
    - destruct (grid_set_in_shape sums _ _ x y (Fin 0) Hs Hx Hy)
        as (sums1 & -> & ? & ? & ?). eauto.
    - exists sums. auto. }
  simpl. rewrite Hget1. simpl.
  destruct (grid_set_in_shape sums1 _ _ x y
              (fadd (if isnan s then Fin 0 else s) f) Hs1 Hx Hy)
    as (sums' & -> & Hs' & Hnew & Hold). simpl.
  destruct (grid_set_in_shape flags _ _ x y true Hf Hx Hy)
    as (flags' & -> & Hf' & Hfnew & Hfold). simpl.
  eexists. split; [reflexivity |]. split; [split; assumption |].
  intros i j Hi Hj. simpl. rewrite cell_values_snoc.
  destruct (decide ((x, y) = (i, j))) as [[= <- <-] | Hne].
  - unfold restarting_sum. rewrite foldl_app. simpl. split; [exact Hnew |].
    rewrite Hfnew. f_equal. symmetry. apply bool_decide_eq_true.
    intros Hnil. apply app_eq_nil in Hnil as [_ Hnil]. discriminate.
  - rewrite app_nil_r.
    rewrite (Hold i j), (Hold1 i j) by congruence.
    rewrite (Hfold i j) by congruence.
    exact (Hcells i j Hi Hj).
Qed.

(** X1.  With [statistic='sum'] and arbitrary values (NaN and infinities
    included), every cell of the returned grid that received no point is
    NaN, and a cell that received the values [vs] holds their running sum
    in the order of the points, where a running sum that has become NaN
    is set back to 0 before the next value is added: values [nan, 3] give
    3, values [3, nan] give NaN. *)
Theorem sum_statistic_restarts_after_nan (x_indices y_indices : list nat)
    (features : ndarray) :
  x_indices <> [] ->
  y_indices <> [] ->
  statistic_cells "sum"%string
    (fun vs v => v = match vs with [] => NaN | _ => restarting_sum vs end)
    x_indices y_indices features.
Proof.
  intros Hx Hy. unfold statistic_cells, _calculate_statistic_histogram.
  rewrite (py_max_list_max _ Hx), (py_max_list_max _ Hy). simpl.
  set (height := list_max x_indices + 1).
  set (width := list_max y_indices + 1).
  set (points := zip3 x_indices y_indices (as_floats features)).
  destruct (for_each_history sum_body (sum_restart_invariant height width) _
              (sum_body_restart_invariant height width) points []
              (np_full2 height width (Fin 0), np_full2 height width false))
    as ([sums flags] & Hrun & [Hs Hf] & Hcells).
  { split; [split; apply has_shape_full2 |].
    intros i j Hi Hj. simpl. split; apply grid_get_full2; assumption. }
  { apply zip3_in_grid. }
  rewrite Hrun. simpl in *. eexists. split; [reflexivity |].
  intros i j Hi Hj.
  destruct (Hcells i j) as [Hsum Hflag]; [lia | lia |].
  unfold values_in_cell. fold points.
  eexists. split.
  - unfold assign_where.
    apply grid_zip_with_get;
      [apply grid_zip_with_get; [exact Hflag | exact Hsum] |].
    apply grid_get_full2; lia.
  - simpl. destruct (cell_values points i j) as [| v vs]; reflexivity.
Qed.

Lemma sum_statistic_restarts_after_nan_witness :
  [0; 0; 1] <> [] /\ [0; 0; 1] <> []
  /\ statistic_cells "sum"%string
       (fun vs v => v = match vs with [] => NaN | _ => restarting_sum vs end)
       [0; 0; 1] [0; 0; 1] (FloatArray [NaN; Fin 3; Fin 4]).
Proof.
  split; [discriminate |]. split; [discriminate |].
  apply (sum_statistic_restarts_after_nan [0; 0; 1] [0; 0; 1]
           (FloatArray [NaN; Fin 3; Fin 4])); discriminate.
Defined.

Lemma Qred_inject_Z z : Qred (inject_Z z) = inject_Z z.
Proof.
  unfold Qred, inject_Z.
  pose proof (Z.ggcd_gcd z 1) as Hg.
  pose proof (Z.ggcd_correct_divisors z 1) as Hd.
  destruct (Z.ggcd z 1) as [g [a b]]. simpl in Hg, Hd |- *.
  rewrite Z.gcd_1_r in Hg. subst g. destruct Hd as [Ha Hb].
  replace a with z by lia. replace b with 1%Z by lia. reflexivity.
Qed.

Lemma fadd_count n :
  fadd (Fin (inject_Z (Z.of_nat n))) (Fin 1)
  = Fin (inject_Z (Z.of_nat (S n))).
Proof.
  unfold fadd. f_equal.
  rewrite <- (Qred_inject_Z (Z.of_nat (S n))). apply Qred_complete.
  rewrite Nat2Z.inj_succ. unfold Z.succ. rewrite inject_Z_plus. reflexivity.
Qed.

Lemma mean_body_invariant height width seen acc p :
  mean_invariant height width seen acc ->
  in_grid height width p ->
  exists acc', mean_body acc p = inr acc'
               /\ mean_invariant height width (seen ++ [p]) acc'.
Proof.
  destruct acc as [sums counts], p as [[x y] f].
  intros ([Hs Hc] & Hcells) [Hx Hy]. simpl in *.
  destruct (Hcells x y Hx Hy) as [Hsum Hcount].
  unfold mean_body. rewrite Hsum. simpl.
  destruct (grid_set_in_shape sums _ _ x y
              (fadd (foldl fadd (Fin 0) (cell_values seen x y)) f) Hs Hx Hy)
    as (sums' & -> & Hs' & Hnew & Hold). simpl.
  remember (Fin (inject_Z (Z.of_nat (length (cell_values seen x y)))))
    as c eqn:Ec.
  rewrite Hcount. simpl.
  destruct (grid_set_in_shape counts _ _ x y (fadd c (Fin 1)) Hc Hx Hy)
    as (counts' & -> & Hc' & Hcnew & Hcold). simpl. subst c.
  eexists. split; [reflexivity |]. split; [split; assumption |].
  intros i j Hi Hj. simpl. rewrite cell_values_snoc.
  destruct (decide ((x, y) = (i, j))) as [[= <- <-] | Hne].
  - rewrite foldl_app, length_app. simpl. split; [exact Hnew |].
    rewrite Hcnew, fadd_count. do 3 f_equal. lia.
  - rewrite app_nil_r.
    rewrite (Hold i j), (Hcold i j) by congruence.
    exact (Hcells i j Hi Hj).
Qed.

(** X2.  With [statistic='mean'], every cell of the returned grid that
    received no point is NaN, and a cell that received the values [vs]
    holds their sum (accumulated from 0 in the order of the points)
    divided by their number. *)
Theorem mean_statistic_is_sum_over_count (x_indices y_indices : list nat)
    (features : ndarray) :
  x_indices <> [] ->
  y_indices <> [] ->
  statistic_cells "mean"%string
    (fun vs v => v = match vs with [] => NaN | _ => mean_of vs end)
    x_indices y_indices features.
Proof.
  intros Hx Hy. unfold statistic_cells, _calculate_statistic_histogram.
  rewrite (py_max_list_max _ Hx), (py_max_list_max _ Hy). simpl.
  set (height := list_max x_indices + 1).
  set (width := list_max y_indices + 1).
  set (points := zip3 x_indices y_indices (as_floats features)).
  destruct (for_each_history mean_body (mean_invariant height width) _
              (mean_body_invariant height width) points []
              (np_full2 height width (Fin 0), np_full2 height width (Fin 0)))
    as ([sums counts] & Hrun & [Hs Hc] & Hcells).
  { split; [split; apply has_shape_full2 |].
    intros i j Hi Hj. simpl. split; apply grid_get_full2; assumption. }
  { apply zip3_in_grid. }
  rewrite Hrun. simpl in *. eexists. split; [reflexivity |].
  intros i j Hi Hj.
  destruct (Hcells i j) as [Hsum Hcount]; [lia | lia |].
  unfold values_in_cell. fold points.
  eexists. split.
  - unfold divide_where.
    apply grid_zip_with_get;
      [apply grid_zip_with_get; [exact Hsum | exact Hcount] |].
    apply grid_get_full2; lia.
  - simpl. unfold mean_of.
    destruct (cell_values points i j) as [| v vs]; [reflexivity |].
    replace (feq (Fin (inject_Z (Z.of_nat (length (v :: vs))))) (Fin 0))
      with false; [reflexivity |].
    symmetry. unfold feq, fle.
    apply andb_false_iff. left.
    apply not_true_is_false. intros H. apply Qle_bool_iff in H.
    simpl length in H. rewrite Nat2Z.inj_succ in H.
    unfold Qle, inject_Z in H. simpl in H. lia.
Qed.

Lemma mean_statistic_is_sum_over_count_witness :
  [0; 0; 1] <> [] /\ [1; 1; 0] <> []
  /\ statistic_cells "mean"%string
       (fun vs v => v = match vs with [] => NaN | _ => mean_of vs end)
       [0; 0; 1] [1; 1; 0] (IntArray [1; 2; 5]%Z).
Proof.
  split; [discriminate |]. split; [discriminate |].
  apply (mean_statistic_is_sum_over_count [0; 0; 1] [1; 1; 0]
           (IntArray [1; 2; 5]%Z)); discriminate.
Defined.

Lemma lookup_features_append d k v k' :
  lookup_features (append_feature d k v) k'
  = lookup_features d k' ++ (if decide (k = k') then [v] else []).
Proof.
  induction d as [| [k0 vs] d IH]; simpl.
  - destruct (decide (k = k')); reflexivity.
  - destruct (decide (k0 = k)) as [-> | Hne]; simpl.
    + destruct (decide (k = k')); [reflexivity |].
      symmetry. apply app_nil_r.
    + destruct (decide (k0 = k')) as [-> | Hne'].
      * destruct (decide (k = k')); [congruence |].
        symmetry. apply app_nil_r.
      * exact IH.
Qed.

Lemma append_feature_keys d k v :
  map fst (append_feature d k v)
  = map fst d ++ (if decide (k ∈ map fst d) then [] else [k]).
Proof.
  induction d as [| [k0 vs] d IH]; simpl.
  - destruct (decide (k ∈ [])) as [H | _]; [inversion H | reflexivity].
  - destruct (decide (k0 = k)) as [-> | Hne]; simpl.
    + destruct (decide (k ∈ k :: map fst d)) as [_ | H];
        [rewrite app_nil_r; reflexivity | exfalso; apply H; left].
    + rewrite IH. f_equal.
      destruct (decide (k ∈ map fst d)) as [H | H];
        destruct (decide (k ∈ k0 :: map fst d)) as [H' | H'];
        try reflexivity.
      * exfalso. apply H'. right. exact H.
      * exfalso. apply elem_of_cons in H' as [-> | H']; [congruence | auto].
Qed.

Lemma append_feature_NoDup d k v :
  NoDup (map fst d) -> NoDup (map fst (append_feature d k v)).
Proof.
  intros Hd. rewrite append_feature_keys.
  destruct (decide (k ∈ map fst d)) as [H | H]; [rewrite app_nil_r; exact Hd |].
  apply NoDup_app. split; [exact Hd |]. split; [| apply NoDup_singleton].
  intros x Hx Hx'. apply list_elem_of_singleton in Hx'. subst. auto.
Qed.

Lemma feature_lists_spec points :
  let d := foldl (fun d '(x, y, feature) => append_feature d (x, y) feature)
             [] points in
  NoDup (map fst d)
  /\ forall i j, lookup_features d (i, j) = cell_values points i j.
Proof.
  induction points as [| [[x y] f] points IH] using rev_ind; simpl.
  - split; [constructor | reflexivity].
  - rewrite foldl_app. simpl. destruct IH as [Hnd Hlook].
    split; [apply append_feature_NoDup; exact Hnd |].
    intros i j. rewrite lookup_features_append, Hlook, cell_values_snoc.
    reflexivity.
Qed.

Lemma lookup_features_absent d k :
  k ∉ map fst d -> lookup_features d k = [].
Proof.
  induction d as [| [k0 vs] d IH]; simpl; [reflexivity |].
  intros H. destruct (decide (k0 = k)) as [-> | _].
  - exfalso. apply H. left.
  - apply IH. intros H'. apply H. right. exact H'.
Qed.

Lemma median_loop_cells height width d :
  NoDup (map fst d) ->
  Forall (in_grid height width) d ->
  forall g, has_shape g height width ->
  exists g', for_each median_body g d = inr g'
             /\ has_shape g' height width
             /\ forall i j,
                 grid_get g' i j
                 = match lookup_features d (i, j) with
                   | [] => grid_get g i j
                   | vs => inr (np_median vs)
                   end.
Proof.
  induction d as [| [[x y] vs] d IH]; intros Hnd Hin g Hg.
  - exists g. simpl. auto.
  - simpl in Hnd. apply NoDup_cons in Hnd as [Hnotin Hnd].
    apply Forall_cons in Hin as [[Hx Hy] Hin]. simpl in Hx, Hy.
    assert (exists g1, median_body g (x, y, vs) = inr g1
                       /\ has_shape g1 height width
                       /\ (forall i j, (i, j) <> (x, y) ->
                                       grid_get g1 i j = grid_get g i j)
                       /\ grid_get g1 x y
                          = match vs with
                            | [] => grid_get g x y
                            | _ => inr (np_median vs)
                            end)
      as (g1 & Hstep & Hg1 & Hold & Hnew).
    { unfold median_body. destruct vs as [| v vs]; [eauto 6 |].
      destruct (grid_set_in_shape g _ _ x y (np_median (v :: vs)) Hg Hx Hy)
        as (g1 & -> & ? & ? & ?). eauto 6. }
    destruct (IH Hnd Hin g1 Hg1) as (g' & Hrun & Hg' & Hcells).
    exists g'. split; [cbn [for_each]; rewrite Hstep; cbv beta iota; exact Hrun |].
    split; [exact Hg' |].
    intros i j. rewrite Hcells. simpl lookup_features.
    destruct (decide ((x, y) = (i, j))) as [[= <- <-] | Hne].
    + rewrite (lookup_features_absent d (x, y) Hnotin), Hnew.
      destruct vs; reflexivity.
    + rewrite (Hold i j) by congruence. reflexivity.
Qed.

Lemma median_statistic_grid (x_indices y_indices : list nat)
    (features : ndarray) :
  x_indices <> [] ->
  y_indices <> [] ->
  exists g,
    _calculate_statistic_histogram x_indices y_indices features "median"
    = inr g
    /\ has_shape g (list_max x_indices + 1) (list_max y_indices + 1)
    /\ forall i j,
        i <= list_max x_indices -> j <= list_max y_indices ->
        grid_get g i j
        = inr match values_in_cell x_indices y_indices features i j with
              | [] => NaN
              | vs => np_median vs
              end.
Proof.
  intros Hx Hy. unfold _calculate_statistic_histogram.
  rewrite (py_max_list_max _ Hx), (py_max_list_max _ Hy). simpl.
  set (height := list_max x_indices + 1).
  set (width := list_max y_indices + 1).
  set (points := zip3 x_indices y_indices (as_floats features)).
  destruct (feature_lists_spec points) as [Hnd Hlook].
  destruct (median_loop_cells height width _ Hnd
              (feature_lists_in_grid height width points []
                 (zip3_in_grid _ _ _) (Forall_nil_2 _))
              (np_full2 height width NaN) (has_shape_full2 _ _ _))
    as (g' & Hrun & Hg' & Hcells).
  exists g'. split; [exact Hrun |]. split; [exact Hg' |].
  intros i j Hi Hj.
  rewrite Hcells, Hlook. unfold values_in_cell. fold points.
  destruct (cell_values points i j); [apply grid_get_full2; lia | reflexivity].
Qed.

(** X3.  With [statistic='median'], every cell of the returned grid that
    received no point is NaN, and a cell that received the values [vs]
    holds [np.median(vs)], whatever the order in which the cells were
    first met. *)
Theorem median_statistic_is_cell_median (x_indices y_indices : list nat)
    (features : ndarray) :
  x_indices <> [] ->
  y_indices <> [] ->
  statistic_cells "median"%string
    (fun vs v => v = match vs with [] => NaN | _ => np_median vs end)
    x_indices y_indices features.
Proof.
  intros Hx Hy.
  destruct (median_statistic_grid x_indices y_indices features Hx Hy)
    as (g & Hrun & _ & Hcells).
  exists g. split; [exact Hrun |].
  intros i j Hi Hj. eexists. split; [apply Hcells; assumption |].
  destruct (values_in_cell x_indices y_indices features i j); reflexivity.
Qed.

Lemma median_statistic_is_cell_median_witness :
  [0; 1; 0; 0] <> [] /\ [0; 1; 0; 0] <> []
  /\ statistic_cells "median"%string
       (fun vs v => v = match vs with [] => NaN | _ => np_median vs end)
       [0; 1; 0; 0] [0; 1; 0; 0] (FloatArray [Fin 3; Fin 7; Fin 1; Fin 2]).
Proof.
  split; [discriminate |]. split; [discriminate |].
  apply (median_statistic_is_cell_median [0; 1; 0; 0] [0; 1; 0; 0]
           (FloatArray [Fin 3; Fin 7; Fin 1; Fin 2])); discriminate.
Defined.

(** ** Construction and the order of the attribute assignments *)

(** X4.  [Scatter(ax, data)] with a non-empty [data] always raises
    AttributeError: [__init__] assigns [self.data] before [self._size],
    and the data setter passes [self._size] to [ax.scatter].  The data
    has been stored and [data_changed_signal] emitted by then; nothing
    is drawn. *)
Theorem scatter_init_with_data_raises (p : point) (value : list point)
    (overlay_colormap : BiaColormap) (color_indices : indices_arg) :
  exists s,
    Scatter.__init__ (Some (p :: value)) overlay_colormap color_indices
    = (inl AttributeError, s)
    /\ Scatter._data s = Some (p :: value)
    /\ Scatter._scatter s = false
    /\ Scatter._size s = None
    /\ Scatter.log s = [data_changed_signal_emit (p :: value)].
Proof. eexists. split; [reflexivity |]. simpl. auto. Qed.

(** X5.  As long as a Histogram2D has received no data, the attribute
    [_histogram] does not exist, and every assignment that recolours the
    overlay raises: [color_indices], [overlay_colormap] and
    [overlay_color_normalization_method].  The exception is
    AttributeError, except that a scalar is broadcast first: a scalar
    assigned to [color_indices], or left there by [__init__] when one of
    the other two is assigned, raises TypeError while [_data] is None.
    The colormap or the method assigned is stored all the same, the
    color indices are unless the broadcast raised, and neither a signal
    nor a draw is issued. *)
Theorem histogram_overlay_setters_before_data_raise (h : Histogram2D.t) :
  Histogram2D._histogram h = None ->
  Histogram2D._overlay_histogram_image h = None ->
  (forall a, exists h',
      Histogram2D.color_indices_set (ArgArray a) h = (inl AttributeError, h')
      /\ Histogram2D._color_indices h' = ArgArray a
      /\ Histogram2D.log h' = Histogram2D.log h)
  /\ (exists h',
         Histogram2D.color_indices_set ArgNone h = (inl AttributeError, h')
         /\ Histogram2D._color_indices h' = ArgNone
         /\ Histogram2D.log h' = Histogram2D.log h)
  /\ (forall v,
         match Histogram2D._data h with
         | None =>
             Histogram2D.color_indices_set (ArgScalar v) h = (inl TypeError, h)
         | Some d =>
             exists h',
               Histogram2D.color_indices_set (ArgScalar v) h
               = (inl AttributeError, h')
               /\ Histogram2D._color_indices h'
                  = ArgArray (np_full (length d) v)
               /\ Histogram2D.log h' = Histogram2D.log h
         end)
  /\ (forall value, exists h',
         Histogram2D.overlay_colormap_set value h
         = (inl (overlay_update_error h), h')
         /\ Histogram2D._overlay_colormap h' = value
         /\ Histogram2D.log h' = Histogram2D.log h)
  /\ (forall value, exists h',
         Histogram2D.overlay_color_normalization_method_set value h
         = (inl (overlay_update_error h), h')
         /\ Histogram2D._overlay_color_normalization_method h' = value
         /\ Histogram2D.log h' = Histogram2D.log h).
Proof.
  intros Hhist Himg.
  destruct h as [d vis ocm ci himg bins hcm hint oint oop ovis oimg hm om
                   hist hrgba orgba lg].
  simpl in *. subst hist oimg. unfold overlay_update_error. simpl.
  split; [| split; [| split; [| split]]]; intros;
    try (destruct ci as [| v0 | c]); try (destruct d as [d |]);
    try reflexivity;
    (eexists; split; [reflexivity |]; simpl; auto).
Qed.

Lemma histogram_overlay_setters_before_data_raise_witness :
  Histogram2D._histogram empty_histogram = None
  /\ Histogram2D._overlay_histogram_image empty_histogram = None
  /\ exists h',
      Histogram2D.color_indices_set (ArgArray (IntArray [1; 2]%Z))
        empty_histogram
      = (inl AttributeError, h')
      /\ Histogram2D._color_indices h' = ArgArray (IntArray [1; 2]%Z)
      /\ Histogram2D.log h' = Histogram2D.log empty_histogram.
Proof.
  split; [reflexivity |]. split; [reflexivity |].
  apply (histogram_overlay_setters_before_data_raise empty_histogram);
    reflexivity.
Defined.

(** [Histogram2D(ax, color_indices=3)] stores the scalar; the
    [overlay_colormap] setter then raises TypeError, the colormap
    stored. *)
Example histogram_scalar_indices_from_init :
  let h := snd (Histogram2D.__init__ None tab10 (ArgScalar (SInt 3)) 2 gray) in
  Histogram2D._color_indices h = ArgScalar (SInt 3)
  /\ fst (Histogram2D.overlay_colormap_set gray h) = inl TypeError
  /\ Histogram2D._overlay_colormap
       (snd (Histogram2D.overlay_colormap_set gray h)) = gray.
Proof. vm_compute. repeat split; reflexivity. Qed.

(** X6.  A Scatter accepts color indices before it has data: while the
    matplotlib collection does not exist, the [color_indices] setter
    stores any array (or None) without looking at the colormap or at the
    normalization method, emits [color_indices_changed_signal] and asks
    for a draw.  No colour is computed. *)
Theorem scatter_color_indices_before_data_are_stored (s : Scatter.t)
    (a : ndarray) :
  Scatter._scatter s = false ->
  exists s',
    Scatter.color_indices_set (ArgArray a) s = (inr tt, s')
    /\ Scatter._color_indices s' = ArgArray a
    /\ Scatter._color_normalization_method s'
       = Scatter._color_normalization_method s
    /\ Scatter.log s'
       = Scatter.log s
         ++ [color_indices_changed_signal_emit (ArgArray a); draw_idle].
Proof.
  intros Hsc. destruct s as [d vis cm ci sc method sz lg]. simpl in *.
  subst sc. eexists. split; [reflexivity |]. simpl.
  rewrite <- app_assoc. auto.
Qed.

Lemma scatter_color_indices_before_data_are_stored_witness :
  Scatter._scatter empty_scatter = false
  /\ exists s',
      Scatter.color_indices_set (ArgArray (FloatArray [NaN; Fin 1]))
        empty_scatter
      = (inr tt, s')
      /\ Scatter._color_indices s' = ArgArray (FloatArray [NaN; Fin 1])
      /\ Scatter._color_normalization_method s'
         = Scatter._color_normalization_method empty_scatter
      /\ Scatter.log s'
         = Scatter.log empty_scatter
           ++ [color_indices_changed_signal_emit
                 (ArgArray (FloatArray [NaN; Fin 1])); draw_idle].
Proof.
  split; [reflexivity |].
  apply (scatter_color_indices_before_data_are_stored empty_scatter);
    reflexivity.
Defined.

(** ** Normalization methods *)

Lemma unknown_method_is_no_key (value : string) :
  ~ valid_method value -> _normalization_methods value = inl KeyError.
Proof.
  intros Hv. unfold _normalization_methods, valid_method in *.
  destruct (String.eqb_spec value "linear"); [tauto |].
  destruct (String.eqb_spec value "log"); [tauto |].
  destruct (String.eqb_spec value "symlog"); [tauto |].
  destruct (String.eqb_spec value "centered"); [tauto |].
  reflexivity.
Qed.

(** X7.  The [color_normalization_method] setter of a Scatter does not
    validate its argument: on a drawn scatter plot with color indices, a
    name that is not a key of [_normalization_methods] is stored first
    and the lookup then raises KeyError, whatever the colormap (the
    lookup precedes the test for a categorical colormap).  The name stays
    stored, so every later non-empty [data] assignment raises KeyError
    as well. *)
Theorem scatter_unknown_method_is_stored (s : Scatter.t) (a : ndarray)
    (value : string) :
  Scatter._scatter s = true ->
  Scatter._color_indices s = ArgArray a ->
  ~ valid_method value ->
  exists s',
    Scatter.color_normalization_method_set value s = (inl KeyError, s')
    /\ Scatter._color_normalization_method s' = value
    /\ Scatter.log s' = Scatter.log s
    /\ forall p d, exists s'',
        Scatter.data_set (Some (p :: d)) s' = (inl KeyError, s'')
        /\ Scatter._data s'' = Some (p :: d).
Proof.
  intros Hsc Hci Hv. apply unknown_method_is_no_key in Hv.
  destruct s as [d0 vis cm ci sc method sz lg]. simpl in *. subst sc ci.
  unfold Scatter.color_normalization_method_set, Scatter.data_set,
    Scatter.color_indices_set, bind, get, ret, lift, modify, raise,
    Scatter.emit, Scatter.draw.
  simpl. rewrite Hv. simpl.
  eexists. split; [reflexivity |]. simpl. repeat split.
  intros p d. rewrite Hv. simpl. eexists. split; reflexivity.
Qed.

Lemma scatter_unknown_method_is_stored_witness :
  Scatter._scatter coloured_scatter = true
  /\ Scatter._color_indices coloured_scatter = ArgArray (IntArray [1; 2; 3]%Z)
  /\ ~ valid_method "sqrt"
  /\ exists s',
      Scatter.color_normalization_method_set "sqrt" coloured_scatter
      = (inl KeyError, s')
      /\ Scatter._color_normalization_method s' = "sqrt"%string
      /\ Scatter.log s' = Scatter.log coloured_scatter
      /\ forall p d, exists s'',
          Scatter.data_set (Some (p :: d)) s' = (inl KeyError, s'')
          /\ Scatter._data s'' = Some (p :: d).
Proof.
  assert (~ valid_method "sqrt") as Hv
      by (intros [H | [H | [H | H]]]; discriminate).
  split; [reflexivity |]. split; [reflexivity |]. split; [exact Hv |].
  apply (scatter_unknown_method_is_stored coloured_scatter
           (IntArray [1; 2; 3]%Z) "sqrt");
    [reflexivity | reflexivity | exact Hv].
Defined.

(** X8.  With a categorical colormap, a Scatter that is drawn and has
    color indices does not keep a normalization method other than
    'linear': the [color_normalization_method] setter returns normally
    on each of the four method names, and the attribute reads 'linear'
    afterwards; a different name is announced by the warning
    'Categorical colormap detected'. *)
Theorem scatter_categorical_colormap_forces_linear (s : Scatter.t)
    (a : ndarray) (value : string) :
  Scatter._scatter s = true ->
  Scatter._color_indices s = ArgArray a ->
  categorical (Scatter._overlay_colormap s) = true ->
  valid_method value ->
  exists s',
    Scatter.color_normalization_method_set value s = (inr tt, s')
    /\ Scatter._color_normalization_method s' = "linear"%string
    /\ Scatter._color_indices s' = ArgArray a
    /\ (value <> "linear"%string ->
        warnings_warn Categorical_colormap_detected
        ∈ drop (length (Scatter.log s)) (Scatter.log s')).
Proof.
  intros Hsc Hci Hcat Hv.
  destruct s as [d0 vis [pal cat] ci sc method sz lg]. simpl in *.
  subst sc ci cat.
  unfold Scatter.color_normalization_method_set,
    Scatter.color_indices_set, Scatter.categorical_norm,
    bind, get, ret, lift, modify, raise, Scatter.emit, Scatter.draw.
  destruct Hv as [-> | [-> | [-> | ->]]]; simpl;
    destruct (dtype_is_int a); simpl;
    rewrite (flt_categorical (cmap_N {| cmap := pal; categorical := true |}))
      by (unfold cmap_N; lia);
    simpl;
    (eexists; split; [reflexivity |]; simpl;
     split; [reflexivity |]; split; [reflexivity |];
     intros Hne; try congruence;
     rewrite <- !app_assoc, drop_app_length; simpl;
     repeat (first [apply list_elem_of_here | apply list_elem_of_further])).
Qed.

Lemma scatter_categorical_colormap_forces_linear_witness :
  Scatter._scatter coloured_scatter = true
  /\ Scatter._color_indices coloured_scatter = ArgArray (IntArray [1; 2; 3]%Z)
  /\ categorical (Scatter._overlay_colormap coloured_scatter) = true
  /\ valid_method "log"
  /\ exists s',
      Scatter.color_normalization_method_set "log" coloured_scatter
      = (inr tt, s')
      /\ Scatter._color_normalization_method s' = "linear"%string
      /\ Scatter._color_indices s' = ArgArray (IntArray [1; 2; 3]%Z)
      /\ ("log"%string <> "linear"%string ->
          warnings_warn Categorical_colormap_detected
          ∈ drop (length (Scatter.log coloured_scatter)) (Scatter.log s')).
Proof.
  assert (valid_method "log") as Hv by (right; left; reflexivity).
  split; [reflexivity |]. split; [reflexivity |]. split; [reflexivity |].
  split; [exact Hv |].
  apply (scatter_categorical_colormap_forces_linear coloured_scatter
           (IntArray [1; 2; 3]%Z) "log");
    [reflexivity | reflexivity | reflexivity | exact Hv].
Defined.

(** ** The overlay of a Histogram2D *)

Lemma all_nan_grid (g : grid float64) height width :
  has_shape g height width ->
  (forall i j, i < height -> j < width -> grid_get g i j = inr NaN) ->
  Histogram2D.all_nan g = true.
Proof.
  intros Hs Hcells. unfold Histogram2D.all_nan.
  apply forallb_forall. intros row Hrow.
  apply list_elem_of_In, list_elem_of_lookup in Hrow as [i Hi].
  pose proof (lookup_lt_Some _ _ _ Hi) as Hlt. rewrite (proj1 Hs) in Hlt.
  pose proof (has_shape_row _ _ _ _ _ Hs Hi) as Hlen.
  apply forallb_forall. intros v Hv.
  apply list_elem_of_In, list_elem_of_lookup in Hv as [j Hj].
  pose proof (lookup_lt_Some _ _ _ Hj) as Hltj. rewrite Hlen in Hltj.
  specialize (Hcells i j Hlt Hltj). unfold grid_get in Hcells.
  rewrite Hi, Hj in Hcells. injection Hcells as ->. reflexivity.
Qed.

Lemma np_median_all_nan (vs : list float64) :
  vs <> [] -> Forall (fun v => isnan v = true) vs -> np_median vs = NaN.
Proof.
  intros Hne Hall. destruct vs as [| v vs]; [congruence |].
  apply Forall_cons in Hall as [Hv _].
  unfold np_median. simpl. rewrite Hv. reflexivity.
Qed.

Lemma values_in_cell_all (P : float64 -> Prop) x_indices y_indices features
    i j :
  Forall P (as_floats features) ->
  Forall P (values_in_cell x_indices y_indices features i j).
Proof.
  intros H. unfold values_in_cell, cell_values. apply List.Forall_map.
  apply Forall_forall. intros [[x y] f] Hp.
  apply list_elem_of_filter in Hp as [_ Hp]. unfold zip3 in Hp.
  apply elem_of_zip_r in Hp. simpl in *.
  exact (proj1 (Forall_forall _ _) H f Hp).
Qed.

(** The median statistic of values that are all NaN is a grid of NaN. *)
Lemma median_statistic_all_nan (x_indices y_indices : list nat)
    (features : ndarray) :
  x_indices <> [] ->
  y_indices <> [] ->
  Forall (fun v => isnan v = true) (as_floats features) ->
  exists g,
    _calculate_statistic_histogram x_indices y_indices features "median"
    = inr g
    /\ Histogram2D.all_nan g = true.
Proof.
  intros Hx Hy Hnan.
  destruct (median_statistic_grid x_indices y_indices features Hx Hy)
    as (g & Hrun & Hshape & Hcells).
  exists g. split; [exact Hrun |].
  apply (all_nan_grid g _ _ Hshape). intros i j Hi Hj.
  rewrite Hcells by lia. f_equal.
  pose proof (values_in_cell_all _ x_indices y_indices features i j Hnan)
    as Hvs.
  destruct (values_in_cell x_indices y_indices features i j) as [| v vs]
    eqn:E; [reflexivity |].
  apply np_median_all_nan; [discriminate | exact Hvs].
Qed.

(** X9.  Color indices that are all NaN hide the overlay of a
    Histogram2D that holds data: the setter returns normally without
    consulting the overlay colormap or the normalization method (an
    unknown method name included), removes the overlay image that was
    shown, draws no new one and leaves [_overlay_histogram_image] at
    None. *)
Theorem histogram_all_nan_indices_hide_overlay (s : Histogram2D.t)
    (a : ndarray) (d : list point) (hist : histogram) :
  Histogram2D._data s = Some d ->
  d <> [] ->
  Histogram2D._histogram s = Some hist ->
  Forall (fun v => isnan v = true) (as_floats a) ->
  exists s',
    Histogram2D.color_indices_set (ArgArray a) s = (inr tt, s')
    /\ Histogram2D._overlay_histogram_image s' = None
    /\ Histogram2D._color_indices s' = ArgArray a
    /\ Histogram2D._overlay_color_normalization_method s'
       = Histogram2D._overlay_color_normalization_method s
    /\ new_events s s'
       = match Histogram2D._overlay_histogram_image s with
         | Some h => [image_remove h]
         | None => []
         end ++ [color_indices_changed_signal_emit (ArgArray a); draw_idle].
Proof.
  intros Hdata Hne Hhist Hnan. unfold Histogram2D.color_indices_set.
  erewrite bind_step by reflexivity.
  erewrite bind_step by reflexivity.
  erewrite bind_step by reflexivity.
  rewrite Hhist, Hdata. destruct hist as [[counts x_edges] y_edges].
  destruct (median_statistic_all_nan
              (map (fun p => bin_index x_edges p.1) d)
              (map (fun p => bin_index y_edges p.2) d) a)
    as (stat & Hstat & Hall).
  { destruct d; [congruence | discriminate]. }
  { destruct d; [congruence | discriminate]. }
  { exact Hnan. }
  unfold new_events.
  destruct (Histogram2D._overlay_histogram_image s) as [h |] eqn:Himg.
  - erewrite bind_step by reflexivity.
    erewrite bind_step by reflexivity. cbv beta iota.
    erewrite bind_step by reflexivity.
    erewrite bind_step by reflexivity.
    erewrite bind_step by (unfold lift; rewrite Hstat; reflexivity).
    rewrite Hall. cbn [negb].
    erewrite bind_step by reflexivity.
    erewrite bind_step by reflexivity.
    erewrite bind_step by reflexivity.
    eexists. split; [reflexivity |]. cbn.
    rewrite <- !app_assoc, drop_app_length. auto.
  - erewrite bind_step by reflexivity.
    erewrite bind_step by reflexivity. cbv beta iota.
    erewrite bind_step by reflexivity.
    erewrite bind_step by reflexivity.
    erewrite bind_step by (unfold lift; rewrite Hstat; reflexivity).
    rewrite Hall. cbn [negb].
    erewrite bind_step by reflexivity.
    erewrite bind_step by reflexivity.
    erewrite bind_step by reflexivity.
    eexists. split; [reflexivity |]. cbn.
    rewrite Himg, <- !app_assoc, drop_app_length. auto.
Qed.

Lemma histogram_all_nan_indices_hide_overlay_witness :
  Histogram2D._data coloured_histogram = Some three_points
  /\ three_points <> []
  /\ Forall (fun v => isnan v = true) (as_floats (FloatArray [NaN; NaN; NaN]))
  /\ exists hist s',
      Histogram2D._histogram coloured_histogram = Some hist
      /\ Histogram2D.color_indices_set
           (ArgArray (FloatArray [NaN; NaN; NaN])) coloured_histogram
         = (inr tt, s')
      /\ Histogram2D._overlay_histogram_image s' = None.
Proof.
  assert (Forall (fun v => isnan v = true)
            (as_floats (FloatArray [NaN; NaN; NaN]))) as Hnan
      by (repeat constructor).
  split; [vm_compute; reflexivity |]. split; [discriminate |].
  split; [exact Hnan |].
  destruct (Histogram2D._histogram coloured_histogram) as [hist |] eqn:Hh;
    [| vm_compute in Hh; discriminate].
  destruct (histogram_all_nan_indices_hide_overlay coloured_histogram
              (FloatArray [NaN; NaN; NaN]) three_points hist)
    as (s' & Hrun & Himg & _);
    [vm_compute; reflexivity | discriminate | exact Hh | exact Hnan |].
  exists hist, s'. split; [reflexivity |]. split; [exact Hrun | exact Himg].
Defined.

(** ** The histogram held by a Histogram2D *)

#[local] Instance histogram_same_base_preorder : PreOrder histogram_same_base.
Proof.
  split.
  - intros s. repeat split.
  - intros s1 s2 s3 (? & ? & ?) (? & ? & ?).
    unfold histogram_same_base. repeat split; congruence.
Qed.






Lemma np_linspace_length start stop div :
  length (np_linspace start stop div) = div + 1.
Proof.
  unfold np_linspace. rewrite length_app, length_map, length_seq. reflexivity.
Qed.



Lemma finite_values_ok (a : list float64) (qs : list Q) :
  finite_values a = inr qs -> Forall (fun v => isfinite v = true) a.
Proof.
  unfold finite_values. destruct (mapM finite_value a) as [l |] eqn:H;
    [| discriminate].
  intros _. apply mapM_Some_1 in H.
  induction H as [| x y l k Hx _ IH]; constructor; [| exact IH].
  destruct x; [discriminate | discriminate | reflexivity | discriminate].
Qed.

(** [np.histogram2d] refuses a number of bins below 1 and coordinates
    that are not finite. *)
Lemma np_histogram2d_rejects (d : list point) (bins : Z) :
  (bins < 1)%Z \/ ~ Forall finite_point d ->
  np_histogram2d (map fst d) (map snd d) bins = inl ValueError.
Proof.
  intros Hbad. unfold np_histogram2d.
  destruct (Z.ltb_spec bins 1); [reflexivity |].
  destruct Hbad as [? | Hbad]; [lia |].
  destruct (finite_values (map fst d)) as [e | xs] eqn:Hx.
  - unfold finite_values in Hx.
    destruct (mapM finite_value (map fst d)); [discriminate |].
    injection Hx as <-. reflexivity.
  - destruct (finite_values (map snd d)) as [e | ys] eqn:Hy.
    + unfold finite_values in Hy.
      destruct (mapM finite_value (map snd d)); [discriminate |].
      injection Hy as <-. reflexivity.
    + exfalso. apply Hbad.
      apply finite_values_ok in Hx. apply finite_values_ok in Hy.
      apply Forall_forall. intros q Hq. split.
      * apply (proj1 (Forall_forall _ _) Hx).
        apply list_elem_of_fmap. exists q. auto.
      * apply (proj1 (Forall_forall _ _) Hy).
        apply list_elem_of_fmap. exists q. auto.
Qed.

(** X11.  A [data] assignment to a Histogram2D raises ValueError when
    [bins] is below 1 or a coordinate is NaN or infinite
    ([np.histogram2d] refuses them).  By then the new data has been
    stored, [data_changed_signal] emitted and the histogram image
    removed from the axes; [_histogram] still holds the histogram of the
    old data and [_histogram_image] the removed image. *)
Theorem histogram_data_set_rejects_bad_input (h : Histogram2D.t) (p : point)
    (value : list point) :
  (Histogram2D._bins h < 1)%Z \/ ~ Forall finite_point (p :: value) ->
  exists h',
    Histogram2D.data_set (Some (p :: value)) h = (inl ValueError, h')
    /\ Histogram2D._data h' = Some (p :: value)
    /\ Histogram2D._histogram h' = Histogram2D._histogram h
    /\ Histogram2D._histogram_image h' = Histogram2D._histogram_image h
    /\ new_events h h'
       = data_changed_signal_emit (p :: value)
         :: match Histogram2D._histogram_image h with
            | Some image => [image_remove image]
            | None => []
            end.
Proof.
  intros Hbad. apply np_histogram2d_rejects in Hbad.
  unfold Histogram2D.data_set. set (d := p :: value) in *.
  erewrite bind_step by reflexivity.
  erewrite bind_step by reflexivity.
  erewrite bind_step by reflexivity.
  unfold new_events.
  destruct (Histogram2D._histogram_image h) as [image |] eqn:Himg.
  - erewrite bind_step by (simpl; rewrite Himg; reflexivity).
    erewrite bind_raise
      by (simpl Histogram2D._bins; unfold lift; rewrite Hbad; reflexivity).
    eexists. split; [reflexivity |]. simpl.
    rewrite ?Himg, <- ?app_assoc, drop_app_length. auto.
  - erewrite bind_step by (simpl; rewrite Himg; reflexivity).
    erewrite bind_raise
      by (simpl Histogram2D._bins; unfold lift; rewrite Hbad; reflexivity).
    eexists. split; [reflexivity |]. simpl.
    rewrite ?Himg, drop_app_length. auto.
Qed.

Lemma histogram_data_set_rejects_bad_input_witness :
  ((Histogram2D._bins three_point_histogram < 1)%Z
   \/ ~ Forall finite_point [(Fin 1, NaN)])
  /\ exists h',
      Histogram2D.data_set (Some [(Fin 1, NaN)]) three_point_histogram
      = (inl ValueError, h')
      /\ Histogram2D._data h' = Some [(Fin 1, NaN)]
      /\ Histogram2D._histogram h'
         = Histogram2D._histogram three_point_histogram
      /\ Histogram2D._histogram_image h'
         = Histogram2D._histogram_image three_point_histogram
      /\ new_events three_point_histogram h'
         = data_changed_signal_emit [(Fin 1, NaN)]
           :: match Histogram2D._histogram_image three_point_histogram with
              | Some image => [image_remove image]
              | None => []
              end.
Proof.
  assert (~ Forall finite_point [(Fin 1, NaN)]) as Hbad.
  { intros H. apply Forall_cons in H as [[_ H] _]. discriminate. }
  split; [right; exact Hbad |].
  apply (histogram_data_set_rejects_bad_input three_point_histogram
           (Fin 1, NaN) []).
  right. exact Hbad.
Defined.

(** ** Bins: [np.histogram2d], [np.digitize] and the patches *)

Lemma np_digitize_fin (edges : list Q) (x : Q) :
  np_digitize (map Fin edges) (Fin x) = searchsorted_right edges x.
Proof.
  unfold np_digitize, searchsorted_right. simpl.
  induction edges as [| e edges IH]; [reflexivity |]. simpl.
  destruct (Qle_bool e x); simpl; rewrite IH; reflexivity.
Qed.

Lemma searchsorted_right_none (edges : list Q) (x : Q) :
  Forall (fun e => ~ (e <= x)%Q) edges -> searchsorted_right edges x = 0.
Proof.
  unfold searchsorted_right. induction 1 as [| e edges He _ IH];
    [reflexivity |]. simpl.
  destruct (Qle_bool e x) eqn:Hle; [| exact IH].
  apply Qle_bool_iff in Hle. contradiction.
Qed.

Lemma increasing_tail (e : Q) (edges : list Q) :
  increasing (e :: edges) -> increasing edges.
Proof.
  intros H i j a b Hij Ha Hb. exact (H (S i) (S j) a b (le_n_S _ _ Hij) Ha Hb).
Qed.

(** On increasing edges, the edges that are [<= x] are the first ones. *)
Lemma searchsorted_right_spec (edges : list Q) (x : Q) :
  increasing edges ->
  forall i a, edges !! i = Some a ->
              (i < searchsorted_right edges x <-> (a <= x)%Q).
Proof.
  induction edges as [| e edges IH]; intros Hinc i a Ha; [discriminate |].
  unfold searchsorted_right in *. simpl.
  destruct (Qle_bool e x) eqn:Hle.
  - simpl. destruct i as [| i]; simpl in Ha.
    + injection Ha as <-. apply Qle_bool_iff in Hle. split; [auto | lia].
    + rewrite <- (IH (increasing_tail _ _ Hinc) i a Ha). lia.
  - assert (~ (e <= x)%Q) as Hgt
        by (intros H; apply Qle_bool_iff in H; congruence).
    pose proof (searchsorted_right_none edges x) as Hnone.
    unfold searchsorted_right in Hnone. rewrite Hnone.
    + split; [lia |]. intros Hax. exfalso. apply Hgt.
      apply Qle_trans with a; [| exact Hax].
      exact (Hinc 0 i e a (Nat.le_0_l _) eq_refl Ha).
    + apply Forall_forall. intros b Hb Hbx.
      apply list_elem_of_lookup in Hb as [j Hj]. apply Hgt.
      apply Qle_trans with b; [| exact Hbx].
      exact (Hinc 0 (S j) e b (Nat.le_0_l _) eq_refl Hj).
Qed.

Lemma searchsorted_right_le_length (edges : list Q) (x : Q) :
  searchsorted_right edges x <= length edges.
Proof. unfold searchsorted_right. apply List.filter_length_le. Qed.

Lemma np_linspace_lookup (start stop : Q) (div i : nat) (e : Q) :
  0 < div ->
  np_linspace start stop div !! i = Some e ->
  i <= div
  /\ (e == inject_Z (Z.of_nat i) * ((stop - start) / inject_Z (Z.of_nat div))
          + start)%Q.
Proof.
  intros Hdiv He. unfold np_linspace in He.
  assert (~ (inject_Z (Z.of_nat div) == 0)%Q) as Hnz.
  { unfold Qeq, inject_Z. simpl. lia. }
  destruct (decide (i < div)) as [Hlt | Hge].
  - rewrite lookup_app_l in He by (rewrite length_map, length_seq; exact Hlt).
    rewrite list_lookup_fmap, lookup_seq_lt in He by exact Hlt.
    simpl in He. injection He as <-. split; [lia |]. apply Qred_correct.
  - rewrite lookup_app_r in He by (rewrite length_map, length_seq; lia).
    rewrite length_map, length_seq in He.
    destruct (i - div) as [| k] eqn:Hk; [| destruct k; discriminate].
    simpl in He. injection He as <-.
    assert (i = div) as -> by lia. split; [lia |].
    rewrite Qred_correct. field. exact Hnz.
Qed.

Lemma np_linspace_increasing (start stop : Q) (div : nat) :
  0 < div -> (start <= stop)%Q -> increasing (np_linspace start stop div).
Proof.
  intros Hdiv Hle i j a b Hij Ha Hb.
  apply (np_linspace_lookup _ _ _ _ _ Hdiv) in Ha as [_ ->].
  apply (np_linspace_lookup _ _ _ _ _ Hdiv) in Hb as [_ ->].
  set (step := ((stop - start) / inject_Z (Z.of_nat div))%Q).
  assert (0 <= step)%Q as Hstep.
  { unfold step. apply Qle_shift_div_l.
    - unfold Qlt, inject_Z. simpl. lia.
    - lra. }
  apply Qplus_le_l. apply Qmult_le_compat_r; [| exact Hstep].
  rewrite <- Zle_Qle. lia.
Qed.

Lemma np_linspace_first (start stop : Q) (div : nat) :
  0 < div ->
  exists e, np_linspace start stop div !! 0 = Some e /\ (e == start)%Q.
Proof.
  intros Hdiv.
  destruct (lookup_lt_is_Some_2 (np_linspace start stop div) 0) as [e He];
    [rewrite np_linspace_length; lia |].
  exists e. split; [exact He |].
  apply (np_linspace_lookup _ _ _ _ _ Hdiv) in He as [_ ->].
  change (inject_Z (Z.of_nat 0)) with 0%Q. ring.
Qed.

Lemma np_linspace_last (start stop : Q) (div : nat) :
  np_linspace start stop div !! div = Some (Qred stop)
  /\ List.last (np_linspace start stop div) 0%Q = Qred stop.
Proof.
  unfold np_linspace. split.
  - rewrite lookup_app_r by (rewrite length_map, length_seq; lia).
    rewrite length_map, length_seq, Nat.sub_diag. reflexivity.
  - apply List.last_last.
Qed.

Lemma foldl_qmin_le (l : list Q) (x e : Q) :
  e ∈ x :: l -> (foldl qmin x l <= e)%Q.
Proof.
  revert x e. induction l as [| y l IH]; intros x e He; simpl.
  - apply list_elem_of_singleton in He as ->. apply Qle_refl.
  - assert (qmin x y <= x /\ qmin x y <= y)%Q as [Hx Hy].
    { unfold qmin. destruct (Qle_bool x y) eqn:Hle.
      - apply Qle_bool_iff in Hle. split; [apply Qle_refl | exact Hle].
      - split; [| apply Qle_refl].
        destruct (Qlt_le_dec y x) as [H | H]; [apply Qlt_le_weak; exact H |].
        apply Qle_bool_iff in H. congruence. }
    apply elem_of_cons in He as [-> | He].
    + apply Qle_trans with (qmin x y); [| exact Hx]. apply IH. left.
    + apply elem_of_cons in He as [-> | He].
      * apply Qle_trans with (qmin x y); [| exact Hy]. apply IH. left.
      * apply IH. right. exact He.
Qed.

Lemma foldl_qmax_ge (l : list Q) (x e : Q) :
  e ∈ x :: l -> (e <= foldl qmax x l)%Q.
Proof.
  revert x e. induction l as [| y l IH]; intros x e He; simpl.
  - apply list_elem_of_singleton in He as ->. apply Qle_refl.
  - assert (x <= qmax x y /\ y <= qmax x y)%Q as [Hx Hy].
    { unfold qmax. destruct (Qle_bool x y) eqn:Hle.
      - apply Qle_bool_iff in Hle. split; [exact Hle | apply Qle_refl].
      - split; [apply Qle_refl |].
        destruct (Qlt_le_dec y x) as [H | H]; [apply Qlt_le_weak; exact H |].
        apply Qle_bool_iff in H. congruence. }
    apply elem_of_cons in He as [-> | He].
    + apply Qle_trans with (qmax x y); [exact Hx |]. apply IH. left.
    + apply elem_of_cons in He as [-> | He].
      * apply Qle_trans with (qmax x y); [exact Hy |]. apply IH. left.
      * apply IH. right. exact He.
Qed.

(** The range [np.histogram2d] bins over is not empty and holds every
    sample value. *)
Lemma _get_outer_edges_range (a : list Q) (lo hi : Q) :
  _get_outer_edges a = (lo, hi) ->
  (lo < hi)%Q /\ Forall (fun x => (lo <= x <= hi)%Q) a.
Proof.
  unfold _get_outer_edges. destruct a as [| q qs].
  - intros [= <- <-]. split; [reflexivity | constructor].
  - set (first_edge := foldl qmin q qs). set (last_edge := foldl qmax q qs).
    assert (Forall (fun x => (first_edge <= x <= last_edge)%Q) (q :: qs))
      as Hall.
    { apply Forall_forall. intros x Hx.
      split; [apply foldl_qmin_le | apply foldl_qmax_ge]; exact Hx. }
    assert (first_edge <= last_edge)%Q as Hle.
    { apply Forall_cons in Hall as [[H1 H2] _].
      apply Qle_trans with q; assumption. }
    destruct (Qeq_bool first_edge last_edge) eqn:Heq; intros [= <- <-].
    + split; [lra |]. eapply Forall_impl; [exact Hall |].
      intros x [H1 H2]. simpl. split; lra.
    + split; [| exact Hall].
      apply Qle_lteq in Hle as [Hlt | Heq']; [exact Hlt |].
      apply Qeq_bool_iff in Heq'. congruence.
Qed.

(** On the edges of [np.histogram2d], the bin that [histogramdd] counts a
    sample value in is the bin the overlay path computes with
    [np.digitize] and [clip]. *)
Lemma hist_bin_is_bin_index (lo hi x : Q) (n : nat) :
  0 < n -> (lo < hi)%Q -> (lo <= x <= hi)%Q ->
  hist_bin (np_linspace lo hi n) x
  = bin_index (map Fin (np_linspace lo hi n)) (Fin x)
  /\ hist_bin (np_linspace lo hi n) x < n.
Proof.
  intros Hn Hlt [Hlo Hhi].
  set (edges := np_linspace lo hi n).
  pose proof (np_linspace_increasing lo hi n Hn (Qlt_le_weak _ _ Hlt)) as Hinc.
  fold edges in Hinc.
  destruct (np_linspace_first lo hi n Hn) as (e0 & He0 & Heq0). fold edges in He0.
  destruct (np_linspace_last lo hi n) as [Hlast Hlast']. fold edges in Hlast, Hlast'.
  pose proof (searchsorted_right_le_length edges x) as Hlen.
  unfold edges in Hlen at 2. rewrite np_linspace_length in Hlen.
  pose proof (proj2 (searchsorted_right_spec edges x Hinc 0 e0 He0)) as Hpos.
  pose proof (searchsorted_right_spec edges x Hinc n (Qred hi) Hlast) as Htop.
  rewrite Qred_correct in Htop.
  assert (0 < searchsorted_right edges x) as Hc by (apply Hpos; lra).
  unfold hist_bin, bin_index. rewrite np_digitize_fin, length_map, Hlast'.
  unfold edges at 4. rewrite np_linspace_length.
  fold edges. set (c := searchsorted_right edges x) in *.
  destruct (Qeq_bool x (Qred hi)) eqn:Heq.
  - apply Qeq_bool_iff in Heq. rewrite Qred_correct in Heq.
    assert (n < c) by (apply Htop; lra). lia.
  - assert (~ (x == hi)%Q) as Hne.
    { intros H. rewrite <- (Qred_correct hi) in H.
      apply Qeq_bool_iff in H. congruence. }
    assert (~ n < c) by (intros H; apply Htop in H; apply Hne; lra). lia.
Qed.

Lemma finite_values_inv (a : list float64) (qs : list Q) :
  finite_values a = inr qs -> a = map Fin qs.
Proof.
  unfold finite_values. destruct (mapM finite_value a) as [l |] eqn:H;
    [| discriminate].
  intros [= <-]. apply mapM_Some_1 in H.
  induction H as [| x y a l Hx _ IH]; [reflexivity |].
  simpl. rewrite <- IH. f_equal.
  destruct x; try discriminate. injection Hx as <-. reflexivity.
Qed.

Lemma length_filter_map {A B} (P : B -> Prop) `{!forall b, Decision (P b)}
    (f : A -> B) (l : list A) :
  length (filter P (map f l)) = length (filter (fun a => P (f a)) l).
Proof.
  induction l as [| a l IH]; [reflexivity |]. simpl.
  rewrite !filter_cons. destruct (decide (P (f a))); simpl; rewrite IH;
    reflexivity.
Qed.

(** What [np.histogram2d] returns on finite points: linearly spaced
    edges over a range that is not empty and holds every point, and in
    each cell the number of points that the overlay path bins there. *)
Lemma np_histogram2d_spec (d : list point) (bins : Z) :
  (1 <= bins)%Z ->
  Forall finite_point d ->
  let n := Z.to_nat bins in
  exists counts xlo xhi ylo yhi,
    let x_edges := map Fin (np_linspace xlo xhi n) in
    let y_edges := map Fin (np_linspace ylo yhi n) in
    np_histogram2d (map fst d) (map snd d) bins
    = inr (counts, x_edges, y_edges)
    /\ (xlo < xhi)%Q /\ (ylo < yhi)%Q
    /\ Forall (fun p => exists x y,
                   p = (Fin x, Fin y)
                   /\ (xlo <= x <= xhi)%Q /\ (ylo <= y <= yhi)%Q) d
    /\ (forall p, p ∈ d -> bin_index x_edges p.1 < n
                           /\ bin_index y_edges p.2 < n)
    /\ forall i j, i < n -> j < n ->
        grid_get counts i j
        = inr (Fin (inject_Z (Z.of_nat
                 (points_in_cell x_edges y_edges d (i, j))))).
Proof.
  intros Hbins Hfin n.
  assert (0 < n) as Hn by (unfold n; lia).
  destruct (finite_values_returns (map fst d)) as (xs & Hxs & _).
  { apply List.Forall_map. eapply Forall_impl; [exact Hfin |].
    intros q Hq. apply Hq. }
  destruct (finite_values_returns (map snd d)) as (ys & Hys & _).
  { apply List.Forall_map. eapply Forall_impl; [exact Hfin |].
    intros q Hq. apply Hq. }
  pose proof (finite_values_inv _ _ Hxs) as Hfst.
  pose proof (finite_values_inv _ _ Hys) as Hsnd.
  destruct (_get_outer_edges xs) as [xlo xhi] eqn:Hxr.
  destruct (_get_outer_edges ys) as [ylo yhi] eqn:Hyr.
  destruct (_get_outer_edges_range _ _ _ Hxr) as [Hxlt Hxall].
  destruct (_get_outer_edges_range _ _ _ Hyr) as [Hylt Hyall].
  assert (Forall (fun p => exists x y,
                      p = (Fin x, Fin y)
                      /\ (xlo <= x <= xhi)%Q /\ (ylo <= y <= yhi)%Q) d)
    as Hrange.
  { apply Forall_lookup. intros k [px py] Hk.
    assert (map fst d !! k = Some px) as Hpx
        by (rewrite list_lookup_fmap, Hk; reflexivity).
    assert (map snd d !! k = Some py) as Hpy
        by (rewrite list_lookup_fmap, Hk; reflexivity).
    rewrite Hfst, list_lookup_fmap in Hpx. rewrite Hsnd, list_lookup_fmap in Hpy.
    destruct (xs !! k) as [x |] eqn:Hx; [| discriminate].
    destruct (ys !! k) as [y |] eqn:Hy; [| discriminate].
    simpl in Hpx, Hpy. injection Hpx as <-. injection Hpy as <-.
    exists x, y. split; [reflexivity |]. split.
    - exact (proj1 (Forall_lookup _ _) Hxall k x Hx).
    - exact (proj1 (Forall_lookup _ _) Hyall k y Hy). }
  set (x_edges := map Fin (np_linspace xlo xhi n)).
  set (y_edges := map Fin (np_linspace ylo yhi n)).
  assert (forall p, p ∈ d ->
            (hist_bin (np_linspace xlo xhi n)
               (default 0%Q (finite_value p.1)),
             hist_bin (np_linspace ylo yhi n)
               (default 0%Q (finite_value p.2)))
            = cell_of x_edges y_edges p
            /\ bin_index x_edges p.1 < n /\ bin_index y_edges p.2 < n)
    as Hcell.
  { intros p Hp.
    destruct (proj1 (Forall_forall _ _) Hrange p Hp)
      as (x & y & -> & Hx & Hy).
    destruct (hist_bin_is_bin_index xlo xhi x n Hn Hxlt Hx) as [Hbx Hbx'].
    destruct (hist_bin_is_bin_index ylo yhi y n Hn Hylt Hy) as [Hby Hby'].
    unfold cell_of, x_edges, y_edges. simpl.
    rewrite <- Hbx, <- Hby. auto. }
  exists (map (fun i =>
                 map (fun j =>
                        Fin (inject_Z (Z.of_nat
                          (points_in_cell x_edges y_edges d (i, j)))))
                   (seq 0 n))
            (seq 0 n)), xlo, xhi, ylo, yhi.
  cbv zeta. fold x_edges y_edges.
  split; [| split; [exact Hxlt |]; split; [exact Hylt |];
            split; [exact Hrange |]; split].
  - unfold np_histogram2d. destruct (Z.ltb_spec bins 1); [lia |].
    rewrite Hxs, Hys. simpl. rewrite Hxr, Hyr. fold n.
    fold x_edges y_edges. do 3 f_equal.
    apply map_ext. intros i. apply map_ext. intros j. do 3 f_equal.
    unfold points_in_cell.
    assert (zip (map (hist_bin (np_linspace xlo xhi n)) xs)
              (map (hist_bin (np_linspace ylo yhi n)) ys)
            = map (cell_of x_edges y_edges) d) as ->.
    { apply list_eq. intros k.
      rewrite lookup_zip_with, !list_lookup_fmap.
      destruct (d !! k) as [p |] eqn:Hk.
      - assert (p ∈ d) as Hp by (apply list_elem_of_lookup; eauto).
        simpl. destruct (Hcell p Hp) as [<- _].
        assert (map fst d !! k = Some p.1) as Hpx
            by (rewrite list_lookup_fmap, Hk; reflexivity).
        assert (map snd d !! k = Some p.2) as Hpy
            by (rewrite list_lookup_fmap, Hk; reflexivity).
        rewrite Hfst, list_lookup_fmap in Hpx.
        rewrite Hsnd, list_lookup_fmap in Hpy.
        destruct (xs !! k) as [x |]; [| discriminate].
        destruct (ys !! k) as [y |]; [| discriminate].
        simpl in Hpx, Hpy. injection Hpx as Hpx. injection Hpy as Hpy.
        rewrite <- Hpx, <- Hpy. reflexivity.
      - assert (map fst d !! k = None) as Hpx
            by (rewrite list_lookup_fmap, Hk; reflexivity).
        rewrite Hfst, list_lookup_fmap in Hpx.
        destruct (xs !! k); [discriminate | reflexivity]. }
    apply length_filter_map.
  - intros p Hp. exact (proj2 (Hcell p Hp)).
  - intros i j Hi Hj. unfold grid_get.
    rewrite list_lookup_fmap, lookup_seq_lt by exact Hi. simpl.
    rewrite list_lookup_fmap, lookup_seq_lt by exact Hj. reflexivity.
Qed.

(** X12.  The two binnings of a Histogram2D agree: on points with finite
    coordinates, the count that [np.histogram2d] returns for a cell is
    the number of points that the [color_indices] setter assigns to that
    cell with [np.digitize] and [clip], and every point is assigned to a
    cell inside the grid.  A point on the last edge is in the last bin
    on both sides. *)
Theorem histogram_counts_agree_with_overlay_bins (d : list point) (bins : Z) :
  (1 <= bins)%Z ->
  Forall finite_point d ->
  exists counts x_edges y_edges,
    np_histogram2d (map fst d) (map snd d) bins
    = inr (counts, x_edges, y_edges)
    /\ (forall p, p ∈ d -> bin_index x_edges p.1 < Z.to_nat bins
                           /\ bin_index y_edges p.2 < Z.to_nat bins)
    /\ forall i j, i < Z.to_nat bins -> j < Z.to_nat bins ->
        grid_get counts i j
        = inr (Fin (inject_Z (Z.of_nat
                 (points_in_cell x_edges y_edges d (i, j))))).
Proof.
  intros Hbins Hfin.
  destruct (np_histogram2d_spec d bins Hbins Hfin)
    as (counts & xlo & xhi & ylo & yhi & Hrun & _ & _ & _ & Hin & Hcells).
  eauto 10.
Qed.

Lemma histogram_counts_agree_with_overlay_bins_witness :
  (1 <= 2)%Z
  /\ Forall finite_point three_points
  /\ exists counts x_edges y_edges,
      np_histogram2d (map fst three_points) (map snd three_points) 2
      = inr (counts, x_edges, y_edges)
      /\ (forall p, p ∈ three_points ->
                    bin_index x_edges p.1 < Z.to_nat 2
                    /\ bin_index y_edges p.2 < Z.to_nat 2)
      /\ forall i j, i < Z.to_nat 2 -> j < Z.to_nat 2 ->
          grid_get counts i j
          = inr (Fin (inject_Z (Z.of_nat
                   (points_in_cell x_edges y_edges three_points (i, j))))).
Proof.
  assert (Forall finite_point three_points) as Hfin by (repeat constructor).
  split; [lia |]. split; [exact Hfin |].
  apply (histogram_counts_agree_with_overlay_bins three_points 2);
    [lia | exact Hfin].
Defined.



(** ** The calls into matplotlib return *)










(** *** The colour conversion of the counts *)




(** *** The colour conversion of the overlay *)





(** *** What [np.histogram2d] returns *)










(** *** The [data] setter of a ready histogram *)







(** Under log normalization the three-point histogram reads 0.01 where
    [np.histogram2d] counted no point. *)
Example log_histogram_counts_are_clamped :
  Histogram2D._histogram
    (snd (Histogram2D.data_set (Some three_points) empty_log_histogram))
  = Some ([[Fin 2; Fin 0.01]; [Fin 0.01; Fin 1]],
          [Fin 0; Fin (5 # 2); Fin 5], [Fin 0; Fin (5 # 2); Fin 5]).
Proof. vm_compute. reflexivity. Qed.

(** Two histograms that are not ready.  With log normalization of the
    overlay, the default color indices 0 give [LogNorm(0.01, 0)], which
    matplotlib refuses with ValueError.  With three bins and a single
    point, the statistic grid of the overlay is 2 by 2 for 3 by 3
    centres, which [pcolormesh] refuses with TypeError.  Both assignments
    have stored the data and drawn the counts by then. *)
Example histogram_log_overlay_of_default_indices_raises :
  let h := snd (Histogram2D.overlay_color_normalization_method_set
                  "log"%string
                  (snd (Histogram2D.overlay_colormap_set gray
                          empty_histogram))) in
  let r := Histogram2D.data_set (Some three_points) h in
  fst r = inl ValueError
  /\ Histogram2D._data (snd r) = Some three_points
  /\ Histogram2D._histogram_image (snd r) <> None
  /\ Histogram2D._overlay_histogram_image (snd r) = None.
Proof. vm_compute. repeat split; discriminate. Qed.

Example histogram_overlay_smaller_than_histogram_raises :
  let h := snd (Histogram2D.__init__ None tab10 ArgNone 3 gray) in
  let r := Histogram2D.data_set (Some [(Fin 1, Fin 1)]) h in
  fst r = inl TypeError
  /\ Histogram2D._data (snd r) = Some [(Fin 1, Fin 1)]
  /\ Histogram2D._histogram_image (snd r) <> None
  /\ Histogram2D._overlay_histogram_image (snd r) = None.
Proof. vm_compute. repeat split; discriminate. Qed.

(** ** The resize rule *)

#[local] Instance histogram_same_data_indices_preorder :
  PreOrder histogram_same_data_indices.
Proof.
  split.
  - intros s. split; reflexivity.
  - intros s1 s2 s3 [? ?] [? ?]. unfold histogram_same_data_indices.
    split; congruence.
Qed.








#[local] Instance scatter_indices_stay_preorder a :
  PreOrder (scatter_indices_stay a).
Proof. split; intros ?; unfold scatter_indices_stay; auto. Qed.

















(** The other case left out: the first [data] assignment to a scatter plot
    draws it and resets the color indices to the default 0. *)
Example first_data_set_resets_color_indices :
  Scatter._color_indices
    (snd (Scatter.data_set (Some three_points)
            (snd (Scatter.color_indices_set
                    (ArgArray (IntArray [1; 2; 3; 4]%Z)) empty_scatter))))
  = ArgArray (IntArray [0; 0; 0]%Z).
Proof. vm_compute. reflexivity. Qed.

(** The first [data] assignment to a histogram gives each point the
    default color index 0. *)
Example first_data_set_gives_default_color_indices :
  Histogram2D._color_indices empty_histogram = ArgNone
  /\ Histogram2D._color_indices three_point_histogram
     = ArgArray (IntArray [0; 0; 0]%Z).
Proof. vm_compute. split; reflexivity. Qed.


(** ** Normalizations that matplotlib refuses *)

(** X14.  Under log normalization with a continuous colormap, the
    [color_indices] setter of a drawn scatter plot raises ValueError on
    every array whose minimum is at most 0 and whose maximum is below
    0.01 (the default indices 0 among them): the floor 0.01 becomes
    [vmin], above [vmax], and matplotlib refuses the normalization when
    the colours are computed.  By then the array is stored with its
    entries [<= 0] clamped and the warning about the log normalization
    is issued; no colour is set, no signal is emitted and no draw is
    asked for. *)
Theorem scatter_log_floor_above_maximum_raises (s : Scatter.t)
    (a a' : ndarray) (lo hi : scalar) :
  Scatter._scatter s = true ->
  categorical (Scatter._overlay_colormap s) = false ->
  Scatter._color_normalization_method s = "log"%string ->
  nanmin a = inr lo ->
  nanmax a = inr hi ->
  scalar_le0 lo = true ->
  flt (to_float hi) (Fin 0.01) = true ->
  clamp_le0 a (SFloat (Fin 0.01)) = inr a' ->
  exists s',
    Scatter.color_indices_set (ArgArray a) s = (inl ValueError, s')
    /\ Scatter._color_indices s' = ArgArray a'
    /\ Scatter.log s'
       = Scatter.log s
         ++ [warnings_warn (Log_normalization_applied (SFloat (Fin 0.01)))].
Proof.
  intros Hdrawn Hcat Hlog Hlo Hhi Hle Hlt Hclamp.
  unfold Scatter.color_indices_set.
  erewrite bind_step by reflexivity.
  erewrite bind_step by reflexivity.
  erewrite bind_step by reflexivity.
  cbv beta iota. rewrite Hdrawn, Hlog, Hcat.
  assert (Scatter.continuous_norm "log" LogNorm_class a
            (Scatter.set__color_indices (ArgArray a) s)
          = (inr (LogNorm (SFloat (Fin 0.01)) hi, a'),
             Scatter.set__color_indices (ArgArray a')
               (snd (Scatter.emit
                       (warnings_warn
                          (Log_normalization_applied (SFloat (Fin 0.01))))
                       (Scatter.set__color_indices (ArgArray a) s)))))
    as Hnorm.
  { unfold Scatter.continuous_norm. rewrite String.eqb_refl.
    unfold bind, lift. cbv beta. rewrite Hlo. cbv beta iota zeta.
    rewrite Hle, Hhi. cbv beta iota. simpl call_vmin_vmax. cbv beta iota.
    rewrite Hclamp. reflexivity. }
  eexists. split; [| split].
  - apply bind_raise.
    erewrite bind_step by reflexivity.
    erewrite bind_step by exact Hnorm. cbv beta iota.
    apply bind_raise. unfold lift, norm_call.
    change (to_float (SFloat (Fin 0.01))) with (Fin 0.01).
    rewrite Hlt. reflexivity.
  - reflexivity.
  - reflexivity.
Qed.

Lemma scatter_log_floor_above_maximum_raises_witness :
  Scatter._scatter log_scatter = true
  /\ categorical (Scatter._overlay_colormap log_scatter) = false
  /\ Scatter._color_normalization_method log_scatter = "log"%string
  /\ exists s',
      Scatter.color_indices_set
        (ArgArray (FloatArray [Fin 0; Fin 0.002; Fin (-1)])) log_scatter
      = (inl ValueError, s')
      /\ Scatter._color_indices s'
         = ArgArray (FloatArray [Fin 0.01; Fin 0.002; Fin 0.01])
      /\ Scatter.log s'
         = Scatter.log log_scatter
           ++ [warnings_warn (Log_normalization_applied (SFloat (Fin 0.01)))].
Proof.
  split; [reflexivity |]. split; [reflexivity |]. split; [reflexivity |].
  apply (scatter_log_floor_above_maximum_raises log_scatter
           (FloatArray [Fin 0; Fin 0.002; Fin (-1)])
           (FloatArray [Fin 0.01; Fin 0.002; Fin 0.01])
           (SFloat (Fin (-1))) (SFloat (Fin 0.002)));
    vm_compute; reflexivity.
Defined.

(** ** The number of bins *)





(** ** The points in the patches of a histogram that holds data *)












